(** * Extraterm render-process extension manager

    A shallow embedding of
    [extraterm/src/render_process/extension/ExtensionManager.ts]: the
    focus-state aggregator and its merge, the when-variables, the command
    query with its ordering, command execution with its failure boundary,
    and extension start-up.

    JavaScript values are modelled as follows.  An object reference that may
    be [null] is an [option]; reference identity ([===] on objects) is
    identity of the node's [nid].  A string is a [string] whose characters
    are its code units.  A function that may throw returns a [Completion]. *)

From Stdlib Require Import List String Ascii ZArith NArith Bool Lia.
From Stdlib Require Import Sorted Permutation.
Import ListNotations.

Set Implicit Arguments.

(* ================================================================== *)
(** * Part I: the embedding                                            *)
(* ================================================================== *)

(** ** DOM nodes on an event's composed path *)

Module Dom.

(** The classes that [ExtensionManager.ts] tests with [instanceof]. *)
Inductive Class : Type :=
| EtTerminal
| TerminalViewer
| TextViewer
| ViewerElement
| EmbeddedViewer
| TabWidget
| HTMLInputElement.

Definition Class_eqb (a b : Class) : bool :=
  match a, b with
  | EtTerminal, EtTerminal
  | TerminalViewer, TerminalViewer
  | TextViewer, TextViewer
  | ViewerElement, ViewerElement
  | EmbeddedViewer, EmbeddedViewer
  | TabWidget, TabWidget
  | HTMLInputElement, HTMLInputElement => true
  | _, _ => false
  end.

(** Modelled from the spec: [Mode] of [viewers/ViewerElementTypes], whose
    declaration is not among the sources.  The manager only compares a
    terminal's mode with [Mode.CURSOR]; the spec calls the other mode
    "normal (non-cursor)". *)
Inductive Mode : Type :=
| DEFAULT
| CURSOR.

Definition Mode_eqb (a b : Mode) : bool :=
  match a, b with
  | DEFAULT, DEFAULT | CURSOR, CURSOR => true
  | _, _ => false
  end.

(** An event target.  [nid] is the object's identity, [classes] the classes
    it is an instance of, [getMode] and [getEditable] what the methods of
    that name return, [parentElement] the DOM property ([None] for [null]
    and for targets that have no such property). *)
#[warnings="-register-all"]
Inductive EventTarget : Type :=
  mkTarget {
    nid : nat;
    classes : list Class;
    getMode : Mode;
    getEditable : bool;
    parentElement : option EventTarget
  }.

(** [target instanceof c] *)
Definition instanceof (target : EventTarget) (c : Class) : bool :=
  existsb (Class_eqb c) (classes target).

(** [ref instanceof c] for a reference that may be [null]. *)
Definition ref_instanceof (r : option EventTarget) (c : Class) : bool :=
  match r with
  | Some t => instanceof t c
  | None => false
  end.

(** [a === b] on references. *)
Definition strict_eq (a b : option EventTarget) : bool :=
  match a, b with
  | None, None => true
  | Some x, Some y => Nat.eqb (nid x) (nid y)
  | _, _ => false
  end.

(** [a || b] on references: an object is truthy, [null] is falsy. *)
Definition js_or (a b : option EventTarget) : option EventTarget :=
  match a with
  | Some _ => a
  | None => b
  end.

(** [ref != null], also the truthiness of a reference. *)
Definition not_null (r : option EventTarget) : bool :=
  match r with
  | Some _ => true
  | None => false
  end.

Record Event : Type := mkEvent { composedPath : list EventTarget }.

End Dom.

(** ** The focus-state snapshot and its aggregation *)

Module FocusState.
Import Dom.

(** [CommonExtensionWindowState], with the nine fields of the object
    literals at lines 57-67 and 451-461. *)
Record CommonExtensionWindowState : Type :=
  mkState {
    activeTabContent : option EventTarget;
    activeTerminal : option EventTarget;
    focusTerminal : option EventTarget;
    activeTextEditor : option EventTarget;
    focusTextEditor : option EventTarget;
    activeTabsWidget : option EventTarget;
    activeViewerElement : option EventTarget;
    focusViewerElement : option EventTarget;
    isInputFieldFocus : bool
  }.

(** The initial value of [_commonExtensionWindowState], and of [newState]
    in [getExtensionWindowStateFromEvent]. *)
Definition emptyState : CommonExtensionWindowState :=
  mkState None None None None None None None None false.

(** Field assignments [state.f = v]. *)
Definition set_activeTabContent v (s : CommonExtensionWindowState) :=
  mkState v (activeTerminal s) (focusTerminal s) (activeTextEditor s)
    (focusTextEditor s) (activeTabsWidget s) (activeViewerElement s)
    (focusViewerElement s) (isInputFieldFocus s).
Definition set_activeTerminal v (s : CommonExtensionWindowState) :=
  mkState (activeTabContent s) v (focusTerminal s) (activeTextEditor s)
    (focusTextEditor s) (activeTabsWidget s) (activeViewerElement s)
    (focusViewerElement s) (isInputFieldFocus s).
Definition set_focusTerminal v (s : CommonExtensionWindowState) :=
  mkState (activeTabContent s) (activeTerminal s) v (activeTextEditor s)
    (focusTextEditor s) (activeTabsWidget s) (activeViewerElement s)
    (focusViewerElement s) (isInputFieldFocus s).
Definition set_activeTextEditor v (s : CommonExtensionWindowState) :=
  mkState (activeTabContent s) (activeTerminal s) (focusTerminal s) v
    (focusTextEditor s) (activeTabsWidget s) (activeViewerElement s)
    (focusViewerElement s) (isInputFieldFocus s).
Definition set_focusTextEditor v (s : CommonExtensionWindowState) :=
  mkState (activeTabContent s) (activeTerminal s) (focusTerminal s)
    (activeTextEditor s) v (activeTabsWidget s) (activeViewerElement s)
    (focusViewerElement s) (isInputFieldFocus s).
Definition set_activeTabsWidget v (s : CommonExtensionWindowState) :=
  mkState (activeTabContent s) (activeTerminal s) (focusTerminal s)
    (activeTextEditor s) (focusTextEditor s) v (activeViewerElement s)
    (focusViewerElement s) (isInputFieldFocus s).
Definition set_activeViewerElement v (s : CommonExtensionWindowState) :=
  mkState (activeTabContent s) (activeTerminal s) (focusTerminal s)
    (activeTextEditor s) (focusTextEditor s) (activeTabsWidget s) v
    (focusViewerElement s) (isInputFieldFocus s).
Definition set_focusViewerElement v (s : CommonExtensionWindowState) :=
  mkState (activeTabContent s) (activeTerminal s) (focusTerminal s)
    (activeTextEditor s) (focusTextEditor s) (activeTabsWidget s)
    (activeViewerElement s) v (isInputFieldFocus s).
Definition set_isInputFieldFocus v (s : CommonExtensionWindowState) :=
  mkState (activeTabContent s) (activeTerminal s) (focusTerminal s)
    (activeTextEditor s) (focusTextEditor s) (activeTabsWidget s)
    (activeViewerElement s) (focusViewerElement s) v.

(** The test of line 479:
    [target.parentElement != null &&
     target.parentElement.parentElement instanceof TabWidget]. *)
Definition grandparentIsTabWidget (target : EventTarget) : bool :=
  match parentElement target with
  | Some p => ref_instanceof (parentElement p) TabWidget
  | None => false
  end.

(** One iteration of the loop over the composed path, lines 465-484. *)
Definition scanTarget (newState : CommonExtensionWindowState)
    (target : EventTarget) : CommonExtensionWindowState :=
  let s1 :=
    if instanceof target EtTerminal
    then set_activeTerminal (Some target) newState
    else newState in
  let s2 :=
    if instanceof target TerminalViewer || instanceof target TextViewer
    then set_activeTextEditor (Some target) s1
    else s1 in
  let s3 :=
    if instanceof target ViewerElement
    then
      if negb (not_null (activeViewerElement s2))
         || ref_instanceof (activeViewerElement s2) EmbeddedViewer
      then set_activeViewerElement (Some target) s2
      else s2
    else s2 in
  let s4 :=
    if instanceof target TabWidget
    then set_activeTabsWidget (Some target) s3
    else s3 in
  let s5 :=
    if grandparentIsTabWidget target
    then set_activeTabContent (Some target) s4
    else s4 in
  if instanceof target HTMLInputElement
  then set_isInputFieldFocus true s5
  else s5.

(** The lines 486-488: the focus fields mirror the active fields. *)
Definition mirrorFocus (s : CommonExtensionWindowState)
    : CommonExtensionWindowState :=
  let s1 := set_focusTerminal (activeTerminal s) s in
  let s2 := set_focusTextEditor (activeTextEditor s1) s1 in
  set_focusViewerElement (activeViewerElement s2) s2.

(** [getExtensionWindowStateFromEvent], lines 450-490. *)
Definition getExtensionWindowStateFromEvent (ev : Event)
    : CommonExtensionWindowState :=
  mirrorFocus (fold_left scanTarget (composedPath ev) emptyState).

(** [_mergeExtensionWindowState], lines 421-442, on the canonical state
    [state]; the result is the canonical state after the assignments. *)
Definition _mergeExtensionWindowState (newState state : CommonExtensionWindowState)
    : CommonExtensionWindowState :=
  let state1 :=
    if strict_eq (activeTabContent state) (activeTabContent newState)
    then
      let a := set_activeTerminal
                 (js_or (focusTerminal newState) (activeTerminal state)) state in
      let b := set_activeTextEditor
                 (js_or (focusTextEditor newState) (activeTextEditor a)) a in
      set_activeViewerElement
        (js_or (focusViewerElement newState) (activeViewerElement b)) b
    else
      let a := set_activeTerminal (focusTerminal newState) state in
      let b := set_focusTerminal (focusTerminal newState) a in
      let c := set_activeTextEditor (focusTextEditor newState) b in
      let d := set_focusTextEditor (focusTextEditor newState) c in
      let e := set_activeViewerElement (focusViewerElement newState) d in
      set_focusViewerElement (focusViewerElement newState) e in
  let state2 := set_activeTabsWidget (activeTabsWidget newState) state1 in
  let state3 := set_activeTabContent (activeTabContent newState) state2 in
  set_isInputFieldFocus (isInputFieldFocus newState) state3.

(** [updateExtensionWindowStateFromEvent], lines 416-419, as a
    transformer of the canonical state. *)
Definition updateExtensionWindowStateFromEvent (ev : Event)
    (state : CommonExtensionWindowState) : CommonExtensionWindowState :=
  let newState := getExtensionWindowStateFromEvent ev in
  _mergeExtensionWindowState newState state.

(** A run of focus events, processed one at a time in order. *)
Definition updateFromEvents (evs : list Event)
    (state : CommonExtensionWindowState) : CommonExtensionWindowState :=
  fold_left (fun s ev => updateExtensionWindowStateFromEvent ev s) evs state.

(** [WhenVariables] of [ExtensionMetadata]; the literal keys [true] and
    [false] are [wv_true] and [wv_false]. *)
Record WhenVariables : Type :=
  mkWhen {
    wv_true : bool;
    wv_false : bool;
    terminalFocus : bool;
    isCursorMode : bool;
    isNormalMode : bool;
    textEditorFocus : bool;
    isTextEditing : bool;
    viewerFocus : bool
  }.

(** [_createWhenVariables], lines 294-328. *)
Definition _createWhenVariables (state : CommonExtensionWindowState)
    : WhenVariables :=
  let w0 := mkWhen true false false false false false false false in
  let w1 :=
    match focusTerminal state with
    | Some term =>
        if Mode_eqb (getMode term) CURSOR
        then mkWhen (wv_true w0) (wv_false w0) true true (isNormalMode w0)
               (textEditorFocus w0) (isTextEditing w0) (viewerFocus w0)
        else mkWhen (wv_true w0) (wv_false w0) true (isCursorMode w0) true
               (textEditorFocus w0) (isTextEditing w0) (viewerFocus w0)
    | None =>
        if not_null (focusViewerElement state)
        then mkWhen (wv_true w0) (wv_false w0) (terminalFocus w0)
               (isCursorMode w0) (isNormalMode w0)
               (textEditorFocus w0) (isTextEditing w0) true
        else w0
    end in
  match focusTextEditor state with
  | Some editor =>
      if negb (terminalFocus w1 && isNormalMode w1)
      then
        let w2 := mkWhen (wv_true w1) (wv_false w1) (terminalFocus w1)
                    (isCursorMode w1) (isNormalMode w1)
                    true (isTextEditing w1) (viewerFocus w1) in
        if getEditable editor
        then mkWhen (wv_true w2) (wv_false w2) (terminalFocus w2)
               (isCursorMode w2) (isNormalMode w2)
               (textEditorFocus w2) true (viewerFocus w2)
        else w2
      else w1
  | None => w1
  end.

(** *** Notions the specification uses *)

(** A run of events each of which lands in the tab content that is active
    when it is merged. *)
Fixpoint sameTabRun (evs : list Event) (state : CommonExtensionWindowState)
    : Prop :=
  match evs with
  | [] => True
  | ev :: rest =>
      strict_eq (activeTabContent state)
        (activeTabContent (getExtensionWindowStateFromEvent ev)) = true
      /\ sameTabRun rest (updateExtensionWindowStateFromEvent ev state)
  end.

(** The terminal-capable node of a path that is nearest to the event
    target, and the one nearest to the root. *)
Definition firstTerminal (path : list EventTarget) : option EventTarget :=
  find (fun t => instanceof t EtTerminal) path.

Fixpoint lastTerminal (path : list EventTarget) : option EventTarget :=
  match path with
  | [] => None
  | t :: rest =>
      match lastTerminal rest with
      | Some u => Some u
      | None => if instanceof t EtTerminal then Some t else None
      end
  end.

End FocusState.

(** ** JavaScript values, completions and the string functions used *)

Module Js.

(** Values that flow through [executeCommand] as [any]. *)
#[warnings="-register-all"]
Inductive JsValue : Type :=
| JsUndefined
| JsNull
| JsBoolean (b : bool)
| JsNumber (z : Z)
| JsString (s : string)
| JsArray (elements : list JsValue)
| JsObject (properties : list (string * JsValue)).

(** [x === undefined] *)
Definition is_undefined (v : JsValue) : bool :=
  match v with
  | JsUndefined => true
  | _ => false
  end.

(** What a [throw] carries. *)
Inductive JsError : Type :=
| URIError
| SyntaxError
| TypeError
| Error (message : string).

Definition JsError_toString (e : JsError) : string :=
  match e with
  | URIError => "URIError: URI malformed"
  | SyntaxError => "SyntaxError"
  | TypeError => "TypeError"
  | Error m => "Error: " ++ m
  end.

(** The outcome of evaluating a call: it returns a value or throws. *)
Inductive Completion (A : Type) : Type :=
| Return (a : A)
| Throw (e : JsError).
Arguments Return {A} a.
Arguments Throw {A} e.

(** [s.indexOf(pat)]: the index of the first occurrence, or [-1]. *)
Definition indexOf (s pat : string) : Z :=
  match String.index 0 pat s with
  | Some n => Z.of_nat n
  | None => (-1)%Z
  end.

(** [s.slice(from, to)] and [s.slice(from)] for indices within the string. *)
Definition slice (s : string) (from to : nat) : string :=
  String.substring from (to - from) s.
Definition slice_from (s : string) (from : nat) : string :=
  String.substring from (String.length s - from) s.

(** [s.split(sep)] for a separator of one character. *)
Fixpoint split (sep : ascii) (s : string) : list string :=
  match s with
  | EmptyString => [EmptyString]
  | String c rest =>
      if Ascii.eqb c sep
      then EmptyString :: split sep rest
      else
        match split sep rest with
        | part :: parts => String c part :: parts
        | [] => [String c EmptyString]
        end
  end.

(** The number of occurrences of a character. *)
Fixpoint count_char (c : ascii) (s : string) : nat :=
  match s with
  | EmptyString => 0
  | String d rest => (if Ascii.eqb d c then 1 else 0) + count_char c rest
  end.

(** [arr.indexOf(x)]: the index of the first element equal to [x], or
    [-1]. *)
Fixpoint Array_indexOf_from (A : Type) (eqb : A -> A -> bool) (x : A)
    (arr : list A) (i : Z) : Z :=
  match arr with
  | [] => (-1)%Z
  | y :: rest => if eqb y x then i else Array_indexOf_from eqb x rest (i + 1)
  end.
Definition Array_indexOf (A : Type) (eqb : A -> A -> bool) (arr : list A)
    (x : A) : Z :=
  Array_indexOf_from eqb x arr 0.

(** *** [decodeURIComponent]

    ECMAScript's [Decode] with an empty reserved set.  The argument is a
    string of code units below 256; the result may hold any code unit and
    is a list of code units. *)

Definition hexDigit (c : ascii) : option N :=
  let n := N_of_ascii c in
  if (48 <=? n)%N && (n <=? 57)%N then Some (n - 48)%N
  else if (65 <=? n)%N && (n <=? 70)%N then Some (n - 55)%N
  else if (97 <=? n)%N && (n <=? 102)%N then Some (n - 87)%N
  else None.

(** The octet of an escape [%XX] at the head of [s], and what follows. *)
Definition escapedOctet (s : string) : option (N * string) :=
  match s with
  | String "%" (String h (String l rest)) =>
      match hexDigit h, hexDigit l with
      | Some a, Some b => Some (16 * a + b, rest)%N
      | _, _ => None
      end
  | _ => None
  end.

(** The number of leading one bits of an octet with its top bit set
    ([n] of the algorithm), or [None] when it is 1 or above 4. *)
Definition leadingOnes (b : N) : option nat :=
  if (b <? 192)%N then None
  else if (b <? 224)%N then Some 2
  else if (b <? 240)%N then Some 3
  else if (b <? 248)%N then Some 4
  else None.

(** [count] continuation octets [%XX] with top bits [10], their payloads
    accumulated onto [acc]. *)
Fixpoint continuationOctets (count : nat) (s : string) (acc : N)
    : option (N * string) :=
  match count with
  | O => Some (acc, s)
  | S k =>
      match escapedOctet s with
      | Some (b, rest) =>
          if (128 <=? b)%N && (b <? 192)%N
          then continuationOctets k rest (acc * 64 + (b - 128))%N
          else None
      | None => None
      end
  end.

(** Whether [v] is a code point that [n] octets encode without being
    overlong, a surrogate or out of range. *)
Definition validCodePoint (n : nat) (v : N) : bool :=
  match n with
  | 2 => (128 <=? v)%N
  | 3 => (2048 <=? v)%N && negb ((55296 <=? v)%N && (v <=? 57343)%N)
  | 4 => (65536 <=? v)%N && (v <=? 1114111)%N
  | _ => false
  end.

Definition UTF16Encoding (v : N) : list N :=
  if (v <? 65536)%N then [v]
  else [55296 + (v - 65536) / 1024; 56320 + (v - 65536) mod 1024]%N.

(** One escape sequence at the head of [s] (which starts with [%]): the
    code units it stands for and the number of characters it spans. *)
Definition decodeEscape (s : string) : Completion (list N * nat) :=
  match escapedOctet s with
  | None => Throw URIError
  | Some (b, rest) =>
      if (b <? 128)%N then Return ([b], 3)
      else
        match leadingOnes b with
        | None => Throw URIError
        | Some n =>
            let payload := (b mod N.shiftl 1 (N.of_nat (7 - n)))%N in
            match continuationOctets (n - 1) rest payload with
            | None => Throw URIError
            | Some (v, _) =>
                if validCodePoint n v
                then Return (UTF16Encoding v, 3 * n)
                else Throw URIError
            end
        end
  end.

(** The scan of [Decode]; [skip] characters at the head belong to an
    escape sequence that was decoded already. *)
Fixpoint decodeFrom (s : string) (skip : nat) : Completion (list N) :=
  match s with
  | EmptyString => Return []
  | String c rest =>
      match skip with
      | S k => decodeFrom rest k
      | O =>
          if Ascii.eqb c "%"
          then
            match decodeEscape s with
            | Throw e => Throw e
            | Return (units, span) =>
                match decodeFrom rest (span - 1) with
                | Throw e => Throw e
                | Return tail => Return (units ++ tail)
                end
            end
          else
            match decodeFrom rest 0 with
            | Throw e => Throw e
            | Return tail => Return (N_of_ascii c :: tail)
            end
      end
  end.

Definition decodeURIComponent (s : string) : Completion (list N) :=
  decodeFrom s 0.

(** [Array.prototype.sort(compare)] as ECMAScript 2019 specifies it for a
    consistent comparator: ascending along [compare], and elements that
    compare equal stay in the order they had.  The algorithm is the
    implementation's choice; any that meets this yields the same array, and
    insertion from the right end is one. *)
Fixpoint sort_insert (A : Type) (compare : A -> A -> Z) (x : A)
    (sorted : list A) : list A :=
  match sorted with
  | [] => [x]
  | y :: rest =>
      if (compare x y <=? 0)%Z
      then x :: sorted
      else y :: sort_insert compare x rest
  end.
Definition Array_sort (A : Type) (compare : A -> A -> Z) (arr : list A)
    : list A :=
  fold_right (sort_insert compare) [] arr.

End Js.

(** ** Extension metadata *)

Module Metadata.

(** [Category]: a string at run time; the type admits the seven values of
    [allCategories]. *)
Definition Category : Type := string.

(** Modelled from the spec: [ExtensionCommandContribution] of
    [ExtensionMetadata], whose declaration is not among the sources, with
    the fields the manager reads.  [order] is a number; integers stand for
    it. *)
Record ExtensionCommandContribution : Type :=
  mkCommand {
    command : string;
    title : string;
    when : string;
    category : Category;
    order : Z;
    commandPalette : bool;
    contextMenu : bool;
    emptyPaneMenu : bool;
    newTerminalMenu : bool
  }.

(** The object a function customizer returns: the keys it holds replace
    those of the contribution it is spread over. *)
Record CommandOverrides : Type :=
  mkOverrides {
    o_command : option string;
    o_title : option string;
    o_when : option string;
    o_category : option Category;
    o_order : option Z;
    o_commandPalette : option bool;
    o_contextMenu : option bool;
    o_emptyPaneMenu : option bool;
    o_newTerminalMenu : option bool
  }.

Definition override (A : Type) (o : option A) (a : A) : A :=
  match o with
  | Some v => v
  | None => a
  end.

(** The object spread of line 272. *)
Definition spread (c : ExtensionCommandContribution) (o : CommandOverrides)
    : ExtensionCommandContribution :=
  mkCommand
    (override (o_command o) (command c))
    (override (o_title o) (title c))
    (override (o_when o) (when c))
    (override (o_category o) (category c))
    (override (o_order o) (order c))
    (override (o_commandPalette o) (commandPalette c))
    (override (o_contextMenu o) (contextMenu c))
    (override (o_emptyPaneMenu o) (emptyPaneMenu c))
    (override (o_newTerminalMenu o) (newTerminalMenu c)).

Record ExtensionContributions : Type :=
  mkContributions { commands : list ExtensionCommandContribution }.

(** Modelled from the spec: [ExtensionMetadata], with the fields the
    manager reads; [main] is [None] for an extension without an entry
    module. *)
Record ExtensionMetadata : Type :=
  mkMetadata {
    name : string;
    path : string;
    main : option string;
    contributes : ExtensionContributions
  }.

End Metadata.

(** ** The query options of [InternalTypes] *)

Module InternalTypes.
Import Metadata.

Record CommandWithCategory : Type :=
  mkCommandWithCategory {
    cwc_category : Category;
    cwc_command : string
  }.

(** Modelled from the spec: [CommandQueryOptions]; a key that is absent
    is [None], and an absent [when] is [false]. *)
Record CommandQueryOptions : Type :=
  mkOptions {
    categories : option (list Category);
    commandPalette : option bool;
    contextMenu : option bool;
    emptyPaneMenu : option bool;
    newTerminalMenu : option bool;
    commandsWithCategories : option (list CommandWithCategory);
    when : bool
  }.

End InternalTypes.

(** ** [ExtensionManagerImpl] *)

Module Manager.
Import Dom FocusState Js.
Local Open Scope string_scope.

(** A command function: it receives the arguments, runs against the
    canonical focus state, which it reads and may change, and returns or
    throws. *)
Definition CommandFunc : Type :=
  JsValue -> CommonExtensionWindowState ->
  Completion JsValue * CommonExtensionWindowState.

(** Modelled from the spec: [CommandsRegistry], whose source is not among
    the files; the manager calls its two lookups, each of which yields
    [null] ([None]) for a command with nothing registered. *)
Record CommandsRegistry : Type :=
  mkRegistry {
    getCommandFunction : string -> option CommandFunc;
    getFunctionCustomizer : string -> option (unit -> Metadata.CommandOverrides)
  }.

(** [InternalExtensionContextImpl], lines 518-569, with the members the
    manager uses. *)
Record InternalExtensionContext : Type :=
  mkContext {
    extensionMetadata : Metadata.ExtensionMetadata;
    commands : CommandsRegistry
  }.

(** A loaded extension module.  [activate] is the call
    [module.activate(contextImpl)]: it returns the public API together with
    the context as the extension left it, or throws (also when the module
    has no such function). *)
Record ExtensionModule : Type :=
  mkModule {
    activate : InternalExtensionContext ->
               Completion (JsValue * InternalExtensionContext)
  }.

(** [ActiveExtension], lines 32-37. *)
Record ActiveExtension : Type :=
  mkActive {
    metadata : Metadata.ExtensionMetadata;
    contextImpl : InternalExtensionContext;
    publicApi : JsValue;
    module : option ExtensionModule
  }.

Inductive LogRecord : Type :=
| LogInfo (message : string)
| LogWarn (message : string).

(** The fields of [ExtensionManagerImpl], lines 51-67, and the lines its
    logger has written. *)
Record ExtensionManagerImpl : Type :=
  mkManager {
    _log : list LogRecord;
    _extensionMetadata : list Metadata.ExtensionMetadata;
    _activeExtensions : list ActiveExtension;
    _commonExtensionWindowState : CommonExtensionWindowState
  }.

Definition newManager : ExtensionManagerImpl :=
  mkManager [] [] [] emptyState.

(** *** Methods as state transformers that may throw *)

Definition M (A : Type) : Type :=
  ExtensionManagerImpl -> Completion A * ExtensionManagerImpl.

Definition ret (A : Type) (a : A) : M A :=
  fun this => (Return a, this).

Definition throw (A : Type) (e : JsError) : M A :=
  fun this => (Throw e, this).
Arguments throw {A} e.

Definition bind (A B : Type) (m : M A) (k : A -> M B) : M B :=
  fun this =>
    match m this with
    | (Return a, this') => k a this'
    | (Throw e, this') => (Throw e, this')
    end.

(** [try { body } catch (ex) { handler }] *)
Definition try_catch (A : Type) (body : M A) (handler : JsError -> M A)
    : M A :=
  fun this =>
    match body this with
    | (Return a, this') => (Return a, this')
    | (Throw ex, this') => handler ex this'
    end.

(** A call of a function outside the manager that returns or throws. *)
Definition call (A : Type) (c : Completion A) : M A :=
  fun this => (c, this).

Notation "x <- m ;; k" := (bind m (fun x => k))
  (at level 61, m at next level, right associativity).
Notation "m ;;; k" := (bind m (fun _ => k))
  (at level 61, right associativity).

(** [for (const x of xs) { body }] *)
Fixpoint for_of (A : Type) (xs : list A) (body : A -> M unit) : M unit :=
  match xs with
  | [] => ret tt
  | x :: rest => body x ;;; for_of rest body
  end.

Definition log_info (message : string) : M unit :=
  fun this =>
    (Return tt,
     mkManager (_log this ++ [LogInfo message]) (_extensionMetadata this)
       (_activeExtensions this) (_commonExtensionWindowState this)).

Definition log_warn (message : string) : M unit :=
  fun this =>
    (Return tt,
     mkManager (_log this ++ [LogWarn message]) (_extensionMetadata this)
       (_activeExtensions this) (_commonExtensionWindowState this)).

Definition set_extensionMetadata (l : list Metadata.ExtensionMetadata)
    : M unit :=
  fun this =>
    (Return tt,
     mkManager (_log this) l (_activeExtensions this)
       (_commonExtensionWindowState this)).

Definition push_activeExtension (ext : ActiveExtension) : M unit :=
  fun this =>
    (Return tt,
     mkManager (_log this) (_extensionMetadata this)
       (_activeExtensions this ++ [ext]) (_commonExtensionWindowState this)).

(** An update of the object [this._commonExtensionWindowState]. *)
Definition modify_windowState
    (f : CommonExtensionWindowState -> CommonExtensionWindowState) : M unit :=
  fun this =>
    (Return tt,
     mkManager (_log this) (_extensionMetadata this) (_activeExtensions this)
       (f (_commonExtensionWindowState this))).

(** The call [commandFunc(args)]. *)
Definition callCommandFunc (commandFunc : CommandFunc) (args : JsValue)
    : M JsValue :=
  fun this =>
    let (result, state) := commandFunc args (_commonExtensionWindowState this) in
    (result,
     mkManager (_log this) (_extensionMetadata this) (_activeExtensions this)
       state).

(** [allCategories], lines 39-47. *)
Definition allCategories : list Metadata.Category :=
  [ "textEditing";
    "terminalCursorMode";
    "terminal";
    "viewer";
    "window";
    "application";
    "global" ].

(** [allCategories.indexOf(c)] *)
Definition categoryIndex (c : Metadata.Category) : Z :=
  Array_indexOf String.eqb allCategories c.

(** [_sortCompareFunc], lines 334-349. *)
Definition _sortCompareFunc (a b : Metadata.ExtensionCommandContribution) : Z :=
  let aIndex := categoryIndex (Metadata.category a) in
  let bIndex := categoryIndex (Metadata.category b) in
  if negb (aIndex =? bIndex)%Z
  then (if (aIndex <? bIndex)%Z then -1 else 1)%Z
  else if negb (Metadata.order a =? Metadata.order b)%Z
  then (if (Metadata.order a <? Metadata.order b)%Z then -1 else 1)%Z
  else if negb (Metadata.title a =? Metadata.title b)
  then (if String.ltb (Metadata.title a) (Metadata.title b) then -1 else 1)%Z
  else 0%Z.

(** [_sortCommandsInPlace], lines 330-332. *)
Definition _sortCommandsInPlace
    (entries : list Metadata.ExtensionCommandContribution)
    : list Metadata.ExtensionCommandContribution :=
  Array_sort _sortCompareFunc entries.

(** The [Map<Category, string[]>] of lines 245-251, in insertion order. *)
Definition CategoryIndex : Type := list (Metadata.Category * list string).

Fixpoint Map_get (index : CategoryIndex) (k : Metadata.Category)
    : option (list string) :=
  match index with
  | [] => None
  | (k', v) :: rest => if k' =? k then Some v else Map_get rest k
  end.

Definition Map_has (index : CategoryIndex) (k : Metadata.Category) : bool :=
  match Map_get index k with
  | Some _ => true
  | None => false
  end.

Fixpoint Map_set (index : CategoryIndex) (k : Metadata.Category)
    (v : list string) : CategoryIndex :=
  match index with
  | [] => [(k, v)]
  | (k', v') :: rest =>
      if k' =? k then (k', v) :: rest else (k', v') :: Map_set rest k v
  end.

Definition buildIndex (commandsWithCategories : list InternalTypes.CommandWithCategory)
    : CategoryIndex :=
  fold_left
    (fun index commandWithCategory =>
       let c := InternalTypes.cwc_category commandWithCategory in
       let index1 := if negb (Map_has index c) then Map_set index c [] else index in
       match Map_get index1 c with
       | Some arr =>
           Map_set index1 c (arr ++ [InternalTypes.cwc_command commandWithCategory])
       | None => index1
       end)
    commandsWithCategories [].

Definition Predicate : Type := Metadata.ExtensionCommandContribution -> bool.

Definition truePredicate : Predicate := fun _ => true.

Section Collaborators.

(** [BooleanExpressionEvaluator.evaluate] with the variables the
    evaluator was built from: a collaborator outside the sources. *)
Variable bee_evaluate : WhenVariables -> string -> bool.

(** [JSON.parse] on a string given as its code units. *)
Variable JSON_parse : list N -> Completion JsValue.

(** [isMainProcessExtension] and [isSupportedOnThisPlatform] of
    [InternalTypes]. *)
Variable isMainProcessExtension : Metadata.ExtensionMetadata -> bool.
Variable isSupportedOnThisPlatform : Metadata.ExtensionMetadata -> bool.

(** [WebIpc.requestExtensionMetadataSync()] *)
Variable requestExtensionMetadataSync : list Metadata.ExtensionMetadata.

(** [path.join] and Node's [require]; the value of a module may be
    [null] ([None]). *)
Variable path_join : string -> string -> string.
Variable require : string -> Completion (option ExtensionModule).

(** [new CommandsRegistry(context, name, commands)] *)
Variable new_CommandsRegistry :
  string -> list Metadata.ExtensionCommandContribution -> CommandsRegistry.

(** [_createWhenPredicate], lines 283-292. *)
Definition _createWhenPredicate (state : CommonExtensionWindowState)
    : Predicate :=
  let variables := _createWhenVariables state in
  fun ecc =>
    if Metadata.when ecc =? "" then true
    else bee_evaluate variables (Metadata.when ecc).

(** The test of lines 266-268 with the predicates of lines 209-261. *)
Definition qualifies (options : InternalTypes.CommandQueryOptions)
    (context : CommonExtensionWindowState) : Predicate :=
  let commandPalettePredicate : Predicate :=
    match InternalTypes.commandPalette options with
    | Some commandPalette =>
        fun command => Bool.eqb (Metadata.commandPalette command) commandPalette
    | None => truePredicate
    end in
  let contextMenuPredicate : Predicate :=
    match InternalTypes.contextMenu options with
    | Some contextMenu =>
        fun command => Bool.eqb (Metadata.contextMenu command) contextMenu
    | None => truePredicate
    end in
  let emptyPaneMenuPredicate : Predicate :=
    match InternalTypes.emptyPaneMenu options with
    | Some emptyPaneMenu =>
        fun command => Bool.eqb (Metadata.emptyPaneMenu command) emptyPaneMenu
    | None => truePredicate
    end in
  let newTerminalMenuPredicate : Predicate :=
    match InternalTypes.newTerminalMenu options with
    | Some newTerminalMenu =>
        fun command => Bool.eqb (Metadata.newTerminalMenu command) newTerminalMenu
    | None => truePredicate
    end in
  let categoryPredicate : Predicate :=
    match InternalTypes.categories options with
    | Some categories =>
        fun command =>
          negb (Array_indexOf String.eqb categories (Metadata.category command)
                =? -1)%Z
    | None => truePredicate
    end in
  let commandPredicate : Predicate :=
    match InternalTypes.commandsWithCategories options with
    | Some commandsWithCategories =>
        let index := buildIndex commandsWithCategories in
        fun command =>
          match Map_get index (Metadata.category command) with
          | None => false
          | Some arr =>
              negb (Array_indexOf String.eqb arr (Metadata.command command)
                    =? -1)%Z
          end
    | None => truePredicate
    end in
  let whenPredicate : Predicate :=
    if InternalTypes.when options
    then _createWhenPredicate context
    else truePredicate in
  fun command =>
    commandPredicate command && commandPalettePredicate command
    && contextMenuPredicate command && emptyPaneMenuPredicate command
    && newTerminalMenuPredicate command && categoryPredicate command
    && whenPredicate command.

(** The loops of lines 263-278: the entries in the order they are
    pushed. *)
Definition collectEntries (options : InternalTypes.CommandQueryOptions)
    (context : CommonExtensionWindowState)
    (activeExtensions : list ActiveExtension)
    : list Metadata.ExtensionCommandContribution :=
  flat_map
    (fun activeExtension =>
       flat_map
         (fun command =>
            if qualifies options context command
            then
              match getFunctionCustomizer (commands (contextImpl activeExtension))
                      (Metadata.command command) with
              | Some customizer => [Metadata.spread command (customizer tt)]
              | None => [command]
              end
            else [])
         (Metadata.commands (Metadata.contributes (metadata activeExtension))))
    activeExtensions.

(** [queryCommandsWithExtensionWindowState], lines 208-281. *)
Definition queryCommandsWithExtensionWindowState
    (options : InternalTypes.CommandQueryOptions)
    (context : CommonExtensionWindowState) (this : ExtensionManagerImpl)
    : list Metadata.ExtensionCommandContribution :=
  let entries := collectEntries options context (_activeExtensions this) in
  _sortCommandsInPlace entries.

(** [queryCommands], lines 204-206. *)
Definition queryCommands (options : InternalTypes.CommandQueryOptions)
    (this : ExtensionManagerImpl)
    : list Metadata.ExtensionCommandContribution :=
  queryCommandsWithExtensionWindowState options
    (_commonExtensionWindowState this) this.

(** [_runCommandFunc], lines 407-414. *)
Definition _runCommandFunc (name : string) (commandFunc : CommandFunc)
    (args : JsValue) : M JsValue :=
  try_catch
    (callCommandFunc commandFunc args)
    (fun ex =>
       log_warn ("Command '" ++ name ++ "' threw an exception. "
                 ++ JsError_toString ex) ;;;
       ret JsNull).

(** The loop of lines 392-401 and the lines 403-404 after it. *)
Fixpoint dispatchCommand (activeExtensions : list ActiveExtension)
    (extensionName commandName : string) (args : JsValue) : M JsValue :=
  match activeExtensions with
  | [] =>
      log_warn ("Unable to find extension with name '" ++ extensionName
                ++ "' for command '" ++ commandName ++ "'.") ;;;
      ret JsNull
  | ext :: rest =>
      if Metadata.name (metadata ext) =? extensionName
      then
        match getCommandFunction (commands (contextImpl ext)) commandName with
        | None =>
            log_warn ("Unable to find command '" ++ commandName
                      ++ "' in extension '" ++ extensionName ++ "'.") ;;;
            ret JsNull
        | Some commandFunc => _runCommandFunc commandName commandFunc args
        end
      else dispatchCommand rest extensionName commandName args
  end.

(** The lines 364-371: the command name and the argument string. *)
Definition splitCommand (command : string) : string * option string :=
  let qIndex := indexOf command "?" in
  if negb (qIndex =? -1)%Z
  then (slice command 0 (Z.to_nat qIndex),
        Some (slice_from command (Z.to_nat qIndex + 1)))
  else (command, None).

(** The lines 379-382: the name of the extension, with the alias. *)
Definition aliasedExtensionName (parts : list string) : string :=
  let extensionName := nth 0 parts "" in
  if extensionName =? "extraterm" then "internal-commands"
  else extensionName.

(** The lines 384-390: the arguments the command function receives.
    [decodeURIComponent] and [JSON.parse] may throw. *)
Definition resolveArgs (args : JsValue) (argsString : option string)
    : Completion JsValue :=
  if is_undefined args
  then
    match argsString with
    | Some encoded =>
        match decodeURIComponent encoded with
        | Return decoded => JSON_parse decoded
        | Throw ex => Throw ex
        end
    | None => Return (JsObject [])
    end
  else Return args.

(** [executeCommand], lines 363-405; an omitted [args] is
    [JsUndefined]. *)
Definition executeCommand (command : string) (args : JsValue) : M JsValue :=
  let (commandName, argsString) := splitCommand command in
  let parts := split ":" commandName in
  if negb (List.length parts =? 2)%nat
  then
    log_warn ("Command '" ++ command
              ++ "' does have the right form. (Wrong numer of colons.)") ;;;
    ret JsNull
  else
    let extensionName := aliasedExtensionName parts in
    args <- call (resolveArgs args argsString) ;;
    fun this =>
      dispatchCommand (_activeExtensions this) extensionName commandName args
        this.

(** [copyExtensionWindowState], lines 359-361. *)
Definition copyExtensionWindowState : M CommonExtensionWindowState :=
  fun this =>
    let state := _commonExtensionWindowState this in
    (Return
       (mkState (activeTabContent state) (activeTerminal state)
          (focusTerminal state) (activeTextEditor state)
          (focusTextEditor state) (activeTabsWidget state)
          (activeViewerElement state) (focusViewerElement state)
          (isInputFieldFocus state)),
     this).

(** [_setExtensionWindowState], lines 444-448: one assignment for each
    key of [newState]. *)
Definition _setExtensionWindowState (newState : CommonExtensionWindowState)
    : M unit :=
  modify_windowState
    (fun state =>
       let s1 := set_activeTabContent (activeTabContent newState) state in
       let s2 := set_activeTerminal (activeTerminal newState) s1 in
       let s3 := set_focusTerminal (focusTerminal newState) s2 in
       let s4 := set_activeTextEditor (activeTextEditor newState) s3 in
       let s5 := set_focusTextEditor (focusTextEditor newState) s4 in
       let s6 := set_activeTabsWidget (activeTabsWidget newState) s5 in
       let s7 := set_activeViewerElement (activeViewerElement newState) s6 in
       let s8 := set_focusViewerElement (focusViewerElement newState) s7 in
       set_isInputFieldFocus (isInputFieldFocus newState) s8).

(** [executeCommandWithExtensionWindowState], lines 351-357. *)
Definition executeCommandWithExtensionWindowState
    (tempState : CommonExtensionWindowState) (command : string)
    (args : JsValue) : M JsValue :=
  oldState <- copyExtensionWindowState ;;
  _setExtensionWindowState tempState ;;;
  result <- executeCommand command args ;;
  _setExtensionWindowState oldState ;;;
  ret result.

(** [_loadExtensionModule], lines 126-135.  [path.join] throws a
    [TypeError] for an argument that is not a string. *)
Definition _loadExtensionModule (extension : Metadata.ExtensionMetadata)
    : M (option ExtensionModule) :=
  match Metadata.main extension with
  | None => throw TypeError
  | Some main =>
      let mainJsPath := path_join (Metadata.path extension) main in
      try_catch
        (call (require mainJsPath))
        (fun ex =>
           log_warn ("Unable to load " ++ mainJsPath ++ ". "
                     ++ JsError_toString ex) ;;;
           ret None)
  end.

(** [_startExtension], lines 104-124. *)
Definition _startExtension (metadata : Metadata.ExtensionMetadata) : M unit :=
  log_info ("Starting extension '" ++ Metadata.name metadata
            ++ "' in the render process.") ;;;
  let contextImpl :=
    mkContext metadata
      (new_CommandsRegistry (Metadata.name metadata)
         (Metadata.commands (Metadata.contributes metadata))) in
  match Metadata.main metadata with
  | Some _ =>
      module <- _loadExtensionModule metadata ;;
      match module with
      | None => ret tt
      | Some m =>
          activated <-
            try_catch
              (r <- call (activate m contextImpl) ;; ret (Some r))
              (fun ex =>
                 log_warn ("Exception occurred while starting extensions "
                           ++ Metadata.name metadata ++ ". "
                           ++ JsError_toString ex) ;;;
                 ret None) ;;
          match activated with
          | None => ret tt
          | Some (publicApi, context) =>
              push_activeExtension (mkActive metadata context publicApi (Some m))
          end
      end
  | None => push_activeExtension (mkActive metadata contextImpl JsNull None)
  end.

(** [startUp], lines 74-82. *)
Definition startUp : M unit :=
  set_extensionMetadata requestExtensionMetadataSync ;;;
  fun this =>
    for_of (_extensionMetadata this)
      (fun extensionInfo =>
         if negb (isMainProcessExtension extensionInfo)
            && isSupportedOnThisPlatform extensionInfo
         then _startExtension extensionInfo
         else ret tt)
      this.

(** *** Notions the specification uses *)

(** The first active extension of a name: the one [executeCommand]
    resolves a command against. *)
Definition findExtension (activeExtensions : list ActiveExtension)
    (extensionName : string) : option ActiveExtension :=
  find (fun ext => Metadata.name (metadata ext) =? extensionName)
    activeExtensions.

(** The failures of [executeCommand]: the name part of the command has
    not exactly one colon; or it has, the arguments are at hand ([v]), and
    no active extension has the name, or the extension has no function for
    the command, or the function throws. *)
Inductive ExecuteFailure (command : string) (args : JsValue)
    (this : ExtensionManagerImpl) : Prop :=
| WrongColons :
    count_char ":" (fst (splitCommand command)) <> 1 ->
    ExecuteFailure command args this
| NoExtension (v : JsValue) :
    count_char ":" (fst (splitCommand command)) = 1 ->
    resolveArgs args (snd (splitCommand command)) = Return v ->
    findExtension (_activeExtensions this)
      (aliasedExtensionName (split ":" (fst (splitCommand command)))) = None ->
    ExecuteFailure command args this
| NoCommand (v : JsValue) (ext : ActiveExtension) :
    count_char ":" (fst (splitCommand command)) = 1 ->
    resolveArgs args (snd (splitCommand command)) = Return v ->
    findExtension (_activeExtensions this)
      (aliasedExtensionName (split ":" (fst (splitCommand command))))
    = Some ext ->
    getCommandFunction (commands (contextImpl ext))
      (fst (splitCommand command)) = None ->
    ExecuteFailure command args this
| HandlerThrows (v : JsValue) (ext : ActiveExtension) (f : CommandFunc)
    (e : JsError) :
    count_char ":" (fst (splitCommand command)) = 1 ->
    resolveArgs args (snd (splitCommand command)) = Return v ->
    findExtension (_activeExtensions this)
      (aliasedExtensionName (split ":" (fst (splitCommand command))))
    = Some ext ->
    getCommandFunction (commands (contextImpl ext))
      (fst (splitCommand command)) = Some f ->
    fst (f v (_commonExtensionWindowState this)) = Throw e ->
    ExecuteFailure command args this.

(** The conditions of the claim alone, without the arguments being at
    hand. *)
Definition noExtensionMatches (command : string)
    (this : ExtensionManagerImpl) : Prop :=
  count_char ":" (fst (splitCommand command)) = 1
  /\ findExtension (_activeExtensions this)
       (aliasedExtensionName (split ":" (fst (splitCommand command)))) = None.

(** The extensions [startUp] starts. *)
Definition startsInRenderProcess (extensionInfo : Metadata.ExtensionMetadata)
    : bool :=
  negb (isMainProcessExtension extensionInfo)
  && isSupportedOnThisPlatform extensionInfo.

(** How the start of one extension ends. *)
Inductive StartResult : Type :=
| Activated (ext : ActiveExtension)
| LoadFailed (mainJsPath : string) (ex : JsError)
| ModuleIsNull
| ActivationThrew (ex : JsError).

Definition startResult (metadata : Metadata.ExtensionMetadata) : StartResult :=
  let contextImpl :=
    mkContext metadata
      (new_CommandsRegistry (Metadata.name metadata)
         (Metadata.commands (Metadata.contributes metadata))) in
  match Metadata.main metadata with
  | None => Activated (mkActive metadata contextImpl JsNull None)
  | Some main =>
      match require (path_join (Metadata.path metadata) main) with
      | Throw ex => LoadFailed (path_join (Metadata.path metadata) main) ex
      | Return None => ModuleIsNull
      | Return (Some m) =>
          match activate m contextImpl with
          | Throw ex => ActivationThrew ex
          | Return (publicApi, context) =>
              Activated (mkActive metadata context publicApi (Some m))
          end
      end
  end.

(** The extension a start adds to the active list, if any. *)
Definition activated (metadata : Metadata.ExtensionMetadata)
    : list ActiveExtension :=
  match startResult metadata with
  | Activated ext => [ext]
  | _ => []
  end.

Definition isActivated (metadata : Metadata.ExtensionMetadata) : bool :=
  match startResult metadata with
  | Activated _ => true
  | _ => false
  end.

(** The extensions that starting the list [extensions] in order adds to
    the active list. *)
Definition added (extensions : list Metadata.ExtensionMetadata)
    : list ActiveExtension :=
  flat_map activated (filter startsInRenderProcess extensions).

(** The lines a start writes to the log. *)
Definition startLog (metadata : Metadata.ExtensionMetadata) : list LogRecord :=
  LogInfo ("Starting extension '" ++ Metadata.name metadata
           ++ "' in the render process.")
  :: match startResult metadata with
     | LoadFailed mainJsPath ex =>
         [LogWarn ("Unable to load " ++ mainJsPath ++ ". "
                   ++ JsError_toString ex)]
     | ActivationThrew ex =>
         [LogWarn ("Exception occurred while starting extensions "
                   ++ Metadata.name metadata ++ ". " ++ JsError_toString ex)]
     | _ => []
     end.

End Collaborators.

(** The manager with one more warning in its log. *)
Definition warned (message : string) (this : ExtensionManagerImpl)
    : ExtensionManagerImpl :=
  mkManager (_log this ++ [LogWarn message])%list (_extensionMetadata this)
    (_activeExtensions this) (_commonExtensionWindowState this).

(** The manager with another canonical focus state. *)
Definition withWindowState (state : FocusState.CommonExtensionWindowState)
    (this : ExtensionManagerImpl) : ExtensionManagerImpl :=
  mkManager (_log this) (_extensionMetadata this) (_activeExtensions this)
    state.

(** A result that is [null], with one warning added to the log. *)
Definition returnsNullWithWarning
    (result : Completion JsValue * ExtensionManagerImpl)
    (this : ExtensionManagerImpl) : Prop :=
  fst result = Return JsNull
  /\ exists message,
       _log (snd result) = (_log this ++ [LogWarn message])%list.

End Manager.

(** ** Notions the specification uses for the order of a query's result *)

Module QuerySpec.
Import Js.

(** Ascending by the position of the category in [allCategories], then by
    [order], then by [title] in the order of its code units. *)
Definition keyLe (a b : Metadata.ExtensionCommandContribution) : Prop :=
  (Manager.categoryIndex (Metadata.category a)
   < Manager.categoryIndex (Metadata.category b))%Z
  \/ (Manager.categoryIndex (Metadata.category a)
      = Manager.categoryIndex (Metadata.category b)
      /\ ((Metadata.order a < Metadata.order b)%Z
          \/ (Metadata.order a = Metadata.order b
              /\ String.leb (Metadata.title a) (Metadata.title b) = true))).

(** All three keys equal. *)
Definition sameKey (a b : Metadata.ExtensionCommandContribution) : bool :=
  (Manager.categoryIndex (Metadata.category a)
   =? Manager.categoryIndex (Metadata.category b))%Z
  && (Metadata.order a =? Metadata.order b)%Z
  && (Metadata.title a =? Metadata.title b)%string.

(** The category is one of the seven of the enumeration. *)
Definition inEnumeration (c : Metadata.Category) : bool :=
  existsb (String.eqb c) Manager.allCategories.

(** [a] stands before [b] in [l]. *)
Definition precedes (A : Type) (l : list A) (a b : A) : Prop :=
  exists l1 l2 l3, l = l1 ++ a :: l2 ++ b :: l3.

End QuerySpec.

(** ** Concrete nodes, events and states *)

Module Samples.
Import Dom FocusState.

(** A tab widget, a pane in it, and two tab contents in that pane. *)
Definition tabWidget : EventTarget :=
  mkTarget 1 [TabWidget] DEFAULT false None.
Definition tabPane : EventTarget :=
  mkTarget 2 [] DEFAULT false (Some tabWidget).
Definition tabContent : EventTarget :=
  mkTarget 3 [] DEFAULT false (Some tabPane).
Definition otherTabContent : EventTarget :=
  mkTarget 4 [] DEFAULT false (Some tabPane).

(** A terminal in the first tab, its viewer in normal and in cursor mode,
    and a terminal nested in the viewer. *)
Definition terminal : EventTarget :=
  mkTarget 5 [EtTerminal] DEFAULT false (Some tabContent).
Definition cursorTerminal : EventTarget :=
  mkTarget 5 [EtTerminal] CURSOR false (Some tabContent).
Definition terminalViewer : EventTarget :=
  mkTarget 6 [TerminalViewer; ViewerElement] DEFAULT true (Some terminal).
Definition innerTerminal : EventTarget :=
  mkTarget 7 [EtTerminal] DEFAULT false (Some terminalViewer).

(** Focus on the terminal's viewer. *)
Definition evTerminal : Event :=
  mkEvent [terminalViewer; terminal; tabContent; tabPane; tabWidget].
(** Focus on the tab content itself. *)
Definition evTabOnly : Event :=
  mkEvent [tabContent; tabPane; tabWidget].
(** Focus on the content of the other tab. *)
Definition evOtherTab : Event :=
  mkEvent [otherTabContent; tabPane; tabWidget].
(** Focus on the nested terminal. *)
Definition evNested : Event :=
  mkEvent [innerTerminal; terminalViewer; terminal; tabContent; tabPane;
           tabWidget].

(** The canonical state after the terminal's viewer took the focus. *)
Definition stateOnTerminal : CommonExtensionWindowState :=
  updateExtensionWindowStateFromEvent evTerminal emptyState.

(** A snapshot whose focus terminal is in cursor mode. *)
Definition stateCursor : CommonExtensionWindowState :=
  mkState (Some tabContent) (Some cursorTerminal) (Some cursorTerminal)
    (Some terminalViewer) (Some terminalViewer) (Some tabWidget)
    (Some terminalViewer) (Some terminalViewer) false.

End Samples.

(** ** A concrete manager with one declaration-only extension *)

Module QuerySamples.
Import Js.
Local Open Scope string_scope.

Definition noOptions : InternalTypes.CommandQueryOptions :=
  InternalTypes.mkOptions None None None None None None false.

(** A command of the category [terminal] and one of a category outside
    the enumeration. *)
Definition knownCommand : Metadata.ExtensionCommandContribution :=
  Metadata.mkCommand "sample:known" "Known" "" "terminal" 100
    true true false false.
Definition unknownCommand : Metadata.ExtensionCommandContribution :=
  Metadata.mkCommand "sample:unknown" "Unknown" "" "mystery" 100
    true true false false.

Definition emptyRegistry : Manager.CommandsRegistry :=
  Manager.mkRegistry (fun _ => None) (fun _ => None).

Definition sampleMetadata : Metadata.ExtensionMetadata :=
  Metadata.mkMetadata "sample" "/extensions/sample" None
    (Metadata.mkContributions [knownCommand; unknownCommand]).

Definition sampleExtension : Manager.ActiveExtension :=
  Manager.mkActive sampleMetadata
    (Manager.mkContext sampleMetadata emptyRegistry) JsNull None.

Definition sampleManager : Manager.ExtensionManagerImpl :=
  Manager.mkManager [] [sampleMetadata] [sampleExtension]
    FocusState.emptyState.

(** An evaluator that accepts every expression. *)
Definition acceptAll : FocusState.WhenVariables -> string -> bool :=
  fun _ _ => true.

End QuerySamples.

(** ** A concrete manager with command functions *)

Module ExecuteSamples.
Import Js.
Local Open Scope string_scope.

(** A command function that returns after changing the focus state, and
    one that throws after changing it. *)
Definition okFunc : Manager.CommandFunc :=
  fun _ state =>
    (Return (JsString "done"), FocusState.set_isInputFieldFocus true state).
Definition boomFunc : Manager.CommandFunc :=
  fun _ state =>
    (Throw (Error "boom"), FocusState.set_activeTerminal None state).

Definition registry : Manager.CommandsRegistry :=
  Manager.mkRegistry
    (fun commandName =>
       if commandName =? "sample:ok" then Some okFunc
       else if commandName =? "sample:boom" then Some boomFunc
       else None)
    (fun _ => None).

Definition extension : Manager.ActiveExtension :=
  Manager.mkActive QuerySamples.sampleMetadata
    (Manager.mkContext QuerySamples.sampleMetadata registry) JsNull None.

(** The manager with that extension, the terminal's viewer in focus. *)
Definition manager : Manager.ExtensionManagerImpl :=
  Manager.mkManager [] [QuerySamples.sampleMetadata] [extension]
    Samples.stateOnTerminal.

(** [JSON.parse] on the one text [{}]: it rejects every other text. *)
Definition parseEmptyObject (text : list N) : Completion JsValue :=
  match text with
  | [123%N; 125%N] => Return (JsObject [])
  | _ => Throw SyntaxError
  end.

End ExecuteSamples.

(** ** A concrete list of extensions to start *)

Module LifecycleSamples.
Import Js.
Local Open Scope string_scope.

Definition noContributions : Metadata.ExtensionContributions :=
  Metadata.mkContributions [].

(** An extension whose module cannot be loaded, one whose [activate]
    throws, one that activates, and one for the main process only. *)
Definition brokenMetadata : Metadata.ExtensionMetadata :=
  Metadata.mkMetadata "broken" "/extensions/broken" (Some "main.js")
    noContributions.
Definition throwingMetadata : Metadata.ExtensionMetadata :=
  Metadata.mkMetadata "throwing" "/extensions/throwing" (Some "main.js")
    noContributions.
Definition goodMetadata : Metadata.ExtensionMetadata :=
  Metadata.mkMetadata "good" "/extensions/good" (Some "main.js")
    noContributions.
Definition mainOnlyMetadata : Metadata.ExtensionMetadata :=
  Metadata.mkMetadata "main-only" "/extensions/main-only" (Some "main.js")
    noContributions.

Definition throwingModule : Manager.ExtensionModule :=
  Manager.mkModule (fun _ => Throw (Error "activation failed")).
Definition goodModule : Manager.ExtensionModule :=
  Manager.mkModule (fun context => Return (JsString "api", context)).

Definition path_join (a b : string) : string := a ++ "/" ++ b.

Definition require (mainJsPath : string)
    : Completion (option Manager.ExtensionModule) :=
  if mainJsPath =? "/extensions/throwing/main.js"
  then Return (Some throwingModule)
  else if mainJsPath =? "/extensions/good/main.js"
  then Return (Some goodModule)
  else Throw (Error "Cannot find module").

Definition isMainProcessExtension (metadata : Metadata.ExtensionMetadata)
    : bool :=
  Metadata.name metadata =? "main-only".

Definition isSupportedOnThisPlatform (metadata : Metadata.ExtensionMetadata)
    : bool :=
  true.

Definition new_CommandsRegistry (name : string)
    (commands : list Metadata.ExtensionCommandContribution)
    : Manager.CommandsRegistry :=
  QuerySamples.emptyRegistry.

(** The metadata in the order of discovery. *)
Definition discovered : list Metadata.ExtensionMetadata :=
  [ brokenMetadata; mainOnlyMetadata; throwingMetadata; goodMetadata;
    QuerySamples.sampleMetadata ].

End LifecycleSamples.

(** ** Further notions for the aggregator *)

Module AggregatorSpec.
Import Dom FocusState.

(** The last node of a path, in the order from the event target to the
    root, that passes a test. *)
Fixpoint lastMatching (test : EventTarget -> bool) (path : list EventTarget)
    : option EventTarget :=
  match path with
  | [] => None
  | t :: rest =>
      match lastMatching test rest with
      | Some u => Some u
      | None => if test t then Some t else None
      end
  end.

(** The test of line 468. *)
Definition isTextEditorNode (t : EventTarget) : bool :=
  instanceof t TerminalViewer || instanceof t TextViewer.

(** Among the viewer elements of a path: the first that is not an embedded
    viewer, and the last of them when all are embedded viewers. *)
Fixpoint chosenViewer (path : list EventTarget) : option EventTarget :=
  match path with
  | [] => None
  | t :: rest =>
      if instanceof t ViewerElement
      then
        if instanceof t EmbeddedViewer
        then
          match chosenViewer rest with
          | Some v => Some v
          | None => Some t
          end
        else Some t
      else chosenViewer rest
  end.

(** Every focus field that is set has its active field set. *)
Definition focusImpliesActive (s : CommonExtensionWindowState) : Prop :=
  (not_null (focusTerminal s) = true -> not_null (activeTerminal s) = true)
  /\ (not_null (focusTextEditor s) = true ->
      not_null (activeTextEditor s) = true)
  /\ (not_null (focusViewerElement s) = true ->
      not_null (activeViewerElement s) = true).

End AggregatorSpec.

(** ** The remaining lookups of [ExtensionManagerImpl] *)

Module Lookups.
Import Js Manager.
Local Open Scope string_scope.

(** [getExtensionContextByName], lines 84-92: the context, and the lines
    written with [_log.debug] on the way. *)
Fixpoint getExtensionContextByName_loop (activeExtensions : list ActiveExtension)
    (name : string) : option InternalExtensionContext * list string :=
  match activeExtensions with
  | [] => (None, [])
  | ext :: rest =>
      let line := "getExtensionContextByName() ext.metadata.name: "
                  ++ Metadata.name (metadata ext) in
      if Metadata.name (metadata ext) =? name
      then (Some (contextImpl ext), [line])
      else
        let (found, lines) := getExtensionContextByName_loop rest name in
        (found, line :: lines)
  end.

Definition getExtensionContextByName (name : string)
    (this : ExtensionManagerImpl)
    : option InternalExtensionContext * list string :=
  getExtensionContextByName_loop (_activeExtensions this) name.

(** The first result that is not null of a call made on each element in
    turn: the loops of lines 95-101 and 151-157. *)
Fixpoint firstNonNull (A B : Type) (call : A -> option B) (xs : list A)
    : option B :=
  match xs with
  | [] => None
  | x :: rest =>
      match call x with
      | Some tag => Some tag
      | None => firstNonNull call rest
      end
  end.

(** Modelled from the spec: a session editor and a theme provider
    contribution of [ExtensionMetadata], with the fields the manager
    reads. *)
Record SessionEditorContribution : Type :=
  mkSessionEditor { se_name : string; se_type : string }.
Record ThemeProviderContribution : Type :=
  mkThemeProvider { tp_name : string; humanFormatNames : list string }.

Section Collaborators.

(** [internalWindow.findViewerElementTagByMimeType] and
    [internalWindow.getSessionEditorTagForType] of an extension's
    context: collaborators outside the sources. *)
Variable window_findViewerElementTagByMimeType :
  InternalExtensionContext -> string -> option string.
Variable window_getSessionEditorTagForType :
  InternalExtensionContext -> string -> option string.

(** [metadata.contributes.sessionEditors] ([None] for null),
    [terminalThemeProviders] and [syntaxThemeProviders]. *)
Variable sessionEditors :
  Metadata.ExtensionMetadata -> option (list SessionEditorContribution).
Variable terminalThemeProviders :
  Metadata.ExtensionMetadata -> list ThemeProviderContribution.
Variable syntaxThemeProviders :
  Metadata.ExtensionMetadata -> list ThemeProviderContribution.

(** [findViewerElementTagByMimeType], lines 94-102 and 546-548. *)
Definition findViewerElementTagByMimeType (mimeType : string)
    (this : ExtensionManagerImpl) : option string :=
  firstNonNull
    (fun extension =>
       window_findViewerElementTagByMimeType (contextImpl extension) mimeType)
    (_activeExtensions this).

(** [getAllSessionTypes], lines 137-147: the pairs of name and type. *)
Definition getAllSessionTypes (this : ExtensionManagerImpl)
    : list (string * string) :=
  List.concat
    (map
       (fun activeExtension =>
          match sessionEditors (metadata activeExtension) with
          | Some editors => map (fun se => (se_name se, se_type se)) editors
          | None => []
          end)
       (_activeExtensions this)).

(** [getSessionEditorTagForType], lines 149-158. *)
Definition getSessionEditorTagForType (sessionType : string)
    (this : ExtensionManagerImpl) : option string :=
  let seExtensions :=
    filter
      (fun ae =>
         match sessionEditors (metadata ae) with
         | Some _ => true
         | None => false
         end)
      (_activeExtensions this) in
  firstNonNull
    (fun extension =>
       window_getSessionEditorTagForType (contextImpl extension) sessionType)
    seExtensions.

(** The loops of lines 161-169 and 173-181 over providers: the pairs of
    provider name and format name. *)
Definition themeFormats
    (providers : Metadata.ExtensionMetadata -> list ThemeProviderContribution)
    (extensionMetadata : list Metadata.ExtensionMetadata)
    : list (string * string) :=
  flat_map
    (fun metadata =>
       flat_map
         (fun provider =>
            map (fun formatName => (tp_name provider, formatName))
              (humanFormatNames provider))
         (providers metadata))
    extensionMetadata.

(** [getAllTerminalThemeFormats], lines 160-170. *)
Definition getAllTerminalThemeFormats (this : ExtensionManagerImpl)
    : list (string * string) :=
  themeFormats terminalThemeProviders (_extensionMetadata this).

(** [getAllSyntaxThemeFormats], lines 172-182. *)
Definition getAllSyntaxThemeFormats (this : ExtensionManagerImpl)
    : list (string * string) :=
  themeFormats syntaxThemeProviders (_extensionMetadata this).

End Collaborators.

(** The entry line 272 or 274 pushes for a command of an extension. *)
Definition customize (activeExtension : ActiveExtension)
    (command : Metadata.ExtensionCommandContribution)
    : Metadata.ExtensionCommandContribution :=
  match getFunctionCustomizer (commands (contextImpl activeExtension))
          (Metadata.command command) with
  | Some customizer => Metadata.spread command (customizer tt)
  | None => command
  end.

(** Query options with no filter. *)
Definition noFilter : InternalTypes.CommandQueryOptions :=
  InternalTypes.mkOptions None None None None None None false.

(** The options with the [when] filter left out. *)
Definition withoutWhen (options : InternalTypes.CommandQueryOptions)
    : InternalTypes.CommandQueryOptions :=
  InternalTypes.mkOptions (InternalTypes.categories options)
    (InternalTypes.commandPalette options)
    (InternalTypes.contextMenu options)
    (InternalTypes.emptyPaneMenu options)
    (InternalTypes.newTerminalMenu options)
    (InternalTypes.commandsWithCategories options) false.

(** The commands an extension contributes. *)
Definition contributed (activeExtension : ActiveExtension)
    : list Metadata.ExtensionCommandContribution :=
  Metadata.commands (Metadata.contributes (metadata activeExtension)).

(** A pair of the requested list names the command. *)
Definition namedBy (pairs : list InternalTypes.CommandWithCategory)
    (command : Metadata.ExtensionCommandContribution) : bool :=
  existsb
    (fun pair =>
       (InternalTypes.cwc_category pair =? Metadata.category command)
       && (InternalTypes.cwc_command pair =? Metadata.command command))
    pairs.

(** The commands that the pairs of a category name, in their order. *)
Definition commandsOf (k : Metadata.Category)
    (pairs : list InternalTypes.CommandWithCategory) : list string :=
  map InternalTypes.cwc_command
    (filter (fun p => InternalTypes.cwc_category p =? k) pairs).

(** The position of the first occurrence of a character. *)
Fixpoint firstPos (c : ascii) (s : string) : option nat :=
  match s with
  | EmptyString => None
  | String d rest =>
      if Ascii.eqb d c then Some 0
      else
        match firstPos c rest with
        | Some n => Some (S n)
        | None => None
        end
  end.

(** The code units of a string. *)
Fixpoint codeUnits (s : string) : list N :=
  match s with
  | EmptyString => []
  | String c rest => N_of_ascii c :: codeUnits rest
  end.

End Lookups.

(** ** The array of contributions behind [registerCommandContribution] *)

Module Contributions.
Import Js.

(** [arr.splice(start, 1)]: the array that is left. *)
Definition Array_splice1 (A : Type) (arr : list A) (start : Z) : list A :=
  let len := Z.of_nat (List.length arr) in
  let actualStart :=
    if (start <? 0)%Z then Z.max (len + start) 0 else Z.min start len in
  firstn (Z.to_nat actualStart) arr ++ skipn (Z.to_nat actualStart + 1) arr.

Section Objects.

(** The contribution objects, compared as [indexOf] compares them: by
    identity. *)
Variable Ref : Type.
Variable same_object : Ref -> Ref -> bool.

(** Line 559 of [registerCommandContribution]: the array
    [extensionMetadata.contributes.commands] after the push. *)
Definition registerCommandContribution (contribution : Ref)
    (commands : list Ref) : list Ref :=
  commands ++ [contribution].

(** Lines 564-565, the [dispose] of the handle: the array after the
    splice. *)
Definition dispose (contribution : Ref) (commands : list Ref) : list Ref :=
  let index := Array_indexOf same_object commands contribution in
  Array_splice1 commands index.

End Objects.

End Contributions.

(** ** Further concrete inputs *)

Module MoreSamples.
Import Js.
Local Open Scope string_scope.

(** An evaluator that rejects every expression. *)
Definition rejectAll : FocusState.WhenVariables -> string -> bool :=
  fun _ _ => false.

(** Options with the [when] filter alone. *)
Definition whenOnly : InternalTypes.CommandQueryOptions :=
  InternalTypes.mkOptions None None None None None None true.

(** Options that ask for no category at all. *)
Definition noCategory : InternalTypes.CommandQueryOptions :=
  InternalTypes.mkOptions (Some []) None None None None None false.

End MoreSamples.

(** ** Concrete collaborators for the lookups *)

Module LookupSamples.
Import Js.
Local Open Scope string_scope.

(** The extension [good] contributes a session editor and a terminal
    theme provider; the extension [broken] a terminal theme provider. *)
Definition sessionEditors (metadata : Metadata.ExtensionMetadata)
    : option (list Lookups.SessionEditorContribution) :=
  if Metadata.name metadata =? "good"
  then Some [Lookups.mkSessionEditor "Unix shell" "unix"]
  else None.

Definition terminalThemeProviders (metadata : Metadata.ExtensionMetadata)
    : list Lookups.ThemeProviderContribution :=
  if Metadata.name metadata =? "good"
  then [Lookups.mkThemeProvider "good-themes" ["iTerm"; "Xresources"]]
  else if Metadata.name metadata =? "broken"
  then [Lookups.mkThemeProvider "broken-themes" ["Konsole"]]
  else [].

(** The window of the extension [sample] knows a viewer for [text/plain]
    and would name a session editor; that of [good] names one. *)
Definition window_findViewerElementTagByMimeType
    (context : Manager.InternalExtensionContext) (mimeType : string)
    : option string :=
  if (Metadata.name (Manager.extensionMetadata context) =? "sample")
     && (mimeType =? "text/plain")
  then Some "et-text-viewer"
  else None.

Definition window_getSessionEditorTagForType
    (context : Manager.InternalExtensionContext) (sessionType : string)
    : option string :=
  if Metadata.name (Manager.extensionMetadata context) =? "sample"
  then Some "sample-session-editor"
  else if Metadata.name (Manager.extensionMetadata context) =? "good"
  then Some "good-session-editor"
  else None.

(** The manager after [startUp] on [LifecycleSamples.discovered]. *)
Definition startedManager : Manager.ExtensionManagerImpl :=
  snd (Manager.startUp LifecycleSamples.isMainProcessExtension
         LifecycleSamples.isSupportedOnThisPlatform
         LifecycleSamples.discovered LifecycleSamples.path_join
         LifecycleSamples.require LifecycleSamples.new_CommandsRegistry
         Manager.newManager).

End LookupSamples.

(* ================================================================== *)
(** * Part II: what the specification says, and what holds            *)
(* ================================================================== *)

Unset Implicit Arguments.

(** ** Focus state: aggregation, merge and when-variables *)

Module FocusStateFacts.
Import Dom FocusState.

Ltac unfold_setters :=
  unfold set_activeTabContent, set_activeTerminal, set_focusTerminal,
    set_activeTextEditor, set_focusTextEditor, set_activeTabsWidget,
    set_activeViewerElement, set_focusViewerElement, set_isInputFieldFocus.

Ltac break_if :=
  match goal with
  | |- context [if ?b then _ else _] => destruct b
  end.

Lemma js_or_spec (a b : option EventTarget) :
  js_or a b = match a with Some t => Some t | None => b end.
Proof. destruct a; reflexivity. Qed.

Lemma js_or_not_null (a b : option EventTarget) :
  not_null b = true -> not_null (js_or a b) = true.
Proof. destruct a; simpl; auto. Qed.

(** The same-tab branch of the merge, field by field. *)
Lemma merge_same_tab_fields (newState state : CommonExtensionWindowState) :
  strict_eq (activeTabContent state) (activeTabContent newState) = true ->
  _mergeExtensionWindowState newState state =
  mkState (activeTabContent newState)
    (js_or (focusTerminal newState) (activeTerminal state))
    (focusTerminal state)
    (js_or (focusTextEditor newState) (activeTextEditor state))
    (focusTextEditor state)
    (activeTabsWidget newState)
    (js_or (focusViewerElement newState) (activeViewerElement state))
    (focusViewerElement state)
    (isInputFieldFocus newState).
Proof.
  intros Hsame. unfold _mergeExtensionWindowState. rewrite Hsame.
  reflexivity.
Qed.

(** The other branch of the merge, field by field. *)
Lemma merge_other_tab_fields (newState state : CommonExtensionWindowState) :
  strict_eq (activeTabContent state) (activeTabContent newState) = false ->
  _mergeExtensionWindowState newState state =
  mkState (activeTabContent newState)
    (focusTerminal newState) (focusTerminal newState)
    (focusTextEditor newState) (focusTextEditor newState)
    (activeTabsWidget newState)
    (focusViewerElement newState) (focusViewerElement newState)
    (isInputFieldFocus newState).
Proof.
  intros Hother. unfold _mergeExtensionWindowState. rewrite Hother.
  reflexivity.
Qed.

(** A fresh snapshot has each focus field equal to its active field. *)
Lemma snapshot_focus_mirrors_active (ev : Event) :
  let S := getExtensionWindowStateFromEvent ev in
  focusTerminal S = activeTerminal S
  /\ focusTextEditor S = activeTextEditor S
  /\ focusViewerElement S = activeViewerElement S.
Proof. simpl. repeat split. Qed.

(** Along a same-tab run a set active field stays set. *)
Lemma sameTabRun_keeps_active (evs : list Event) :
  forall state,
    sameTabRun evs state ->
    (not_null (activeTerminal state) = true ->
     not_null (activeTerminal (updateFromEvents evs state)) = true)
    /\ (not_null (activeTextEditor state) = true ->
        not_null (activeTextEditor (updateFromEvents evs state)) = true)
    /\ (not_null (activeViewerElement state) = true ->
        not_null (activeViewerElement (updateFromEvents evs state)) = true).
Proof.
  induction evs as [| ev rest IH]; intros state Hrun.
  - simpl. auto.
  - destruct Hrun as [Hsame Hrest].
    specialize (IH _ Hrest). destruct IH as (IHt & IHe & IHv).
    unfold updateFromEvents in *. simpl fold_left.
    assert (Hm := merge_same_tab_fields _ _ Hsame).
    fold (updateExtensionWindowStateFromEvent ev state) in Hm.
    repeat split; intros Hset.
    + apply IHt. rewrite Hm. simpl. now apply js_or_not_null.
    + apply IHe. rewrite Hm. simpl. now apply js_or_not_null.
    + apply IHv. rewrite Hm. simpl. now apply js_or_not_null.
Qed.

(** What one iteration of the scan does to [activeTerminal]. *)
Lemma scanTarget_activeTerminal (s : CommonExtensionWindowState)
    (target : EventTarget) :
  activeTerminal (scanTarget s target) =
  if instanceof target EtTerminal then Some target else activeTerminal s.
Proof.
  unfold scanTarget.
  destruct (instanceof target EtTerminal);
    repeat (break_if; simpl); reflexivity.
Qed.

Lemma scan_activeTerminal (path : list EventTarget) :
  forall s,
    activeTerminal (fold_left scanTarget path s) =
    match lastTerminal path with
    | Some t => Some t
    | None => activeTerminal s
    end.
Proof.
  induction path as [| t rest IH]; intros s; simpl.
  - reflexivity.
  - rewrite IH, scanTarget_activeTerminal.
    destruct (lastTerminal rest); [reflexivity |].
    destruct (instanceof t EtTerminal); reflexivity.
Qed.

End FocusStateFacts.

Module FocusStateClaims.
Import Dom FocusState FocusStateFacts.

(** C1.  When the snapshot [newState] has the tab content that is active in
    the canonical [state], the merge sets each of [activeTerminal],
    [activeTextEditor] and [activeViewerElement] to the snapshot's focus
    value where that is not null and keeps the previous value where it is
    null; and over any run of events that stay in the active tab content,
    an active terminal, text editor or viewer that was set is never
    null afterwards. *)
Theorem same_tab_merge_is_sticky :
  forall (newState state : CommonExtensionWindowState) (evs : list Event),
    strict_eq (activeTabContent state) (activeTabContent newState) = true ->
    sameTabRun evs state ->
    let merged := _mergeExtensionWindowState newState state in
    let final := updateFromEvents evs state in
    activeTerminal merged =
      match focusTerminal newState with
      | Some t => Some t
      | None => activeTerminal state
      end
    /\ activeTextEditor merged =
      match focusTextEditor newState with
      | Some t => Some t
      | None => activeTextEditor state
      end
    /\ activeViewerElement merged =
      match focusViewerElement newState with
      | Some t => Some t
      | None => activeViewerElement state
      end
    /\ (not_null (activeTerminal state) = true ->
        not_null (activeTerminal final) = true)
    /\ (not_null (activeTextEditor state) = true ->
        not_null (activeTextEditor final) = true)
    /\ (not_null (activeViewerElement state) = true ->
        not_null (activeViewerElement final) = true).
Proof.
  intros newState state evs Hsame Hrun merged final.
  subst merged final.
  rewrite (merge_same_tab_fields _ _ Hsame). simpl.
  rewrite !js_or_spec.
  destruct (sameTabRun_keeps_active evs state Hrun) as (Ht & He & Hv).
  repeat split; assumption.
Qed.

Lemma same_tab_merge_is_sticky_witness :
  strict_eq (activeTabContent Samples.stateOnTerminal)
    (activeTabContent (getExtensionWindowStateFromEvent Samples.evTabOnly))
  = true
  /\ sameTabRun [Samples.evTabOnly; Samples.evTabOnly] Samples.stateOnTerminal
  /\ focusTerminal (getExtensionWindowStateFromEvent Samples.evTabOnly) = None
  /\ activeTerminal
       (_mergeExtensionWindowState
          (getExtensionWindowStateFromEvent Samples.evTabOnly)
          Samples.stateOnTerminal)
     = Some Samples.terminal
  /\ not_null
       (activeTerminal
          (updateFromEvents [Samples.evTabOnly; Samples.evTabOnly]
             Samples.stateOnTerminal))
     = true.
Proof.
  assert (H1 : strict_eq (activeTabContent Samples.stateOnTerminal)
                 (activeTabContent
                    (getExtensionWindowStateFromEvent Samples.evTabOnly))
               = true) by reflexivity.
  assert (H2 : sameTabRun [Samples.evTabOnly; Samples.evTabOnly]
                 Samples.stateOnTerminal)
    by (simpl; repeat split; reflexivity).
  pose proof (same_tab_merge_is_sticky
                (getExtensionWindowStateFromEvent Samples.evTabOnly)
                Samples.stateOnTerminal
                [Samples.evTabOnly; Samples.evTabOnly] H1 H2) as H.
  destruct H as (Ht & _ & _ & Hkeep & _).
  split; [exact H1 |]. split; [exact H2 |]. split; [reflexivity |].
  split; [exact Ht | apply Hkeep; reflexivity].
Defined.

(** C2.  When the event's snapshot [S] has a tab content other than the
    one active in the canonical state, the merge sets the active and the
    focus terminal, text editor and viewer element to those of [S], null
    where [S] has null; and every merge sets [activeTabsWidget],
    [activeTabContent] and [isInputFieldFocus] to those of [S]. *)
Theorem other_tab_merge_replaces :
  forall (ev : Event) (state : CommonExtensionWindowState),
    let S := getExtensionWindowStateFromEvent ev in
    let C' := updateExtensionWindowStateFromEvent ev state in
    (strict_eq (activeTabContent state) (activeTabContent S) = false ->
     activeTerminal C' = activeTerminal S
     /\ focusTerminal C' = focusTerminal S
     /\ activeTextEditor C' = activeTextEditor S
     /\ focusTextEditor C' = focusTextEditor S
     /\ activeViewerElement C' = activeViewerElement S
     /\ focusViewerElement C' = focusViewerElement S)
    /\ activeTabsWidget C' = activeTabsWidget S
    /\ activeTabContent C' = activeTabContent S
    /\ isInputFieldFocus C' = isInputFieldFocus S.
Proof.
  intros ev state S C'.
  destruct (snapshot_focus_mirrors_active ev) as (Ht & He & Hv).
  fold S in Ht, He, Hv.
  assert (HC : C' = _mergeExtensionWindowState S state) by reflexivity.
  clearbody S C'. subst C'.
  destruct (strict_eq (activeTabContent state) (activeTabContent S)) eqn:E.
  - split; [discriminate |].
    rewrite (merge_same_tab_fields _ _ E).
    repeat split.
  - rewrite (merge_other_tab_fields _ _ E).
    cbn [activeTerminal focusTerminal activeTextEditor focusTextEditor
         activeViewerElement focusViewerElement activeTabsWidget
         activeTabContent isInputFieldFocus].
    rewrite <- Ht, <- He, <- Hv.
    repeat split.
Qed.

Lemma other_tab_merge_replaces_witness :
  strict_eq (activeTabContent Samples.stateOnTerminal)
    (activeTabContent (getExtensionWindowStateFromEvent Samples.evOtherTab))
  = false
  /\ activeTerminal Samples.stateOnTerminal = Some Samples.terminal
  /\ activeTerminal
       (updateExtensionWindowStateFromEvent Samples.evOtherTab
          Samples.stateOnTerminal)
     = None
  /\ focusTerminal
       (updateExtensionWindowStateFromEvent Samples.evOtherTab
          Samples.stateOnTerminal)
     = None
  /\ activeTabContent
       (updateExtensionWindowStateFromEvent Samples.evOtherTab
          Samples.stateOnTerminal)
     = Some Samples.otherTabContent.
Proof.
  assert (H1 : strict_eq (activeTabContent Samples.stateOnTerminal)
                 (activeTabContent
                    (getExtensionWindowStateFromEvent Samples.evOtherTab))
               = false) by reflexivity.
  pose proof (other_tab_merge_replaces Samples.evOtherTab
                Samples.stateOnTerminal) as H.
  cbv zeta in H. destruct H as (Hrepl & _ & Htab & _).
  destruct (Hrepl H1) as (Hat & Hft & _).
  split; [exact H1 |]. split; [reflexivity |].
  split; [rewrite Hat; reflexivity |].
  split; [rewrite Hft; reflexivity |].
  rewrite Htab. reflexivity.
Defined.

(** C10.  When the snapshot has the tab content that is active in the
    canonical state, the merge leaves [focusTerminal], [focusTextEditor]
    and [focusViewerElement] of the canonical state as they were. *)
Theorem same_tab_merge_keeps_focus_fields :
  forall (newState state : CommonExtensionWindowState),
    strict_eq (activeTabContent state) (activeTabContent newState) = true ->
    let merged := _mergeExtensionWindowState newState state in
    focusTerminal merged = focusTerminal state
    /\ focusTextEditor merged = focusTextEditor state
    /\ focusViewerElement merged = focusViewerElement state.
Proof.
  intros newState state Hsame merged. subst merged.
  rewrite (merge_same_tab_fields _ _ Hsame). simpl.
  repeat split.
Qed.

Lemma same_tab_merge_keeps_focus_fields_witness :
  strict_eq (activeTabContent Samples.stateOnTerminal)
    (activeTabContent (getExtensionWindowStateFromEvent Samples.evTabOnly))
  = true
  /\ focusTerminal (getExtensionWindowStateFromEvent Samples.evTabOnly) = None
  /\ focusTerminal
       (_mergeExtensionWindowState
          (getExtensionWindowStateFromEvent Samples.evTabOnly)
          Samples.stateOnTerminal)
     = Some Samples.terminal.
Proof.
  assert (H1 : strict_eq (activeTabContent Samples.stateOnTerminal)
                 (activeTabContent
                    (getExtensionWindowStateFromEvent Samples.evTabOnly))
               = true) by reflexivity.
  pose proof (same_tab_merge_keeps_focus_fields
                (getExtensionWindowStateFromEvent Samples.evTabOnly)
                Samples.stateOnTerminal H1) as H.
  cbv zeta in H. destruct H as (Hft & _).
  split; [exact H1 |]. split; [reflexivity |].
  rewrite Hft. reflexivity.
Defined.

(** C6, as the specification states it, fails: on the path of
    [Samples.evNested] the terminal-capable node nearest to the event
    target is [Samples.innerTerminal], and the snapshot's active and focus
    terminal are the other one, [Samples.terminal]. *)
Lemma first_terminal_does_not_win :
  firstTerminal (composedPath Samples.evNested) = Some Samples.innerTerminal
  /\ activeTerminal (getExtensionWindowStateFromEvent Samples.evNested)
     = Some Samples.terminal
  /\ focusTerminal (getExtensionWindowStateFromEvent Samples.evNested)
     = Some Samples.terminal
  /\ strict_eq (Some Samples.innerTerminal) (Some Samples.terminal) = false.
Proof. repeat split. Qed.

(** C6, amended.  The snapshot built from an event sets the active and
    the focus terminal to the last terminal-capable node of the composed
    path, the one nearest to the root (and to null when the path has
    none). *)
Theorem last_terminal_wins :
  forall ev : Event,
    activeTerminal (getExtensionWindowStateFromEvent ev)
    = lastTerminal (composedPath ev)
    /\ focusTerminal (getExtensionWindowStateFromEvent ev)
       = lastTerminal (composedPath ev).
Proof.
  intros ev.
  assert (H : activeTerminal (fold_left scanTarget (composedPath ev) emptyState)
              = lastTerminal (composedPath ev)).
  { rewrite scan_activeTerminal.
    destruct (lastTerminal (composedPath ev)); reflexivity. }
  unfold getExtensionWindowStateFromEvent, mirrorFocus.
  unfold_setters. simpl. split; exact H.
Qed.

(** C7.  With a focus terminal in normal mode the when-variables have
    [textEditorFocus] and [isTextEditing] false, whatever the focus text
    editor; with a focus terminal in cursor mode and a focus text editor,
    [textEditorFocus] is true and [isTextEditing] is what the editor's
    [getEditable] returns. *)
Theorem when_variables_text_editor :
  forall (state : CommonExtensionWindowState) (term : EventTarget),
    focusTerminal state = Some term ->
    let w := _createWhenVariables state in
    (getMode term <> CURSOR ->
     textEditorFocus w = false /\ isTextEditing w = false)
    /\ (getMode term = CURSOR ->
        forall editor : EventTarget,
          focusTextEditor state = Some editor ->
          textEditorFocus w = true /\ isTextEditing w = getEditable editor).
Proof.
  intros state term Hterm w. subst w.
  unfold _createWhenVariables. rewrite Hterm. split.
  - intros Hmode.
    assert (E : Mode_eqb (getMode term) CURSOR = false)
      by (destruct (getMode term); [reflexivity | congruence]).
    rewrite E. simpl.
    destruct (focusTextEditor state); split; reflexivity.
  - intros Hmode editor Heditor. rewrite Hmode, Heditor. simpl.
    destruct (getEditable editor); split; reflexivity.
Qed.

Lemma when_variables_text_editor_witness :
  (focusTerminal Samples.stateOnTerminal = Some Samples.terminal
   /\ focusTextEditor Samples.stateOnTerminal = Some Samples.terminalViewer
   /\ getMode Samples.terminal <> CURSOR
   /\ textEditorFocus (_createWhenVariables Samples.stateOnTerminal) = false
   /\ isTextEditing (_createWhenVariables Samples.stateOnTerminal) = false)
  /\ (focusTerminal Samples.stateCursor = Some Samples.cursorTerminal
      /\ getMode Samples.cursorTerminal = CURSOR
      /\ focusTextEditor Samples.stateCursor = Some Samples.terminalViewer
      /\ textEditorFocus (_createWhenVariables Samples.stateCursor) = true
      /\ isTextEditing (_createWhenVariables Samples.stateCursor) = true).
Proof.
  assert (N : getMode Samples.terminal <> CURSOR) by discriminate.
  split.
  - pose proof (when_variables_text_editor Samples.stateOnTerminal
                  Samples.terminal eq_refl) as H.
    cbv zeta in H. destruct H as (Hnormal & _).
    destruct (Hnormal N) as (Hf & He).
    split; [reflexivity |]. split; [reflexivity |]. split; [exact N |].
    split; [exact Hf | exact He].
  - pose proof (when_variables_text_editor Samples.stateCursor
                  Samples.cursorTerminal eq_refl) as H.
    cbv zeta in H. destruct H as (_ & Hcursor).
    destruct (Hcursor eq_refl Samples.terminalViewer eq_refl) as (Hf & He).
    split; [reflexivity |]. split; [reflexivity |]. split; [reflexivity |].
    split; [exact Hf | exact He].
Defined.

End FocusStateClaims.

(** ** [Array_sort]: ascending, stable, a permutation *)

Module SortFacts.
Import Js.

Section StableSort.

Variable A : Type.
Variable cmp : A -> A -> Z.
Variable same : A -> A -> bool.

Let le (x y : A) : Prop := (cmp x y <= 0)%Z.

Hypothesis le_total : forall x y, le x y \/ le y x.
Hypothesis le_trans : forall x y z, le x y -> le y z -> le x z.
Hypothesis same_class_le :
  forall k x y, same k x = true -> same k y = true -> le x y.

Lemma sort_insert_perm (x : A) (l : list A) :
  Permutation (x :: l) (sort_insert cmp x l).
Proof.
  induction l as [| y l IH]; simpl.
  - apply Permutation_refl.
  - destruct (cmp x y <=? 0)%Z.
    + apply Permutation_refl.
    + eapply perm_trans; [apply perm_swap |].
      now apply perm_skip.
Qed.

Lemma Array_sort_perm (l : list A) : Permutation l (Array_sort cmp l).
Proof.
  induction l as [| x l IH]; simpl.
  - apply perm_nil.
  - eapply perm_trans; [apply perm_skip, IH |].
    apply sort_insert_perm.
Qed.

Lemma sort_insert_sorted (x : A) (l : list A) :
  StronglySorted le l -> StronglySorted le (sort_insert cmp x l).
Proof.
  induction 1 as [| y l Hs IH Hall]; simpl.
  - constructor; constructor.
  - destruct (cmp x y <=? 0)%Z eqn:E.
    + apply Z.leb_le in E.
      constructor; [constructor; assumption |].
      constructor; [exact E |].
      eapply Forall_impl; [| exact Hall].
      intros z Hz. eapply le_trans; [exact E | exact Hz].
    + apply Z.leb_gt in E.
      assert (Hyx : le y x).
      { destruct (le_total x y) as [H | H]; [unfold le in H; lia | exact H]. }
      constructor; [exact IH |].
      eapply Permutation_Forall; [apply sort_insert_perm |].
      constructor; assumption.
Qed.

Lemma Array_sort_sorted (l : list A) : StronglySorted le (Array_sort cmp l).
Proof.
  induction l as [| x l IH]; simpl.
  - constructor.
  - now apply sort_insert_sorted.
Qed.

Lemma sort_insert_filter (k x : A) (l : list A) :
  filter (same k) (sort_insert cmp x l) = filter (same k) (x :: l).
Proof.
  induction l as [| y l IH].
  - reflexivity.
  - simpl sort_insert. destruct (cmp x y <=? 0)%Z eqn:E; [reflexivity |].
    apply Z.leb_gt in E.
    simpl filter at 1. rewrite IH. simpl.
    destruct (same k x) eqn:Ex, (same k y) eqn:Ey; try reflexivity.
    pose proof (same_class_le k x y Ex Ey) as H. unfold le in H. lia.
Qed.

Lemma Array_sort_stable (k : A) (l : list A) :
  filter (same k) (Array_sort cmp l) = filter (same k) l.
Proof.
  induction l as [| x l IH]; simpl.
  - reflexivity.
  - rewrite sort_insert_filter. simpl. now rewrite IH.
Qed.

Hypothesis same_of_le : forall x y, le x y -> le y x -> same x y = true.

Lemma same_refl (x : A) : same x x = true.
Proof. apply same_of_le; destruct (le_total x x); assumption. Qed.

Lemma filter_head_le (x y : A) (l1 l2 : list A) :
  Forall (le y) l2 ->
  filter (same x) (x :: l1) = filter (same x) (y :: l2) ->
  le y x.
Proof.
  intros Hall Hf.
  assert (Hin : In x (filter (same x) (y :: l2))).
  { rewrite <- Hf. simpl. rewrite same_refl. left. reflexivity. }
  apply filter_In in Hin. destruct Hin as [[-> | Hin] _].
  - destruct (le_total x x); assumption.
  - rewrite Forall_forall in Hall. now apply Hall.
Qed.

(** Two ascending arrangements that keep the elements of every class in
    one and the same order are one and the same list. *)
Lemma sorted_stable_unique (l1 : list A) :
  forall l2 : list A,
    StronglySorted le l1 -> StronglySorted le l2 ->
    (forall k, filter (same k) l1 = filter (same k) l2) ->
    l1 = l2.
Proof.
  induction l1 as [| x l1 IH]; intros [| y l2] H1 H2 Hf.
  - reflexivity.
  - specialize (Hf y). simpl in Hf. rewrite same_refl in Hf. discriminate.
  - specialize (Hf x). simpl in Hf. rewrite same_refl in Hf. discriminate.
  - apply StronglySorted_inv in H1. destruct H1 as [S1 A1].
    apply StronglySorted_inv in H2. destruct H2 as [S2 A2].
    assert (Hyx : le y x) by exact (filter_head_le x y l1 l2 A2 (Hf x)).
    assert (Hxy : le x y)
      by exact (filter_head_le y x l2 l1 A1 (eq_sym (Hf y))).
    assert (Exy : x = y).
    { pose proof (Hf x) as Hx. simpl in Hx.
      rewrite same_refl, (same_of_le x y Hxy Hyx) in Hx. congruence. }
    subst y. f_equal. apply IH; try assumption.
    intros k. specialize (Hf k). simpl in Hf.
    destruct (same k x); [congruence | exact Hf].
Qed.

(** Whatever algorithm sorts: an ascending, stable arrangement of [l] is
    [Array_sort cmp l]. *)
Lemma stable_sort_unique (l sorted : list A) :
  StronglySorted le sorted ->
  (forall k, filter (same k) sorted = filter (same k) l) ->
  sorted = Array_sort cmp l.
Proof.
  intros Hs Hf. apply sorted_stable_unique.
  - exact Hs.
  - apply Array_sort_sorted.
  - intros k. rewrite Hf, Array_sort_stable. reflexivity.
Qed.

End StableSort.

(** In a sorted list an element stands after those it is strictly above. *)
Lemma sorted_precedes (A : Type) (R : A -> A -> Prop) (l : list A) (a b : A) :
  StronglySorted R l -> In a l -> In b l -> ~ R b a -> a <> b ->
  QuerySpec.precedes l a b.
Proof.
  intros Hs Ha Hb Hnot Hneq.
  destruct (in_split _ _ Ha) as (l1 & r & ->).
  apply in_app_or in Hb. destruct Hb as [Hb | [Hb | Hb]].
  - exfalso. apply Hnot. clear Ha Hneq Hnot.
    induction l1 as [| x l1 IH]; [contradiction |].
    simpl in Hs. apply StronglySorted_inv in Hs. destruct Hs as [Hs Hall].
    destruct Hb as [-> | Hb].
    + rewrite Forall_forall in Hall. apply Hall.
      apply in_or_app. right. left. reflexivity.
    + now apply IH.
  - contradiction.
  - destruct (in_split _ _ Hb) as (l2 & l3 & ->).
    exists l1, l2, l3. reflexivity.
Qed.

End SortFacts.

(** ** The comparator of the query *)

Module OrderFacts.
Import Js.
Import QuerySpec.

Lemma string_compare_refl (s : string) : String.compare s s = Eq.
Proof.
  pose proof (String.compare_antisym s s) as H.
  destruct (String.compare s s); simpl in H; congruence.
Qed.

Lemma string_compare_le_trans :
  forall a b c : string,
    String.compare a b <> Gt -> String.compare b c <> Gt ->
    String.compare a c <> Gt.
Proof.
  induction a as [| x a IH]; intros [| y b] [| z c]; simpl;
    try congruence.
  unfold Ascii.compare.
  destruct (N.compare_spec (N_of_ascii x) (N_of_ascii y)) as [Exy | Lxy | Gxy];
    destruct (N.compare_spec (N_of_ascii y) (N_of_ascii z)) as [Eyz | Lyz | Gyz];
    destruct (N.compare_spec (N_of_ascii x) (N_of_ascii z)) as [Exz | Lxz | Gxz];
    intros H1 H2; try congruence; try lia.
  now apply (IH b c).
Qed.

Lemma string_leb_iff (a b : string) :
  String.leb a b = true <-> String.compare a b <> Gt.
Proof.
  unfold String.leb. destruct (String.compare a b); split; congruence.
Qed.

Lemma string_leb_refl (s : string) : String.leb s s = true.
Proof. apply string_leb_iff. rewrite string_compare_refl. congruence. Qed.

Lemma string_leb_total (a b : string) :
  String.leb a b = true \/ String.leb b a = true.
Proof.
  unfold String.leb. rewrite (String.compare_antisym b a).
  destruct (String.compare a b); simpl; auto.
Qed.

Lemma string_leb_trans (a b c : string) :
  String.leb a b = true -> String.leb b c = true -> String.leb a c = true.
Proof.
  rewrite !string_leb_iff. apply string_compare_le_trans.
Qed.

Lemma string_ltb_leb (a b : string) :
  a <> b -> String.ltb a b = String.leb a b.
Proof.
  intros Hneq. unfold String.ltb, String.leb.
  destruct (String.compare a b) eqn:E; try reflexivity.
  apply String.compare_eq_iff in E. contradiction.
Qed.

(** The comparator is at most zero exactly when the keys ascend. *)
Lemma sortCompareFunc_le (a b : Metadata.ExtensionCommandContribution) :
  (Manager._sortCompareFunc a b <= 0)%Z <-> keyLe a b.
Proof.
  unfold Manager._sortCompareFunc, keyLe.
  destruct (Z.eqb_spec (Manager.categoryIndex (Metadata.category a))
              (Manager.categoryIndex (Metadata.category b))) as [Ec | Nc];
    simpl negb; cbv iota.
  2: { destruct (Z.ltb_spec (Manager.categoryIndex (Metadata.category a))
                   (Manager.categoryIndex (Metadata.category b)))
         as [Hlt | Hge]; split; intros H.
       - left. exact Hlt.
       - lia.
       - lia.
       - destruct H as [H | [H _]]; lia. }
  destruct (Z.eqb_spec (Metadata.order a) (Metadata.order b)) as [Eo | No];
    simpl negb; cbv iota.
  2: { destruct (Z.ltb_spec (Metadata.order a) (Metadata.order b))
         as [Hlt | Hge]; split; intros H.
       - right. split; [exact Ec | left; exact Hlt].
       - lia.
       - lia.
       - destruct H as [H | [_ [H | [H _]]]]; lia. }
  destruct (String.eqb_spec (Metadata.title a) (Metadata.title b)) as [Et | Nt];
    simpl negb; cbv iota.
  - split; intros _; [| lia].
    right. split; [exact Ec |]. right. split; [exact Eo |].
    rewrite Et. apply string_leb_refl.
  - rewrite (string_ltb_leb _ _ Nt).
    destruct (String.leb (Metadata.title a) (Metadata.title b)) eqn:L;
      split; intros H.
    + right. split; [exact Ec |]. right. split; [exact Eo | reflexivity].
    + lia.
    + lia.
    + destruct H as [H | [_ [H | [_ H]]]]; try lia; try discriminate.
Qed.

Lemma keyLe_total (a b : Metadata.ExtensionCommandContribution) :
  keyLe a b \/ keyLe b a.
Proof.
  unfold keyLe.
  destruct (Z.lt_trichotomy (Manager.categoryIndex (Metadata.category a))
              (Manager.categoryIndex (Metadata.category b))) as [H | [H | H]];
    [left; left; exact H | | right; left; exact H].
  destruct (Z.lt_trichotomy (Metadata.order a) (Metadata.order b))
    as [O | [O | O]].
  - left. right. split; [exact H | left; exact O].
  - destruct (string_leb_total (Metadata.title a) (Metadata.title b)) as [L | L].
    + left. right. split; [exact H |]. right. split; [exact O | exact L].
    + right. right. split; [symmetry; exact H |]. right.
      split; [symmetry; exact O | exact L].
  - right. right. split; [symmetry; exact H | left; exact O].
Qed.

Lemma keyLe_trans (a b c : Metadata.ExtensionCommandContribution) :
  keyLe a b -> keyLe b c -> keyLe a c.
Proof.
  unfold keyLe.
  intros [H1 | [E1 [H1 | [F1 L1]]]] [H2 | [E2 [H2 | [F2 L2]]]];
    first
      [ left; lia
      | right; split; [lia | left; lia]
      | right; split; [lia |]; right; split; [lia |];
        eapply string_leb_trans; eassumption ].
Qed.

Lemma sameKey_eq (a b : Metadata.ExtensionCommandContribution) :
  sameKey a b = true <->
  Manager.categoryIndex (Metadata.category a)
  = Manager.categoryIndex (Metadata.category b)
  /\ Metadata.order a = Metadata.order b
  /\ Metadata.title a = Metadata.title b.
Proof.
  unfold sameKey. rewrite !andb_true_iff, !Z.eqb_eq, String.eqb_eq.
  tauto.
Qed.

Lemma sameKey_keyLe (k x y : Metadata.ExtensionCommandContribution) :
  sameKey k x = true -> sameKey k y = true -> keyLe x y.
Proof.
  rewrite !sameKey_eq. intros (C1 & O1 & T1) (C2 & O2 & T2).
  right. split; [congruence |]. right. split; [congruence |].
  rewrite <- T1, <- T2. apply string_leb_refl.
Qed.

(** The position of a category in the enumeration is [-1] exactly for a
    category outside it. *)
Lemma Array_indexOf_from_spec (x : string) (arr : list string) :
  forall i : Z,
    (existsb (String.eqb x) arr = false ->
     Array_indexOf_from String.eqb x arr i = (-1)%Z)
    /\ (existsb (String.eqb x) arr = true ->
        (i <= Array_indexOf_from String.eqb x arr i)%Z).
Proof.
  induction arr as [| y arr IH]; intros i; simpl.
  - split; [reflexivity | discriminate].
  - rewrite (String.eqb_sym x y).
    destruct (String.eqb y x); simpl.
    + split; [discriminate | lia].
    + destruct (IH (i + 1)%Z) as [H1 H2].
      split; [exact H1 |]. intros H. specialize (H2 H). lia.
Qed.

Lemma categoryIndex_unknown (c : Metadata.Category) :
  inEnumeration c = false -> Manager.categoryIndex c = (-1)%Z.
Proof. apply (Array_indexOf_from_spec c Manager.allCategories 0). Qed.

Lemma categoryIndex_known (c : Metadata.Category) :
  inEnumeration c = true -> (0 <= Manager.categoryIndex c)%Z.
Proof. apply (Array_indexOf_from_spec c Manager.allCategories 0). Qed.

(** [_sortCommandsInPlace] sorts by the keys, keeps ties in place and
    permutes. *)
Lemma sortCommandsInPlace_sorted
    (entries : list Metadata.ExtensionCommandContribution) :
  StronglySorted keyLe (Manager._sortCommandsInPlace entries).
Proof.
  unfold Manager._sortCommandsInPlace.
  assert (H : StronglySorted
                (fun x y => (Manager._sortCompareFunc x y <= 0)%Z)
                (Array_sort Manager._sortCompareFunc entries)).
  { apply SortFacts.Array_sort_sorted.
    - intros x y. rewrite !sortCompareFunc_le. apply keyLe_total.
    - intros x y z. rewrite !sortCompareFunc_le. apply keyLe_trans. }
  induction H as [| x l Hs IH Hall]; constructor.
  - exact IH.
  - eapply Forall_impl; [| exact Hall].
    intros y. apply sortCompareFunc_le.
Qed.


Lemma keyLe_antisym (a b : Metadata.ExtensionCommandContribution) :
  keyLe a b -> keyLe b a -> sameKey a b = true.
Proof.
  unfold keyLe. rewrite sameKey_eq.
  intros [H1 | [E1 [H1 | [F1 L1]]]] [H2 | [E2 [H2 | [F2 L2]]]]; try lia.
  repeat split; try assumption.
  now apply String.leb_antisym.
Qed.

(** The result of [_sortCommandsInPlace] does not depend on the sorting
    algorithm, as long as that is stable. *)
Lemma sortCommandsInPlace_unique
    (entries sorted : list Metadata.ExtensionCommandContribution) :
  StronglySorted keyLe sorted ->
  (forall k, filter (sameKey k) sorted = filter (sameKey k) entries) ->
  sorted = Manager._sortCommandsInPlace entries.
Proof.
  intros Hs Hf. unfold Manager._sortCommandsInPlace.
  apply (SortFacts.stable_sort_unique _ Manager._sortCompareFunc sameKey).
  - intros x y. rewrite !sortCompareFunc_le. apply keyLe_total.
  - intros x y z. rewrite !sortCompareFunc_le. apply keyLe_trans.
  - intros k x y Hx Hy. apply sortCompareFunc_le.
    exact (sameKey_keyLe _ _ _ Hx Hy).
  - intros x y. rewrite !sortCompareFunc_le. apply keyLe_antisym.
  - clear Hf. induction Hs as [| x l Hs IH Hall]; constructor.
    + exact IH.
    + eapply Forall_impl; [| exact Hall].
      intros y. apply sortCompareFunc_le.
  - exact Hf.
Qed.

End OrderFacts.

(** ** The order of a query's result *)

Module QueryClaims.
Import Js QuerySpec OrderFacts.


(** C9, as the specification states it, fails: the manager
    [QuerySamples.sampleManager] contributes a command of the category
    [terminal] and then one of a category outside the enumeration, and the
    query returns the latter first. *)
Lemma unknown_category_is_not_last :
  inEnumeration (Metadata.category QuerySamples.knownCommand) = true
  /\ inEnumeration (Metadata.category QuerySamples.unknownCommand) = false
  /\ Manager.queryCommands QuerySamples.acceptAll QuerySamples.noOptions
       QuerySamples.sampleManager
     = [QuerySamples.unknownCommand; QuerySamples.knownCommand].
Proof. repeat split. Qed.

(** C9, amended.  In the list a query returns, an entry whose category is
    outside the enumeration stands before every entry whose category is
    in it: [allCategories.indexOf] gives such a category the position
    [-1]. *)
Theorem unknown_category_sorts_first :
  forall (bee_evaluate : FocusState.WhenVariables -> string -> bool)
         (options : InternalTypes.CommandQueryOptions)
         (context : FocusState.CommonExtensionWindowState)
         (this : Manager.ExtensionManagerImpl)
         (a b : Metadata.ExtensionCommandContribution),
    let result :=
      Manager.queryCommandsWithExtensionWindowState bee_evaluate options
        context this in
    In a result -> In b result ->
    inEnumeration (Metadata.category a) = false ->
    inEnumeration (Metadata.category b) = true ->
    precedes result a b.
Proof.
  intros bee_evaluate options context this a b result Ha Hb Hunknown Hknown.
  pose proof (categoryIndex_unknown _ Hunknown) as Ia.
  pose proof (categoryIndex_known _ Hknown) as Ib.
  apply (@SortFacts.sorted_precedes _ keyLe); try assumption.
  - apply sortCommandsInPlace_sorted.
  - unfold keyLe. intros [H | [H _]]; lia.
  - intros ->. lia.
Qed.

Lemma unknown_category_sorts_first_witness :
  In QuerySamples.unknownCommand
    (Manager.queryCommandsWithExtensionWindowState QuerySamples.acceptAll
       QuerySamples.noOptions FocusState.emptyState QuerySamples.sampleManager)
  /\ In QuerySamples.knownCommand
       (Manager.queryCommandsWithExtensionWindowState QuerySamples.acceptAll
          QuerySamples.noOptions FocusState.emptyState
          QuerySamples.sampleManager)
  /\ precedes
       (Manager.queryCommandsWithExtensionWindowState QuerySamples.acceptAll
          QuerySamples.noOptions FocusState.emptyState
          QuerySamples.sampleManager)
       QuerySamples.unknownCommand QuerySamples.knownCommand.
Proof.
  assert (Ha : In QuerySamples.unknownCommand
                 (Manager.queryCommandsWithExtensionWindowState
                    QuerySamples.acceptAll QuerySamples.noOptions
                    FocusState.emptyState QuerySamples.sampleManager))
    by (left; reflexivity).
  assert (Hb : In QuerySamples.knownCommand
                 (Manager.queryCommandsWithExtensionWindowState
                    QuerySamples.acceptAll QuerySamples.noOptions
                    FocusState.emptyState QuerySamples.sampleManager))
    by (right; left; reflexivity).
  split; [exact Ha |]. split; [exact Hb |].
  exact (@unknown_category_sorts_first QuerySamples.acceptAll
           QuerySamples.noOptions FocusState.emptyState
           QuerySamples.sampleManager QuerySamples.unknownCommand
           QuerySamples.knownCommand Ha Hb eq_refl eq_refl).
Defined.

End QueryClaims.

(** ** Command execution *)

Module ExecuteFacts.
Import Js Manager.
Local Open Scope string_scope.

Lemma split_length (sep : ascii) (s : string) :
  List.length (split sep s) = S (count_char sep s).
Proof.
  induction s as [| c s IH]; simpl.
  - reflexivity.
  - destruct (Ascii.eqb c sep); simpl.
    + now rewrite IH.
    + destruct (split sep s) as [| part parts]; simpl in *; lia.
Qed.

Lemma two_parts_iff_one_colon (commandName : string) :
  (List.length (split ":" commandName) =? 2)%nat = true
  <-> count_char ":" commandName = 1.
Proof. rewrite split_length, Nat.eqb_eq. lia. Qed.

Lemma runCommandFunc_eq (name : string) (f : CommandFunc) (v : JsValue)
    (this : ExtensionManagerImpl) :
  _runCommandFunc name f v this =
  match f v (_commonExtensionWindowState this) with
  | (Return r, state) => (Return r, withWindowState state this)
  | (Throw ex, state) =>
      (Return JsNull,
       warned ("Command '" ++ name ++ "' threw an exception. "
               ++ JsError_toString ex)
         (withWindowState state this))
  end.
Proof.
  unfold _runCommandFunc, try_catch, callCommandFunc.
  destruct (f v (_commonExtensionWindowState this)) as [[r | ex] state];
    reflexivity.
Qed.

Lemma dispatch_no_extension (active : list ActiveExtension)
    (extensionName commandName : string) (v : JsValue)
    (this : ExtensionManagerImpl) :
  findExtension active extensionName = None ->
  dispatchCommand active extensionName commandName v this =
  (Return JsNull,
   warned ("Unable to find extension with name '" ++ extensionName
           ++ "' for command '" ++ commandName ++ "'.") this).
Proof.
  unfold findExtension.
  induction active as [| ext rest IH]; simpl; intros Hfind.
  - reflexivity.
  - destruct (Metadata.name (metadata ext) =? extensionName);
      [discriminate | now apply IH].
Qed.

Lemma dispatch_extension (active : list ActiveExtension)
    (extensionName commandName : string) (v : JsValue)
    (this : ExtensionManagerImpl) (ext : ActiveExtension) :
  findExtension active extensionName = Some ext ->
  dispatchCommand active extensionName commandName v this =
  match getCommandFunction (commands (contextImpl ext)) commandName with
  | None =>
      (Return JsNull,
       warned ("Unable to find command '" ++ commandName
               ++ "' in extension '" ++ extensionName ++ "'.") this)
  | Some f => _runCommandFunc commandName f v this
  end.
Proof.
  unfold findExtension.
  induction active as [| x rest IH]; simpl; intros Hfind.
  - discriminate.
  - destruct (Metadata.name (metadata x) =? extensionName).
    + injection Hfind as ->.
      destruct (getCommandFunction (commands (contextImpl ext)) commandName);
        reflexivity.
    + now apply IH.
Qed.

Section WithJson.

Variable JSON_parse : list N -> Completion JsValue.

(** [executeCommand] in one piece. *)
Lemma executeCommand_eq (command : string) (args : JsValue)
    (this : ExtensionManagerImpl) :
  executeCommand JSON_parse command args this =
  let commandName := fst (splitCommand command) in
  let argsString := snd (splitCommand command) in
  if (List.length (split ":" commandName) =? 2)%nat
  then
    match resolveArgs JSON_parse args argsString with
    | Throw ex => (Throw ex, this)
    | Return v =>
        dispatchCommand (_activeExtensions this)
          (aliasedExtensionName (split ":" commandName)) commandName v this
    end
  else
    (Return JsNull,
     warned ("Command '" ++ command
             ++ "' does have the right form. (Wrong numer of colons.)") this).
Proof.
  unfold executeCommand.
  destruct (splitCommand command) as [commandName argsString]. simpl.
  destruct (List.length (split ":" commandName) =? 2)%nat; simpl.
  - unfold bind, call.
    destruct (resolveArgs JSON_parse args argsString); reflexivity.
  - reflexivity.
Qed.

(** [executeCommand] throws only what resolving the arguments throws. *)
Lemma executeCommand_throws (command : string) (args : JsValue)
    (this : ExtensionManagerImpl) (ex : JsError) :
  fst (executeCommand JSON_parse command args this) = Throw ex ->
  resolveArgs JSON_parse args (snd (splitCommand command)) = Throw ex
  /\ snd (executeCommand JSON_parse command args this) = this.
Proof.
  rewrite executeCommand_eq. cbv zeta.
  destruct (List.length (split ":" (fst (splitCommand command))) =? 2)%nat;
    [| discriminate].
  destruct (resolveArgs JSON_parse args (snd (splitCommand command)))
    as [v | ex'].
  - destruct (findExtension (_activeExtensions this)
                (aliasedExtensionName
                   (split ":" (fst (splitCommand command))))) as [ext |] eqn:F.
    + rewrite (dispatch_extension _ _ _ _ _ _ F).
      destruct (getCommandFunction (commands (contextImpl ext))
                  (fst (splitCommand command))) as [f |];
        [| discriminate].
      rewrite runCommandFunc_eq.
      destruct (f v (_commonExtensionWindowState this)) as [[r | e] state];
        discriminate.
    + rewrite (dispatch_no_extension _ _ _ _ _ F). discriminate.
  - simpl. intros [= ->]. split; reflexivity.
Qed.

Lemma setExtensionWindowState_eq
    (newState : FocusState.CommonExtensionWindowState)
    (this : ExtensionManagerImpl) :
  _setExtensionWindowState newState this
  = (Return tt, withWindowState newState this).
Proof.
  unfold _setExtensionWindowState, modify_windowState, withWindowState.
  destruct newState. reflexivity.
Qed.

(** [executeCommandWithExtensionWindowState] in one piece. *)
Lemma executeCommandWithExtensionWindowState_eq
    (tempState : FocusState.CommonExtensionWindowState) (command : string)
    (args : JsValue) (this : ExtensionManagerImpl) :
  executeCommandWithExtensionWindowState JSON_parse tempState command args
    this =
  match executeCommand JSON_parse command args
          (withWindowState tempState this) with
  | (Return result, after) =>
      (Return result,
       withWindowState (_commonExtensionWindowState this) after)
  | (Throw ex, after) => (Throw ex, after)
  end.
Proof.
  unfold executeCommandWithExtensionWindowState, bind at 1,
    copyExtensionWindowState.
  unfold bind at 1. rewrite setExtensionWindowState_eq.
  unfold bind at 1.
  destruct (executeCommand JSON_parse command args
              (withWindowState tempState this)) as [[result | ex] after];
    [| reflexivity].
  unfold bind, ret. rewrite setExtensionWindowState_eq.
  destruct (_commonExtensionWindowState this). reflexivity.
Qed.

End WithJson.

(** When resolving the arguments throws, the exception leaves
    [executeCommandWithExtensionWindowState] before the old state is put
    back: the canonical focus state stays [tempState]. *)
Example malformed_arguments_skip_restore :
  executeCommandWithExtensionWindowState ExecuteSamples.parseEmptyObject
    FocusState.emptyState "sample:ok?%" JsUndefined ExecuteSamples.manager
  = (Throw URIError,
     withWindowState FocusState.emptyState ExecuteSamples.manager).
Proof. reflexivity. Qed.

(** The query part [%7B%22a%22%3A1%7D] decodes to the text of the object
    with the key [a] and the value 1. *)
Example decodeURIComponent_object :
  decodeURIComponent "%7B%22a%22%3A1%7D"
  = Return [123; 34; 97; 34; 58; 49; 125]%N.
Proof. reflexivity. Qed.

(** The alias [extraterm] stands for [internal-commands]. *)
Example extraterm_alias :
  aliasedExtensionName (split ":" "extraterm:foo") = "internal-commands".
Proof. reflexivity. Qed.

End ExecuteFacts.

Module ExecuteClaims.
Import Js Manager ExecuteFacts.
Local Open Scope string_scope.

(** C3.  Whenever [executeCommandWithExtensionWindowState] returns, the
    canonical focus state is the one from before the call, and the result
    is that of [executeCommand] run on the manager whose canonical focus
    state is [tempState].  When the command resolves to a function [f], the
    call does return, [f] is applied to [tempState] itself, the result is
    what [f] returns, or null when [f] throws, and in both cases the
    canonical focus state is restored, whatever [f] did to it. *)
Theorem temporary_state_is_restored :
  forall (JSON_parse : list N -> Completion JsValue)
         (tempState : FocusState.CommonExtensionWindowState)
         (command : string) (args : JsValue) (this : ExtensionManagerImpl),
    let run :=
      executeCommandWithExtensionWindowState JSON_parse tempState command
        args this in
    let during := withWindowState tempState this in
    _commonExtensionWindowState during = tempState
    /\ (forall result : JsValue,
          fst run = Return result ->
          _commonExtensionWindowState (snd run)
          = _commonExtensionWindowState this
          /\ fst (executeCommand JSON_parse command args during)
             = Return result)
    /\ (forall (v : JsValue) (ext : ActiveExtension) (f : CommandFunc),
          count_char ":" (fst (splitCommand command)) = 1 ->
          resolveArgs JSON_parse args (snd (splitCommand command))
          = Return v ->
          findExtension (_activeExtensions this)
            (aliasedExtensionName (split ":" (fst (splitCommand command))))
          = Some ext ->
          getCommandFunction (commands (contextImpl ext))
            (fst (splitCommand command)) = Some f ->
          fst run
          = match fst (f v tempState) with
            | Return r => Return r
            | Throw _ => Return JsNull
            end
          /\ _commonExtensionWindowState (snd run)
             = _commonExtensionWindowState this).
Proof.
  intros JSON_parse tempState command args this run during.
  subst run during.
  rewrite executeCommandWithExtensionWindowState_eq.
  split; [reflexivity |]. split.
  - intros result.
    destruct (executeCommand JSON_parse command args
                (withWindowState tempState this)) as [[r | ex] after];
      simpl; [| discriminate].
    intros [= ->]. split; reflexivity.
  - intros v ext f Hcolon Hargs Hext Hfunc.
    rewrite executeCommand_eq. cbv zeta.
    apply two_parts_iff_one_colon in Hcolon. rewrite Hcolon, Hargs.
    change (_activeExtensions (withWindowState tempState this))
      with (_activeExtensions this).
    rewrite (dispatch_extension _ _ _ _ _ _ Hext), Hfunc, runCommandFunc_eq.
    change (_commonExtensionWindowState (withWindowState tempState this))
      with tempState.
    destruct (f v tempState) as [[r | ex] state]; split; reflexivity.
Qed.

Lemma temporary_state_is_restored_witness :
  (fst (executeCommandWithExtensionWindowState
          ExecuteSamples.parseEmptyObject FocusState.emptyState "sample:ok"
          JsUndefined ExecuteSamples.manager)
   = Return (JsString "done")
   /\ _commonExtensionWindowState
        (snd (executeCommandWithExtensionWindowState
                ExecuteSamples.parseEmptyObject FocusState.emptyState
                "sample:ok" JsUndefined ExecuteSamples.manager))
      = Samples.stateOnTerminal)
  /\ (fst (executeCommandWithExtensionWindowState
             ExecuteSamples.parseEmptyObject FocusState.emptyState
             "sample:boom?%7B%7D" JsUndefined ExecuteSamples.manager)
      = Return JsNull
      /\ _commonExtensionWindowState
           (snd (executeCommandWithExtensionWindowState
                   ExecuteSamples.parseEmptyObject FocusState.emptyState
                   "sample:boom?%7B%7D" JsUndefined ExecuteSamples.manager))
         = Samples.stateOnTerminal).
Proof.
  split.
  - pose proof (temporary_state_is_restored ExecuteSamples.parseEmptyObject
                  FocusState.emptyState "sample:ok" JsUndefined
                  ExecuteSamples.manager) as H.
    cbv zeta in H. destruct H as (_ & _ & H).
    exact (H (JsObject []) ExecuteSamples.extension ExecuteSamples.okFunc
             eq_refl eq_refl eq_refl eq_refl).
  - pose proof (temporary_state_is_restored ExecuteSamples.parseEmptyObject
                  FocusState.emptyState "sample:boom?%7B%7D" JsUndefined
                  ExecuteSamples.manager) as H.
    cbv zeta in H. destruct H as (_ & _ & H).
    exact (H (JsObject []) ExecuteSamples.extension ExecuteSamples.boomFunc
             eq_refl eq_refl eq_refl eq_refl).
Defined.

(** C4.  The code at the failing input: no active extension of
    [QuerySamples.sampleManager] has the name [nobody] and the command
    string has one colon, so the specification has [executeCommand] log a
    warning and return null; with the arguments left out it throws the
    [URIError] of [decodeURIComponent] on the query part [%], whatever
    [JSON.parse] is.  The lines 384-390 decode and parse outside any [try]
    and before the extension is looked up, while every other failure of
    [executeCommand] warns and returns null and [_runCommandFunc] catches
    what the function throws. *)
Lemma malformed_arguments_propagate :
  noExtensionMatches "nobody:cmd?%" QuerySamples.sampleManager
  /\ (forall JSON_parse : list N -> Completion JsValue,
        executeCommand JSON_parse "nobody:cmd?%" JsUndefined
          QuerySamples.sampleManager
        = (Throw URIError, QuerySamples.sampleManager)).
Proof.
  split.
  - split; reflexivity.
  - intros JSON_parse. reflexivity.
Qed.

(** X26.  [executeCommand] returns null, with one warning added to the
    log, when the name part of the command string has not exactly one
    colon; and, when the arguments are at hand (they were passed, or the
    string has no query part, or its query part decodes and parses), also
    when no active extension has the alias-resolved name, when the
    extension has no function for the command, and when the function
    throws. *)
Theorem failures_return_null :
  forall (JSON_parse : list N -> Completion JsValue) (command : string)
         (args : JsValue) (this : ExtensionManagerImpl),
    ExecuteFailure JSON_parse command args this ->
    returnsNullWithWarning (executeCommand JSON_parse command args this) this.
Proof.
  intros JSON_parse command args this Hfail.
  unfold returnsNullWithWarning. rewrite executeCommand_eq. cbv zeta.
  destruct Hfail as [Hcolon | v Hcolon Hargs Hnone | v ext Hcolon Hargs Hext Hnone
                    | v ext f e Hcolon Hargs Hext Hfunc Hthrow].
  - destruct (List.length (split ":" (fst (splitCommand command))) =? 2)%nat
      eqn:E.
    + apply two_parts_iff_one_colon in E. contradiction.
    + split; [reflexivity | eexists; reflexivity].
  - apply two_parts_iff_one_colon in Hcolon. rewrite Hcolon, Hargs.
    rewrite (dispatch_no_extension _ _ _ _ _ Hnone).
    split; [reflexivity | eexists; reflexivity].
  - apply two_parts_iff_one_colon in Hcolon. rewrite Hcolon, Hargs.
    rewrite (dispatch_extension _ _ _ _ _ _ Hext), Hnone.
    split; [reflexivity | eexists; reflexivity].
  - apply two_parts_iff_one_colon in Hcolon. rewrite Hcolon, Hargs.
    rewrite (dispatch_extension _ _ _ _ _ _ Hext), Hfunc, runCommandFunc_eq.
    destruct (f v (_commonExtensionWindowState this)) as [[r | ex] state];
      simpl in Hthrow; [discriminate |].
    split; [reflexivity | eexists; reflexivity].
Qed.

Lemma failures_return_null_witness :
  returnsNullWithWarning
    (executeCommand ExecuteSamples.parseEmptyObject "no-colon" JsUndefined
       ExecuteSamples.manager) ExecuteSamples.manager
  /\ returnsNullWithWarning
       (executeCommand ExecuteSamples.parseEmptyObject "nobody:cmd?%7B%7D"
          JsUndefined ExecuteSamples.manager) ExecuteSamples.manager
  /\ returnsNullWithWarning
       (executeCommand ExecuteSamples.parseEmptyObject "sample:missing"
          JsUndefined ExecuteSamples.manager) ExecuteSamples.manager
  /\ returnsNullWithWarning
       (executeCommand ExecuteSamples.parseEmptyObject "sample:boom"
          (JsNumber 1) ExecuteSamples.manager) ExecuteSamples.manager.
Proof.
  split; [| split; [| split]]; apply failures_return_null.
  - apply WrongColons. discriminate.
  - apply (@NoExtension _ _ _ _ (JsObject [])); reflexivity.
  - apply (@NoCommand _ _ _ _ (JsObject []) ExecuteSamples.extension);
      reflexivity.
  - apply (@HandlerThrows _ _ _ _ (JsNumber 1) ExecuteSamples.extension
             ExecuteSamples.boomFunc (Error "boom")); reflexivity.
Defined.

End ExecuteClaims.

(** ** Start-up *)

Module LifecycleFacts.
Import Js Manager.
Local Open Scope string_scope.

Section WithCollaborators.

Variable isMainProcessExtension : Metadata.ExtensionMetadata -> bool.
Variable isSupportedOnThisPlatform : Metadata.ExtensionMetadata -> bool.
Variable path_join : string -> string -> string.
Variable require : string -> Completion (option ExtensionModule).
Variable new_CommandsRegistry :
  string -> list Metadata.ExtensionCommandContribution -> CommandsRegistry.

Let startResult' := startResult path_join require new_CommandsRegistry.
Let activated' := activated path_join require new_CommandsRegistry.
Let startLog' := startLog path_join require new_CommandsRegistry.
Let starts' :=
  startsInRenderProcess isMainProcessExtension isSupportedOnThisPlatform.

(** One start: it returns, and adds what [activated] and [startLog]
    say. *)
Lemma startExtension_eq (metadata : Metadata.ExtensionMetadata)
    (this : ExtensionManagerImpl) :
  _startExtension path_join require new_CommandsRegistry metadata this =
  (Return tt,
   mkManager (_log this ++ startLog' metadata)%list (_extensionMetadata this)
     (_activeExtensions this ++ activated' metadata)%list
     (_commonExtensionWindowState this)).
Proof.
  subst startLog' activated'.
  unfold _startExtension, startLog, activated, startResult,
    _loadExtensionModule.
  destruct (Metadata.main metadata) as [main |].
  - unfold bind, log_info, try_catch, call.
    destruct (require (path_join (Metadata.path metadata) main))
      as [[m |] | ex]; simpl.
    + destruct (activate m _) as [[publicApi context] | ex]; simpl;
        rewrite <- ?app_assoc, ?app_nil_r; reflexivity.
    + rewrite app_nil_r. reflexivity.
    + rewrite <- app_assoc, app_nil_r. reflexivity.
  - unfold bind, log_info, push_activeExtension. simpl. reflexivity.
Qed.

(** The loop of [startUp]: no start stops it. *)
Lemma startLoop_eq (extensions : list Metadata.ExtensionMetadata) :
  forall this : ExtensionManagerImpl,
    for_of extensions
      (fun extensionInfo =>
         if negb (isMainProcessExtension extensionInfo)
            && isSupportedOnThisPlatform extensionInfo
         then _startExtension path_join require new_CommandsRegistry
                extensionInfo
         else ret tt)
      this =
    (Return tt,
     mkManager
       (_log this ++ flat_map startLog' (filter starts' extensions))%list
       (_extensionMetadata this)
       (_activeExtensions this
        ++ flat_map activated' (filter starts' extensions))%list
       (_commonExtensionWindowState this)).
Proof.
  subst starts'. unfold startsInRenderProcess.
  induction extensions as [| md rest IH]; intros this.
  - simpl. rewrite !app_nil_r. destruct this. reflexivity.
  - simpl for_of. unfold bind at 1.
    destruct (negb (isMainProcessExtension md) && isSupportedOnThisPlatform md)
      eqn:E.
    + rewrite startExtension_eq, IH. simpl. rewrite E. simpl.
      rewrite <- !app_assoc. reflexivity.
    + unfold ret at 1. rewrite IH. simpl. rewrite E. reflexivity.
Qed.

Lemma activated_metadata (metadata : Metadata.ExtensionMetadata) :
  map Manager.metadata (activated' metadata)
  = if isActivated path_join require new_CommandsRegistry metadata
    then [metadata] else [].
Proof.
  subst activated'. unfold activated, isActivated, startResult.
  destruct (Metadata.main metadata) as [main |]; [| reflexivity].
  destruct (require (path_join (Metadata.path metadata) main))
    as [[m |] | ex]; try reflexivity.
  destruct (activate m _) as [[publicApi context] | ex]; reflexivity.
Qed.

Lemma added_metadata (extensions : list Metadata.ExtensionMetadata) :
  map Manager.metadata (flat_map activated' extensions)
  = filter (isActivated path_join require new_CommandsRegistry) extensions.
Proof.
  induction extensions as [| md rest IH]; simpl.
  - reflexivity.
  - rewrite map_app, activated_metadata, IH.
    destruct (isActivated path_join require new_CommandsRegistry md);
      reflexivity.
Qed.

Lemma startLog_logged (extensions : list Metadata.ExtensionMetadata)
    (metadata : Metadata.ExtensionMetadata) (line : LogRecord) :
  In metadata extensions -> In line (startLog' metadata) ->
  In line (flat_map startLog' extensions).
Proof.
  intros Hin Hline. apply in_flat_map. exists metadata. split; assumption.
Qed.

Lemma added_app (before after : list Metadata.ExtensionMetadata) :
  added isMainProcessExtension isSupportedOnThisPlatform path_join require
    new_CommandsRegistry (before ++ after)
  = (added isMainProcessExtension isSupportedOnThisPlatform path_join require
       new_CommandsRegistry before
     ++ added isMainProcessExtension isSupportedOnThisPlatform path_join
          require new_CommandsRegistry after)%list.
Proof. unfold added. rewrite filter_app, flat_map_app. reflexivity. Qed.

Lemma added_without (before after : list Metadata.ExtensionMetadata)
    (md : Metadata.ExtensionMetadata) :
  activated' md = [] ->
  added isMainProcessExtension isSupportedOnThisPlatform path_join require
    new_CommandsRegistry (before ++ md :: after)
  = (added isMainProcessExtension isSupportedOnThisPlatform path_join require
       new_CommandsRegistry before
     ++ added isMainProcessExtension isSupportedOnThisPlatform path_join
          require new_CommandsRegistry after)%list.
Proof.
  intros Hnone. unfold added. rewrite filter_app, flat_map_app.
  cbn [filter].
  destruct (startsInRenderProcess isMainProcessExtension
              isSupportedOnThisPlatform md); [| reflexivity].
  cbn [flat_map]. fold activated'. rewrite Hnone. reflexivity.
Qed.

End WithCollaborators.

End LifecycleFacts.

Module LifecycleClaims.
Import Js Manager LifecycleFacts.
Local Open Scope string_scope.

(** C8.  [startUp] returns for every list of metadata.  The active list
    grows by the extensions that activate, in the order of the metadata
    (of those that are not for the main process and are supported here).
    An extension whose module fails to load, or whose [activate] throws,
    leaves a warning in the log and is not added, and the extensions
    before and after it are started as they would be without it. *)
Theorem startUp_isolates_failures :
  forall (isMainProcessExtension isSupportedOnThisPlatform :
            Metadata.ExtensionMetadata -> bool)
         (requestExtensionMetadataSync : list Metadata.ExtensionMetadata)
         (path_join : string -> string -> string)
         (require : string -> Completion (option ExtensionModule))
         (new_CommandsRegistry :
            string -> list Metadata.ExtensionCommandContribution ->
            CommandsRegistry)
         (this : ExtensionManagerImpl),
    let run :=
      startUp isMainProcessExtension isSupportedOnThisPlatform
        requestExtensionMetadataSync path_join require new_CommandsRegistry
        this in
    let starts :=
      startsInRenderProcess isMainProcessExtension isSupportedOnThisPlatform in
    let result := startResult path_join require new_CommandsRegistry in
    let addedBy :=
      added isMainProcessExtension isSupportedOnThisPlatform path_join require
        new_CommandsRegistry in
    fst run = Return tt
    /\ _activeExtensions (snd run)
       = (_activeExtensions this ++ addedBy requestExtensionMetadataSync)%list
    /\ map metadata (addedBy requestExtensionMetadataSync)
       = filter (isActivated path_join require new_CommandsRegistry)
           (filter starts requestExtensionMetadataSync)
    /\ (forall before md after,
          requestExtensionMetadataSync = (before ++ md :: after)%list ->
          starts md = true ->
          (forall mainJsPath ex,
             result md = LoadFailed mainJsPath ex ->
             In (LogWarn ("Unable to load " ++ mainJsPath ++ ". "
                          ++ JsError_toString ex))
               (_log (snd run))
             /\ addedBy requestExtensionMetadataSync
                = (addedBy before ++ addedBy after)%list)
          /\ (forall ex,
                result md = ActivationThrew ex ->
                In (LogWarn ("Exception occurred while starting extensions "
                             ++ Metadata.name md ++ ". "
                             ++ JsError_toString ex))
                  (_log (snd run))
                /\ addedBy requestExtensionMetadataSync
                   = (addedBy before ++ addedBy after)%list)).
Proof.
  intros isMain isSupported request path_join require new_registry this
    run starts result addedBy.
  assert (Hrun : run =
            (Return tt,
             mkManager
               (_log this
                ++ flat_map (startLog path_join require new_registry)
                     (filter starts request))%list
               request
               (_activeExtensions this ++ addedBy request)%list
               (_commonExtensionWindowState this))).
  { subst run. unfold startUp, bind at 1, set_extensionMetadata.
    cbn [_extensionMetadata].
    rewrite (startLoop_eq isMain isSupported). reflexivity. }
  rewrite Hrun. cbn [fst snd _activeExtensions _log].
  split; [reflexivity |]. split; [reflexivity |].
  split; [apply added_metadata |].
  intros before md after Hlist Hstarts.
  assert (Hin : In md (filter starts request)).
  { apply filter_In. split; [| exact Hstarts].
    rewrite Hlist. apply in_or_app. right. left. reflexivity. }
  assert (Hsplit : activated path_join require new_registry md = [] ->
            addedBy request = (addedBy before ++ addedBy after)%list).
  { intros Hnone. subst addedBy. rewrite Hlist.
    now apply added_without. }
  split.
  - intros mainJsPath ex Hres.
    split; [| apply Hsplit; unfold activated; fold result; now rewrite Hres].
    apply in_or_app. right.
    apply (startLog_logged _ _ _ _ md); [exact Hin |].
    unfold startLog. fold result. rewrite Hres. right. left. reflexivity.
  - intros ex Hres.
    split; [| apply Hsplit; unfold activated; fold result; now rewrite Hres].
    apply in_or_app. right.
    apply (startLog_logged _ _ _ _ md); [exact Hin |].
    unfold startLog. fold result. rewrite Hres. right. left. reflexivity.
Qed.

(** On [LifecycleSamples.discovered]: the first extension fails to load,
    the second is for the main process, the third throws in [activate];
    the fourth and the fifth are started and are the active list. *)
Lemma startUp_isolates_failures_witness :
  fst (startUp LifecycleSamples.isMainProcessExtension
         LifecycleSamples.isSupportedOnThisPlatform
         LifecycleSamples.discovered LifecycleSamples.path_join
         LifecycleSamples.require LifecycleSamples.new_CommandsRegistry
         newManager)
  = Return tt
  /\ map metadata
       (_activeExtensions
          (snd (startUp LifecycleSamples.isMainProcessExtension
                  LifecycleSamples.isSupportedOnThisPlatform
                  LifecycleSamples.discovered LifecycleSamples.path_join
                  LifecycleSamples.require
                  LifecycleSamples.new_CommandsRegistry newManager)))
     = [LifecycleSamples.goodMetadata; QuerySamples.sampleMetadata]
  /\ In (LogWarn "Unable to load /extensions/broken/main.js. Error: Cannot find module")
       (_log
          (snd (startUp LifecycleSamples.isMainProcessExtension
                  LifecycleSamples.isSupportedOnThisPlatform
                  LifecycleSamples.discovered LifecycleSamples.path_join
                  LifecycleSamples.require
                  LifecycleSamples.new_CommandsRegistry newManager)))
  /\ In (LogWarn "Exception occurred while starting extensions throwing. Error: activation failed")
       (_log
          (snd (startUp LifecycleSamples.isMainProcessExtension
                  LifecycleSamples.isSupportedOnThisPlatform
                  LifecycleSamples.discovered LifecycleSamples.path_join
                  LifecycleSamples.require
                  LifecycleSamples.new_CommandsRegistry newManager))).
Proof.
  pose proof (startUp_isolates_failures
                LifecycleSamples.isMainProcessExtension
                LifecycleSamples.isSupportedOnThisPlatform
                LifecycleSamples.discovered LifecycleSamples.path_join
                LifecycleSamples.require
                LifecycleSamples.new_CommandsRegistry newManager) as H.
  cbv zeta in H. destruct H as (Hret & Hactive & _ & Hfail).
  split; [exact Hret |].
  split; [rewrite Hactive; reflexivity |].
  split.
  - destruct (Hfail [] LifecycleSamples.brokenMetadata
                [LifecycleSamples.mainOnlyMetadata;
                 LifecycleSamples.throwingMetadata;
                 LifecycleSamples.goodMetadata; QuerySamples.sampleMetadata]
                eq_refl eq_refl) as (Hload & _).
    exact (proj1 (Hload "/extensions/broken/main.js"
                    (Error "Cannot find module") eq_refl)).
  - destruct (Hfail [LifecycleSamples.brokenMetadata;
                     LifecycleSamples.mainOnlyMetadata]
                LifecycleSamples.throwingMetadata
                [LifecycleSamples.goodMetadata; QuerySamples.sampleMetadata]
                eq_refl eq_refl) as (_ & Hthrow).
    exact (proj1 (Hthrow (Error "activation failed") eq_refl)).
Defined.

End LifecycleClaims.

(* ================================================================== *)
(** * Part III: further properties of the code                        *)
(* ================================================================== *)

(** ** The aggregator, field by field *)

Module AggregatorFacts.
Import Dom FocusState FocusStateFacts AggregatorSpec.

Lemma scanTarget_activeTextEditor (s : CommonExtensionWindowState)
    (t : EventTarget) :
  activeTextEditor (scanTarget s t)
  = if isTextEditorNode t then Some t else activeTextEditor s.
Proof.
  unfold scanTarget, isTextEditorNode.
  destruct (instanceof t TerminalViewer || instanceof t TextViewer);
    repeat (break_if; simpl); reflexivity.
Qed.

Lemma scanTarget_activeTabsWidget (s : CommonExtensionWindowState)
    (t : EventTarget) :
  activeTabsWidget (scanTarget s t)
  = if instanceof t TabWidget then Some t else activeTabsWidget s.
Proof.
  unfold scanTarget.
  destruct (instanceof t TabWidget);
    repeat (break_if; simpl); reflexivity.
Qed.

Lemma scanTarget_activeTabContent (s : CommonExtensionWindowState)
    (t : EventTarget) :
  activeTabContent (scanTarget s t)
  = if grandparentIsTabWidget t then Some t else activeTabContent s.
Proof.
  unfold scanTarget.
  destruct (grandparentIsTabWidget t);
    repeat (break_if; simpl); reflexivity.
Qed.

Lemma scanTarget_isInputFieldFocus (s : CommonExtensionWindowState)
    (t : EventTarget) :
  isInputFieldFocus (scanTarget s t)
  = instanceof t HTMLInputElement || isInputFieldFocus s.
Proof.
  unfold scanTarget.
  destruct (instanceof t HTMLInputElement);
    repeat (break_if; simpl); reflexivity.
Qed.

Lemma scanTarget_activeViewerElement (s : CommonExtensionWindowState)
    (t : EventTarget) :
  activeViewerElement (scanTarget s t)
  = if instanceof t ViewerElement
    then
      match activeViewerElement s with
      | None => Some t
      | Some current =>
          if instanceof current EmbeddedViewer then Some t else Some current
      end
    else activeViewerElement s.
Proof.
  destruct s as [tc at_ ft ae fe tw av fv inp].
  unfold scanTarget. unfold_setters. cbn [activeTabContent activeTerminal
    focusTerminal activeTextEditor focusTextEditor activeTabsWidget
    activeViewerElement focusViewerElement isInputFieldFocus].
  destruct (instanceof t EtTerminal),
    (instanceof t TerminalViewer || instanceof t TextViewer),
    (instanceof t ViewerElement), (instanceof t TabWidget),
    (grandparentIsTabWidget t), (instanceof t HTMLInputElement);
    cbn; destruct av as [current |]; cbn; try reflexivity;
    destruct (instanceof current EmbeddedViewer); reflexivity.
Qed.

(** A field that each matching node overwrites ends as the last match. *)
Lemma scan_last_match (proj : CommonExtensionWindowState -> option EventTarget)
    (test : EventTarget -> bool) :
  (forall s t, proj (scanTarget s t) = if test t then Some t else proj s) ->
  forall path s,
    proj (fold_left scanTarget path s)
    = match lastMatching test path with
      | Some u => Some u
      | None => proj s
      end.
Proof.
  intros Hstep. induction path as [| t rest IH]; intros s; simpl.
  - reflexivity.
  - rewrite IH, Hstep.
    destruct (lastMatching test rest); [reflexivity |].
    destruct (test t); reflexivity.
Qed.

Lemma scan_isInputFieldFocus (path : list EventTarget) :
  forall s,
    isInputFieldFocus (fold_left scanTarget path s)
    = existsb (fun t => instanceof t HTMLInputElement) path
      || isInputFieldFocus s.
Proof.
  induction path as [| t rest IH]; intros s; simpl.
  - reflexivity.
  - rewrite IH, scanTarget_isInputFieldFocus.
    destruct (instanceof t HTMLInputElement),
      (existsb (fun t0 => instanceof t0 HTMLInputElement) rest),
      (isInputFieldFocus s); reflexivity.
Qed.

Lemma scan_activeViewerElement (path : list EventTarget) :
  forall s,
    activeViewerElement (fold_left scanTarget path s)
    = match activeViewerElement s with
      | None => chosenViewer path
      | Some current =>
          if instanceof current EmbeddedViewer
          then
            match chosenViewer path with
            | Some v => Some v
            | None => Some current
            end
          else Some current
      end.
Proof.
  induction path as [| t rest IH]; intros s; simpl.
  - destruct (activeViewerElement s) as [current |]; [| reflexivity].
    destruct (instanceof current EmbeddedViewer); reflexivity.
  - rewrite IH, scanTarget_activeViewerElement.
    destruct (instanceof t ViewerElement) eqn:Ev.
    + destruct (activeViewerElement s) as [current |].
      * destruct (instanceof current EmbeddedViewer) eqn:Ec.
        -- destruct (instanceof t EmbeddedViewer); [| reflexivity].
           destruct (chosenViewer rest); reflexivity.
        -- rewrite Ec. reflexivity.
      * destruct (instanceof t EmbeddedViewer); reflexivity.
    + reflexivity.
Qed.

Lemma mirrorFocus_fields (s : CommonExtensionWindowState) :
  mirrorFocus s
  = mkState (activeTabContent s) (activeTerminal s) (activeTerminal s)
      (activeTextEditor s) (activeTextEditor s) (activeTabsWidget s)
      (activeViewerElement s) (activeViewerElement s) (isInputFieldFocus s).
Proof. reflexivity. Qed.

Lemma strict_eq_refl (r : option EventTarget) : strict_eq r r = true.
Proof. destruct r; simpl; [apply Nat.eqb_refl | reflexivity]. Qed.

Lemma js_or_idem (a b : option EventTarget) : js_or a (js_or a b) = js_or a b.
Proof. destruct a; reflexivity. Qed.

Lemma js_or_same (a : option EventTarget) : js_or a a = a.
Proof. destruct a; reflexivity. Qed.

Lemma merge_focusImpliesActive (newState s : CommonExtensionWindowState) :
  focusImpliesActive s ->
  focusImpliesActive (_mergeExtensionWindowState newState s).
Proof.
  intros (Ht & He & Hv).
  destruct (strict_eq (activeTabContent s) (activeTabContent newState)) eqn:E.
  - rewrite (merge_same_tab_fields _ _ E). unfold focusImpliesActive. simpl.
    repeat split; intros H; apply js_or_not_null; auto.
  - rewrite (merge_other_tab_fields _ _ E). unfold focusImpliesActive. simpl.
    repeat split; intros H; exact H.
Qed.

End AggregatorFacts.

Module AggregatorExtras.
Import Dom FocusState FocusStateFacts AggregatorSpec AggregatorFacts.

(** X1.  In the snapshot of an event the active and focus text editor are
    the last text-editor node of the composed path, the tab widget is the
    last [TabWidget] of the path, and the tab content is the last node
    whose grandparent is a [TabWidget]: among several, the one nearest to
    the root. *)
Theorem snapshot_last_matches :
  forall ev : Event,
    let S := getExtensionWindowStateFromEvent ev in
    activeTextEditor S = lastMatching isTextEditorNode (composedPath ev)
    /\ focusTextEditor S = lastMatching isTextEditorNode (composedPath ev)
    /\ activeTabsWidget S
       = lastMatching (fun t => instanceof t TabWidget) (composedPath ev)
    /\ activeTabContent S
       = lastMatching grandparentIsTabWidget (composedPath ev).
Proof.
  intros ev S. subst S. unfold getExtensionWindowStateFromEvent.
  rewrite mirrorFocus_fields. simpl.
  rewrite (scan_last_match activeTextEditor isTextEditorNode
             scanTarget_activeTextEditor).
  rewrite (scan_last_match activeTabsWidget
             (fun t => instanceof t TabWidget) scanTarget_activeTabsWidget).
  rewrite (scan_last_match activeTabContent grandparentIsTabWidget
             scanTarget_activeTabContent).
  simpl.
  destruct (lastMatching isTextEditorNode (composedPath ev)),
    (lastMatching (fun t => instanceof t TabWidget) (composedPath ev)),
    (lastMatching grandparentIsTabWidget (composedPath ev));
    repeat split.
Qed.

(** X2.  In the snapshot of an event the active and focus viewer element
    are the first viewer element of the composed path that is not an
    embedded viewer; when every viewer element of the path is an embedded
    viewer they are the last of them, and null when the path has no viewer
    element. *)
Theorem snapshot_viewer_element :
  forall ev : Event,
    let S := getExtensionWindowStateFromEvent ev in
    activeViewerElement S = chosenViewer (composedPath ev)
    /\ focusViewerElement S = chosenViewer (composedPath ev).
Proof.
  intros ev S. subst S. unfold getExtensionWindowStateFromEvent.
  rewrite mirrorFocus_fields. simpl.
  rewrite scan_activeViewerElement. simpl. split; reflexivity.
Qed.

(** X3.  The snapshot's input-field flag is set exactly when some node of
    the composed path is an [HTMLInputElement]. *)
Theorem snapshot_input_field_focus :
  forall ev : Event,
    isInputFieldFocus (getExtensionWindowStateFromEvent ev)
    = existsb (fun t => instanceof t HTMLInputElement) (composedPath ev).
Proof.
  intros ev. unfold getExtensionWindowStateFromEvent.
  rewrite mirrorFocus_fields. simpl.
  rewrite scan_isInputFieldFocus. simpl. apply orb_false_r.
Qed.

(** X4.  Merging the same snapshot twice is the same as merging it once;
    so is handling the same focus event twice. *)
Theorem merge_is_idempotent :
  forall (newState state : CommonExtensionWindowState) (ev : Event),
    _mergeExtensionWindowState newState
      (_mergeExtensionWindowState newState state)
    = _mergeExtensionWindowState newState state
    /\ updateExtensionWindowStateFromEvent ev
         (updateExtensionWindowStateFromEvent ev state)
       = updateExtensionWindowStateFromEvent ev state.
Proof.
  assert (Hmerge : forall newState state,
            _mergeExtensionWindowState newState
              (_mergeExtensionWindowState newState state)
            = _mergeExtensionWindowState newState state).
  { intros newState state.
    assert (Hsame : strict_eq
                      (activeTabContent
                         (_mergeExtensionWindowState newState state))
                      (activeTabContent newState) = true).
    { destruct (strict_eq (activeTabContent state)
                  (activeTabContent newState)) eqn:E.
      - rewrite (merge_same_tab_fields _ _ E). simpl. apply strict_eq_refl.
      - rewrite (merge_other_tab_fields _ _ E). simpl. apply strict_eq_refl. }
    rewrite (merge_same_tab_fields _ _ Hsame).
    destruct (strict_eq (activeTabContent state) (activeTabContent newState))
      eqn:E.
    - rewrite (merge_same_tab_fields _ _ E). simpl.
      rewrite !js_or_idem. reflexivity.
    - rewrite (merge_other_tab_fields _ _ E). simpl.
      rewrite !js_or_same. reflexivity. }
  intros newState state ev. split; [apply Hmerge |].
  unfold updateExtensionWindowStateFromEvent. apply Hmerge.
Qed.

(** X5.  From the initial state, and from any state where it holds, every
    run of focus events keeps this: a focus terminal, text editor or viewer
    element that is set has its active counterpart set. *)
Theorem focus_implies_active_invariant :
  forall (evs : list Event) (state : CommonExtensionWindowState),
    focusImpliesActive state ->
    focusImpliesActive (updateFromEvents evs state).
Proof.
  induction evs as [| ev rest IH]; intros state Hinv.
  - exact Hinv.
  - unfold updateFromEvents. simpl. apply IH.
    unfold updateExtensionWindowStateFromEvent.
    now apply merge_focusImpliesActive.
Qed.

Lemma focus_implies_active_invariant_witness :
  focusImpliesActive emptyState
  /\ focusImpliesActive
       (updateFromEvents
          [Samples.evTerminal; Samples.evTabOnly; Samples.evOtherTab]
          emptyState).
Proof.
  assert (H0 : focusImpliesActive emptyState)
    by (repeat split; intros H; exact H).
  split; [exact H0 |].
  exact (focus_implies_active_invariant
           [Samples.evTerminal; Samples.evTabOnly; Samples.evOtherTab]
           emptyState H0).
Defined.

End AggregatorExtras.

(** ** When-variables and the query's filters *)

Module QueryFacts.
Import Js Manager Lookups.
Local Open Scope string_scope.

Lemma collectEntries_eq
    (bee_evaluate : FocusState.WhenVariables -> string -> bool)
    (options : InternalTypes.CommandQueryOptions)
    (context : FocusState.CommonExtensionWindowState)
    (active : list ActiveExtension) :
  collectEntries bee_evaluate options context active
  = flat_map
      (fun ext =>
         map (customize ext)
           (filter (qualifies bee_evaluate options context) (contributed ext)))
      active.
Proof.
  unfold collectEntries. induction active as [| ext rest IH].
  - reflexivity.
  - cbn [flat_map]. rewrite IH. f_equal. unfold contributed.
    induction (Metadata.commands (Metadata.contributes (metadata ext)))
      as [| c cs IHc].
    + reflexivity.
    + cbn [flat_map filter].
      destruct (qualifies bee_evaluate options context c).
      * cbn [map]. rewrite <- IHc. unfold customize.
        destruct (getFunctionCustomizer (commands (contextImpl ext))
                    (Metadata.command c)); reflexivity.
      * exact IHc.
Qed.

Lemma Map_get_set (index : CategoryIndex) (k q : Metadata.Category)
    (v : list string) :
  Map_get (Map_set index k v) q
  = if k =? q then Some v else Map_get index q.
Proof.
  induction index as [| [k1 v1] rest IH]; simpl.
  - reflexivity.
  - destruct (String.eqb_spec k1 k) as [-> | Hne]; simpl.
    + destruct (k =? q); reflexivity.
    + rewrite IH.
      destruct (String.eqb_spec k1 q) as [-> | Hq].
      * destruct (String.eqb_spec k q) as [-> | _];
          [contradiction | reflexivity].
      * reflexivity.
Qed.

Lemma buildIndex_from (pairs : list InternalTypes.CommandWithCategory)
    (k : Metadata.Category) :
  forall index : CategoryIndex,
    Map_get
      (fold_left
         (fun index commandWithCategory =>
            let c := InternalTypes.cwc_category commandWithCategory in
            let index1 :=
              if negb (Map_has index c) then Map_set index c [] else index in
            match Map_get index1 c with
            | Some arr =>
                Map_set index1 c
                  (arr ++ [InternalTypes.cwc_command commandWithCategory])
            | None => index1
            end)
         pairs index) k
    = match Map_get index k with
      | Some arr => Some (arr ++ commandsOf k pairs)%list
      | None =>
          match commandsOf k pairs with
          | [] => None
          | cmds => Some cmds
          end
      end.
Proof.
  induction pairs as [| p rest IH]; intros index.
  - simpl. destruct (Map_get index k); [rewrite app_nil_r |]; reflexivity.
  - cbn [fold_left]. rewrite IH. clear IH. cbv zeta.
    unfold Map_has, commandsOf. cbn [filter].
    destruct (Map_get index (InternalTypes.cwc_category p)) as [arr |] eqn:G;
      cbn [negb].
    + rewrite G, Map_get_set.
      destruct (String.eqb_spec (InternalTypes.cwc_category p) k)
        as [E | N].
      * rewrite E in G. rewrite G. cbn [map].
        rewrite <- app_assoc. reflexivity.
      * reflexivity.
    + rewrite Map_get_set, String.eqb_refl, !Map_get_set.
      destruct (String.eqb_spec (InternalTypes.cwc_category p) k)
        as [E | N].
      * rewrite E in G. rewrite G. cbn [map app]. reflexivity.
      * reflexivity.
Qed.

Lemma buildIndex_get (pairs : list InternalTypes.CommandWithCategory)
    (k : Metadata.Category) :
  Map_get (buildIndex pairs) k
  = match commandsOf k pairs with
    | [] => None
    | cmds => Some cmds
    end.
Proof. unfold buildIndex. rewrite buildIndex_from. reflexivity. Qed.

Lemma indexOf_found (arr : list string) (x : string) :
  negb (Array_indexOf String.eqb arr x =? -1)%Z = existsb (String.eqb x) arr.
Proof.
  unfold Array_indexOf.
  destruct (OrderFacts.Array_indexOf_from_spec x arr 0) as [Hnone Hsome].
  destruct (existsb (String.eqb x) arr).
  - specialize (Hsome eq_refl).
    destruct (Z.eqb_spec (Array_indexOf_from String.eqb x arr 0) (-1));
      [lia | reflexivity].
  - rewrite (Hnone eq_refl). reflexivity.
Qed.

Lemma namedBy_commandsOf (pairs : list InternalTypes.CommandWithCategory)
    (c : Metadata.ExtensionCommandContribution) :
  existsb (String.eqb (Metadata.command c))
    (commandsOf (Metadata.category c) pairs)
  = namedBy pairs c.
Proof.
  unfold commandsOf, namedBy.
  induction pairs as [| p rest IH]; simpl.
  - reflexivity.
  - destruct (InternalTypes.cwc_category p =? Metadata.category c); simpl.
    + rewrite IH, (String.eqb_sym (Metadata.command c)). reflexivity.
    + exact IH.
Qed.

(** The filter on pairs of category and command. *)
Lemma commandPredicate_eq (pairs : list InternalTypes.CommandWithCategory)
    (c : Metadata.ExtensionCommandContribution) :
  match Map_get (buildIndex pairs) (Metadata.category c) with
  | None => false
  | Some arr =>
      negb (Array_indexOf String.eqb arr (Metadata.command c) =? -1)%Z
  end
  = namedBy pairs c.
Proof.
  rewrite buildIndex_get, <- namedBy_commandsOf.
  destruct (commandsOf (Metadata.category c) pairs) as [| x xs] eqn:E.
  - reflexivity.
  - apply indexOf_found.
Qed.

End QueryFacts.

Module QueryExtras.
Import Js Manager Lookups QueryFacts.
Local Open Scope string_scope.

(** X6.  The when-variables of any focus state are consistent: [true] and
    [false] are the constants; [terminalFocus] says whether a focus
    terminal is present; exactly one of [isCursorMode] and [isNormalMode]
    holds with terminal focus and neither without; [viewerFocus] holds
    exactly when a focus viewer element is present and no terminal has the
    focus; [textEditorFocus] holds exactly when a focus text editor is
    present and [isNormalMode] does not hold; and [isTextEditing] is
    [textEditorFocus] together with the editor being editable. *)
Theorem when_variables_consistent :
  forall state : FocusState.CommonExtensionWindowState,
    let w := FocusState._createWhenVariables state in
    FocusState.wv_true w = true
    /\ FocusState.wv_false w = false
    /\ FocusState.terminalFocus w
       = Dom.not_null (FocusState.focusTerminal state)
    /\ xorb (FocusState.isCursorMode w) (FocusState.isNormalMode w)
       = FocusState.terminalFocus w
    /\ FocusState.isCursorMode w && FocusState.isNormalMode w = false
    /\ FocusState.viewerFocus w
       = negb (FocusState.terminalFocus w)
         && Dom.not_null (FocusState.focusViewerElement state)
    /\ FocusState.textEditorFocus w
       = Dom.not_null (FocusState.focusTextEditor state)
         && negb (FocusState.isNormalMode w)
    /\ FocusState.isTextEditing w
       = FocusState.textEditorFocus w
         && match FocusState.focusTextEditor state with
            | Some editor => Dom.getEditable editor
            | None => false
            end.
Proof.
  intros state w. subst w. unfold FocusState._createWhenVariables.
  destruct (FocusState.focusTerminal state) as [term |];
    [destruct (Dom.Mode_eqb (Dom.getMode term) Dom.CURSOR) |];
    destruct (FocusState.focusViewerElement state);
    destruct (FocusState.focusTextEditor state) as [editor |];
    simpl; try destruct (Dom.getEditable editor);
    repeat split.
Qed.

(** X7.  A query returns, in some order, exactly the entries of the
    commands that qualify: for every active extension and every command it
    contributes that passes the filters, the command with the extension's
    customizer applied, as often as it is contributed.  The filters see the
    command as contributed, not as customized. *)
Theorem query_returns_the_qualifying :
  forall (bee_evaluate : FocusState.WhenVariables -> string -> bool)
         (options : InternalTypes.CommandQueryOptions)
         (context : FocusState.CommonExtensionWindowState)
         (this : ExtensionManagerImpl),
    let result :=
      queryCommandsWithExtensionWindowState bee_evaluate options context
        this in
    Permutation
      (flat_map
         (fun ext =>
            map (customize ext)
              (filter (qualifies bee_evaluate options context)
                 (contributed ext)))
         (_activeExtensions this))
      result
    /\ (forall e,
          In e result <->
          exists ext c,
            In ext (_activeExtensions this)
            /\ In c (contributed ext)
            /\ qualifies bee_evaluate options context c = true
            /\ e = customize ext c).
Proof.
  intros bee_evaluate options context this result.
  assert (Hperm : Permutation
            (flat_map
               (fun ext =>
                  map (customize ext)
                    (filter (qualifies bee_evaluate options context)
                       (contributed ext)))
               (_activeExtensions this))
            result).
  { subst result. unfold queryCommandsWithExtensionWindowState.
    rewrite collectEntries_eq. unfold _sortCommandsInPlace.
    apply SortFacts.Array_sort_perm. }
  split; [exact Hperm |].
  intros e. split.
  - intros Hin.
    apply (Permutation_in _ (Permutation_sym Hperm)) in Hin.
    apply in_flat_map in Hin. destruct Hin as (ext & Hext & Hin).
    apply in_map_iff in Hin. destruct Hin as (c & Hc & Hin).
    apply filter_In in Hin. destruct Hin as [Hin Hq].
    exists ext, c. repeat split; auto.
  - intros (ext & c & Hext & Hc & Hq & ->).
    apply (Permutation_in _ Hperm).
    apply in_flat_map. exists ext. split; [exact Hext |].
    apply in_map. apply filter_In. split; assumption.
Qed.

(** X8.  For a command whose when-clause is the empty string the when
    filter decides nothing: the command qualifies with the filter exactly
    when it qualifies without it, whatever the focus state and whatever
    the expression evaluator. *)
Theorem empty_when_clause_passes :
  forall (bee_evaluate : FocusState.WhenVariables -> string -> bool)
         (options : InternalTypes.CommandQueryOptions)
         (context : FocusState.CommonExtensionWindowState)
         (c : Metadata.ExtensionCommandContribution),
    Metadata.when c = "" ->
    qualifies bee_evaluate options context c
    = qualifies bee_evaluate (withoutWhen options) context c.
Proof.
  intros bee_evaluate options context c Hwhen.
  unfold qualifies, withoutWhen.
  cbn [InternalTypes.categories InternalTypes.commandPalette
       InternalTypes.contextMenu InternalTypes.emptyPaneMenu
       InternalTypes.newTerminalMenu InternalTypes.commandsWithCategories
       InternalTypes.when].
  destruct (InternalTypes.when options); [| reflexivity].
  unfold _createWhenPredicate. rewrite Hwhen. reflexivity.
Qed.

Lemma empty_when_clause_passes_witness :
  Metadata.when QuerySamples.knownCommand = ""
  /\ qualifies MoreSamples.rejectAll MoreSamples.whenOnly
       Samples.stateOnTerminal QuerySamples.knownCommand
     = true.
Proof.
  split; [reflexivity |].
  rewrite (empty_when_clause_passes MoreSamples.rejectAll MoreSamples.whenOnly
             Samples.stateOnTerminal QuerySamples.knownCommand eq_refl).
  reflexivity.
Defined.

(** X9.  A query that asks for an empty list of categories, or for an
    empty list of pairs of category and command, returns the empty
    list. *)
Theorem empty_request_returns_nothing :
  forall (bee_evaluate : FocusState.WhenVariables -> string -> bool)
         (options : InternalTypes.CommandQueryOptions)
         (context : FocusState.CommonExtensionWindowState)
         (this : ExtensionManagerImpl),
    InternalTypes.categories options = Some []
    \/ InternalTypes.commandsWithCategories options = Some [] ->
    queryCommandsWithExtensionWindowState bee_evaluate options context this
    = [].
Proof.
  intros bee_evaluate options context this Hempty.
  assert (Hq : forall c, qualifies bee_evaluate options context c = false).
  { intros c. unfold qualifies. destruct Hempty as [H | H]; rewrite H.
    - cbn [Array_indexOf Array_indexOf_from Z.eqb negb].
      rewrite andb_false_r. reflexivity.
    - reflexivity. }
  unfold queryCommandsWithExtensionWindowState. rewrite collectEntries_eq.
  assert (Hnil : flat_map
            (fun ext =>
               map (customize ext)
                 (filter (qualifies bee_evaluate options context)
                    (contributed ext)))
            (_activeExtensions this) = []).
  { induction (_activeExtensions this) as [| ext rest IH]; simpl.
    - reflexivity.
    - rewrite IH, app_nil_r.
      induction (contributed ext) as [| c cs IHc]; simpl.
      + reflexivity.
      + rewrite Hq. exact IHc. }
  rewrite Hnil. reflexivity.
Qed.

Lemma empty_request_returns_nothing_witness :
  queryCommandsWithExtensionWindowState QuerySamples.acceptAll
    QuerySamples.noOptions FocusState.emptyState QuerySamples.sampleManager
  <> []
  /\ queryCommandsWithExtensionWindowState QuerySamples.acceptAll
       MoreSamples.noCategory FocusState.emptyState QuerySamples.sampleManager
     = [].
Proof.
  split; [discriminate |].
  apply empty_request_returns_nothing. left. reflexivity.
Defined.

(** X10.  A command qualifies exactly when it passes every filter the
    options hold: some requested pair has its category and its command;
    each menu flag asked for equals the command's flag; its category is
    among the requested categories; and, with the when filter, its
    when-clause is empty or the evaluator accepts it for the variables of
    the given focus state. *)
Theorem qualifies_is_the_conjunction :
  forall (bee_evaluate : FocusState.WhenVariables -> string -> bool)
         (options : InternalTypes.CommandQueryOptions)
         (context : FocusState.CommonExtensionWindowState)
         (c : Metadata.ExtensionCommandContribution),
    qualifies bee_evaluate options context c
    = match InternalTypes.commandsWithCategories options with
      | Some pairs => namedBy pairs c
      | None => true
      end
      && match InternalTypes.commandPalette options with
         | Some flag => Bool.eqb (Metadata.commandPalette c) flag
         | None => true
         end
      && match InternalTypes.contextMenu options with
         | Some flag => Bool.eqb (Metadata.contextMenu c) flag
         | None => true
         end
      && match InternalTypes.emptyPaneMenu options with
         | Some flag => Bool.eqb (Metadata.emptyPaneMenu c) flag
         | None => true
         end
      && match InternalTypes.newTerminalMenu options with
         | Some flag => Bool.eqb (Metadata.newTerminalMenu c) flag
         | None => true
         end
      && match InternalTypes.categories options with
         | Some categories =>
             existsb (String.eqb (Metadata.category c)) categories
         | None => true
         end
      && (if InternalTypes.when options
          then (Metadata.when c =? "")
               || bee_evaluate (FocusState._createWhenVariables context)
                    (Metadata.when c)
          else true).
Proof.
  intros bee_evaluate options context c.
  unfold qualifies.
  repeat f_equal.
  - destruct (InternalTypes.commandsWithCategories options) as [pairs |];
      [apply commandPredicate_eq | reflexivity].
  - destruct (InternalTypes.commandPalette options); reflexivity.
  - destruct (InternalTypes.contextMenu options); reflexivity.
  - destruct (InternalTypes.emptyPaneMenu options); reflexivity.
  - destruct (InternalTypes.newTerminalMenu options); reflexivity.
  - destruct (InternalTypes.categories options) as [categories |];
      [apply indexOf_found | reflexivity].
  - destruct (InternalTypes.when options); [| reflexivity].
    unfold _createWhenPredicate.
    destruct (Metadata.when c =? ""); reflexivity.
Qed.

(** X11.  [_sortCompareFunc] is a consistent comparator: its value is -1,
    0 or 1; swapping the arguments negates it; and it is 0 exactly when
    the two entries agree in category position, order and title. *)
Theorem sortCompareFunc_consistent :
  forall a b : Metadata.ExtensionCommandContribution,
    (_sortCompareFunc a b = -1 \/ _sortCompareFunc a b = 0
     \/ _sortCompareFunc a b = 1)%Z
    /\ (_sortCompareFunc b a = - _sortCompareFunc a b)%Z
    /\ (_sortCompareFunc a b = 0%Z <-> QuerySpec.sameKey a b = true).
Proof.
  intros a b. unfold _sortCompareFunc, QuerySpec.sameKey.
  rewrite (Z.eqb_sym (categoryIndex (Metadata.category b))),
    (Z.eqb_sym (Metadata.order b)),
    (String.eqb_sym (Metadata.title b)).
  destruct (Z.eqb_spec (categoryIndex (Metadata.category a))
              (categoryIndex (Metadata.category b))) as [Ec | Nc];
    cbn [negb andb].
  2: { destruct (Z.ltb_spec (categoryIndex (Metadata.category a))
                   (categoryIndex (Metadata.category b)));
       destruct (Z.ltb_spec (categoryIndex (Metadata.category b))
                   (categoryIndex (Metadata.category a)));
       try lia; repeat split; auto; intros; discriminate. }
  destruct (Z.eqb_spec (Metadata.order a) (Metadata.order b)) as [Eo | No];
    cbn [negb andb].
  2: { destruct (Z.ltb_spec (Metadata.order a) (Metadata.order b));
       destruct (Z.ltb_spec (Metadata.order b) (Metadata.order a));
       try lia; repeat split; auto; intros; discriminate. }
  destruct (String.eqb_spec (Metadata.title a) (Metadata.title b))
    as [Et | Nt]; cbn [negb].
  - repeat split; auto.
  - unfold String.ltb.
    rewrite (String.compare_antisym (Metadata.title b) (Metadata.title a)).
    destruct (String.compare (Metadata.title a) (Metadata.title b)) eqn:E;
      cbn [CompOpp].
    + apply String.compare_eq_iff in E. contradiction.
    + repeat split; auto; intros; discriminate.
    + repeat split; auto; intros; discriminate.
Qed.

End QueryExtras.

(** ** Parsing and running a command *)

Module ParseFacts.
Import Js Manager Lookups.
Local Open Scope string_scope.

Lemma substring_0_0 (s : string) : substring 0 0 s = "".
Proof. destruct s; reflexivity. Qed.

Lemma index_firstPos (c : ascii) (s : string) :
  String.index 0 (String c EmptyString) s = firstPos c s.
Proof.
  induction s as [| d rest IH]; simpl.
  - reflexivity.
  - rewrite IH. destruct (ascii_dec c d) as [E | N].
    + subst d. rewrite Ascii.eqb_refl.
      assert (H : String.prefix "" rest = true)
        by (destruct rest; reflexivity).
      rewrite H. reflexivity.
    + destruct (Ascii.eqb_spec d c); [congruence | reflexivity].
Qed.

Lemma firstPos_none (c : ascii) (s : string) :
  firstPos c s = None <-> count_char c s = 0.
Proof.
  induction s as [| d rest IH]; simpl.
  - tauto.
  - destruct (Ascii.eqb d c); simpl.
    + split; [discriminate | lia].
    + destruct (firstPos c rest).
      * split; [discriminate |]. intros H. apply IH in H. discriminate.
      * split; [intros _; now apply IH | reflexivity].
Qed.

Lemma firstPos_some (c : ascii) (s : string) :
  forall n,
    firstPos c s = Some n ->
    s = substring 0 n s
        ++ String c (substring (n + 1) (String.length s - (n + 1)) s)
    /\ count_char c (substring 0 n s) = 0.
Proof.
  induction s as [| d rest IH]; intros n; simpl.
  - discriminate.
  - destruct (Ascii.eqb_spec d c) as [-> | Hne].
    + intros [= <-]. simpl. split; [| reflexivity].
      f_equal. clear IH.
      assert (H : forall s, substring 0 (String.length s) s = s).
      { induction s as [| x s IHs]; simpl; [reflexivity | now rewrite IHs]. }
      rewrite Nat.sub_0_r. now rewrite H.
    + destruct (firstPos c rest) as [k |]; [| discriminate].
      intros [= <-]. destruct (IH k eq_refl) as [Heq Hcount].
      simpl. split.
      * f_equal. exact Heq.
      * destruct (Ascii.eqb_spec d c); [contradiction | exact Hcount].
Qed.

Lemma splitCommand_no_query (command : string) :
  count_char "?" command = 0 -> splitCommand command = (command, None).
Proof.
  intros H. apply firstPos_none in H.
  unfold splitCommand, indexOf. rewrite index_firstPos, H. reflexivity.
Qed.

Lemma count_char_app (c : ascii) (a b : string) :
  count_char c (a ++ b) = count_char c a + count_char c b.
Proof.
  induction a as [| d a IH]; simpl; [reflexivity | rewrite IH; lia].
Qed.

Lemma split_none (sep : ascii) (s : string) :
  count_char sep s = 0 -> split sep s = [s].
Proof.
  induction s as [| d s IH]; simpl.
  - reflexivity.
  - destruct (Ascii.eqb d sep); simpl; [discriminate |].
    intros H. rewrite (IH H). reflexivity.
Qed.

Lemma split_app (sep : ascii) (a b : string) :
  count_char sep a = 0 ->
  split sep (a ++ String sep b) = a :: split sep b.
Proof.
  induction a as [| d a IH]; simpl.
  - rewrite Ascii.eqb_refl. reflexivity.
  - destruct (Ascii.eqb d sep); simpl; [discriminate |].
    intros H. rewrite (IH H). reflexivity.
Qed.

Lemma one_colon_shape (name : string) :
  count_char ":" name = 1 ->
  exists e c,
    name = e ++ ":" ++ c /\ count_char ":" e = 0 /\ count_char ":" c = 0.
Proof.
  induction name as [| d rest IH]; simpl.
  - discriminate.
  - destruct (Ascii.eqb_spec d ":") as [-> | Hne]; simpl.
    + intros H. exists "", rest. repeat split. lia.
    + intros H. destruct (IH H) as (e & c & -> & He & Hc).
      exists (String d e), c. repeat split; [| exact Hc].
      simpl. destruct (Ascii.eqb_spec d ":"); [contradiction | exact He].
Qed.

Lemma decodeFrom_plain (s : string) :
  count_char "%" s = 0 -> decodeFrom s 0 = Return (codeUnits s).
Proof.
  induction s as [| c rest IH]; simpl.
  - reflexivity.
  - destruct (Ascii.eqb c "%"); simpl; [discriminate |].
    intros H. rewrite (IH H). reflexivity.
Qed.

End ParseFacts.

Module ExecuteExtras.
Import Js Manager Lookups ExecuteFacts ParseFacts.
Local Open Scope string_scope.

(** X12.  [splitCommand] cuts a command string at its first question
    mark: the name part has no question mark, and the string is the name
    part alone, or the name part, a question mark and the argument string
    (which may hold further question marks). *)
Theorem splitCommand_round_trip :
  forall command : string,
    count_char "?" (fst (splitCommand command)) = 0
    /\ match snd (splitCommand command) with
       | Some argsString =>
           command = fst (splitCommand command) ++ "?" ++ argsString
       | None => command = fst (splitCommand command)
       end.
Proof.
  intros command. unfold splitCommand, indexOf.
  rewrite index_firstPos.
  destruct (firstPos "?" command) as [n |] eqn:E.
  - destruct (firstPos_some "?" command n E) as [Heq Hcount].
    assert (Hz : negb (Z.of_nat n =? -1)%Z = true)
      by (destruct (Z.eqb_spec (Z.of_nat n) (-1)); [lia | reflexivity]).
    rewrite Hz. unfold slice, slice_from. cbn [fst snd].
    rewrite Nat2Z.id, Nat.sub_0_r. split; [exact Hcount | exact Heq].
  - cbn [Z.eqb negb fst snd]. split; [| reflexivity].
    now apply firstPos_none.
Qed.

(** X13.  When the name part has one colon, the arguments are at hand,
    the first extension of the name has a function for the command and the
    function returns, [executeCommand] returns the function's result; the
    log is as before, and the canonical focus state is as the function
    left it. *)
Theorem command_result_is_returned :
  forall (JSON_parse : list N -> Completion JsValue) (command : string)
         (args v r : JsValue) (this : ExtensionManagerImpl)
         (ext : ActiveExtension) (f : CommandFunc)
         (state' : FocusState.CommonExtensionWindowState),
    count_char ":" (fst (splitCommand command)) = 1 ->
    resolveArgs JSON_parse args (snd (splitCommand command)) = Return v ->
    findExtension (_activeExtensions this)
      (aliasedExtensionName (split ":" (fst (splitCommand command))))
    = Some ext ->
    getCommandFunction (commands (contextImpl ext))
      (fst (splitCommand command)) = Some f ->
    f v (_commonExtensionWindowState this) = (Return r, state') ->
    executeCommand JSON_parse command args this
    = (Return r, withWindowState state' this).
Proof.
  intros JSON_parse command args v r this ext f state'
    Hcolon Hargs Hext Hfunc Hrun.
  rewrite executeCommand_eq. cbv zeta.
  apply two_parts_iff_one_colon in Hcolon. rewrite Hcolon, Hargs.
  rewrite (dispatch_extension _ _ _ _ _ _ Hext), Hfunc, runCommandFunc_eq.
  rewrite Hrun. reflexivity.
Qed.

Lemma command_result_is_returned_witness :
  executeCommand ExecuteSamples.parseEmptyObject "sample:ok?%7B%7D"
    JsUndefined ExecuteSamples.manager
  = (Return (JsString "done"),
     withWindowState
       (FocusState.set_isInputFieldFocus true Samples.stateOnTerminal)
       ExecuteSamples.manager).
Proof.
  exact (command_result_is_returned ExecuteSamples.parseEmptyObject
           "sample:ok?%7B%7D" JsUndefined (JsObject []) (JsString "done")
           ExecuteSamples.manager ExecuteSamples.extension
           ExecuteSamples.okFunc
           (FocusState.set_isInputFieldFocus true Samples.stateOnTerminal)
           eq_refl eq_refl eq_refl eq_refl eq_refl).
Defined.

(** X14.  [executeCommand] throws only in one way: the arguments were left
    out, the command string has a query part after a name part with one
    colon, and [decodeURIComponent] throws on the query part or
    [JSON.parse] throws on the decoded text.  It throws that exception,
    before any extension is looked up, and leaves the manager as it
    was. *)
Theorem executeCommand_throws_only_on_arguments :
  forall (JSON_parse : list N -> Completion JsValue) (command : string)
         (args : JsValue) (this : ExtensionManagerImpl) (ex : JsError),
    fst (executeCommand JSON_parse command args this) = Throw ex ->
    is_undefined args = true
    /\ count_char ":" (fst (splitCommand command)) = 1
    /\ (exists argsString,
          snd (splitCommand command) = Some argsString
          /\ (decodeURIComponent argsString = Throw ex
              \/ exists decoded,
                   decodeURIComponent argsString = Return decoded
                   /\ JSON_parse decoded = Throw ex))
    /\ snd (executeCommand JSON_parse command args this) = this.
Proof.
  intros JSON_parse command args this ex Hthrow.
  destruct (executeCommand_throws JSON_parse command args this ex Hthrow)
    as [Hargs Hsame].
  assert (Hcolon : count_char ":" (fst (splitCommand command)) = 1).
  { apply two_parts_iff_one_colon.
    rewrite executeCommand_eq in Hthrow. cbv zeta in Hthrow.
    destruct (List.length (split ":" (fst (splitCommand command))) =? 2)%nat;
      [reflexivity | discriminate]. }
  unfold resolveArgs in Hargs.
  destruct (is_undefined args); [| discriminate].
  destruct (snd (splitCommand command)) as [argsString |]; [| discriminate].
  repeat split; try assumption.
  exists argsString. split; [reflexivity |].
  destruct (decodeURIComponent argsString) as [decoded | e].
  - right. exists decoded. split; [reflexivity | exact Hargs].
  - left. injection Hargs as ->. reflexivity.
Qed.

Lemma executeCommand_throws_only_on_arguments_witness :
  fst (executeCommand ExecuteSamples.parseEmptyObject "sample:ok?%7B"
         JsUndefined ExecuteSamples.manager)
  = Throw SyntaxError
  /\ (is_undefined JsUndefined = true
      /\ count_char ":" (fst (splitCommand "sample:ok?%7B")) = 1
      /\ (exists argsString,
            snd (splitCommand "sample:ok?%7B") = Some argsString
            /\ (decodeURIComponent argsString = Throw SyntaxError
                \/ exists decoded,
                     decodeURIComponent argsString = Return decoded
                     /\ ExecuteSamples.parseEmptyObject decoded
                        = Throw SyntaxError))
      /\ snd (executeCommand ExecuteSamples.parseEmptyObject "sample:ok?%7B"
                JsUndefined ExecuteSamples.manager)
         = ExecuteSamples.manager).
Proof.
  assert (H : fst (executeCommand ExecuteSamples.parseEmptyObject
                     "sample:ok?%7B" JsUndefined ExecuteSamples.manager)
              = Throw SyntaxError) by reflexivity.
  split; [exact H |].
  exact (executeCommand_throws_only_on_arguments
           ExecuteSamples.parseEmptyObject "sample:ok?%7B" JsUndefined
           ExecuteSamples.manager SyntaxError H).
Defined.

(** X15.  For a command string [e:c] with no further colon and no question
    mark, and with arguments passed, [executeCommand] looks in the first
    active extension named [e], or named [internal-commands] when [e] is
    [extraterm], for the function registered under the whole string
    [e:c], and passes it the arguments. *)
Theorem well_formed_command_dispatches :
  forall (JSON_parse : list N -> Completion JsValue) (e c : string)
         (args : JsValue) (this : ExtensionManagerImpl),
    count_char ":" e = 0 -> count_char ":" c = 0 ->
    count_char "?" (e ++ ":" ++ c) = 0 ->
    is_undefined args = false ->
    executeCommand JSON_parse (e ++ ":" ++ c) args this
    = dispatchCommand (_activeExtensions this)
        (if e =? "extraterm" then "internal-commands" else e)
        (e ++ ":" ++ c) args this.
Proof.
  intros JSON_parse e c args this He Hc Hq Hargs.
  rewrite executeCommand_eq. cbv zeta.
  rewrite (splitCommand_no_query _ Hq). cbn [fst snd].
  change (e ++ ":" ++ c) with (e ++ String ":" c).
  rewrite (split_app ":" e c He), (split_none ":" c Hc).
  cbn [List.length Nat.eqb].
  unfold resolveArgs. rewrite Hargs.
  unfold aliasedExtensionName. cbn [nth]. reflexivity.
Qed.

Lemma well_formed_command_dispatches_witness :
  executeCommand ExecuteSamples.parseEmptyObject ("extraterm" ++ ":" ++ "ok")
    JsNull ExecuteSamples.manager
  = dispatchCommand (_activeExtensions ExecuteSamples.manager)
      "internal-commands" "extraterm:ok" JsNull ExecuteSamples.manager.
Proof.
  exact (well_formed_command_dispatches ExecuteSamples.parseEmptyObject
           "extraterm" "ok" JsNull ExecuteSamples.manager
           eq_refl eq_refl eq_refl eq_refl).
Defined.

(** X16.  Of several active extensions with one name only the first is
    consulted: what [executeCommand] does after the form check depends on
    the extensions before the first of the name and on those after it not
    at all. *)
Theorem later_extensions_are_shadowed :
  forall (before after : list ActiveExtension) (ext : ActiveExtension)
         (extensionName commandName : string) (v : JsValue)
         (this : ExtensionManagerImpl),
    Metadata.name (metadata ext) = extensionName ->
    findExtension before extensionName = None ->
    dispatchCommand (before ++ ext :: after) extensionName commandName v this
    = dispatchCommand [ext] extensionName commandName v this.
Proof.
  intros before after ext extensionName commandName v this Hname Hbefore.
  assert (H1 : findExtension (before ++ ext :: after) extensionName
               = Some ext).
  { unfold findExtension in *.
    induction before as [| x rest IH]; simpl in *.
    - rewrite Hname, String.eqb_refl. reflexivity.
    - destruct (Metadata.name (metadata x) =? extensionName);
        [discriminate | now apply IH]. }
  assert (H2 : findExtension [ext] extensionName = Some ext).
  { unfold findExtension. simpl. rewrite Hname, String.eqb_refl.
    reflexivity. }
  rewrite (dispatch_extension _ _ _ _ _ _ H1),
    (dispatch_extension _ _ _ _ _ _ H2).
  reflexivity.
Qed.

Lemma later_extensions_are_shadowed_witness :
  dispatchCommand [QuerySamples.sampleExtension; ExecuteSamples.extension]
    "sample" "sample:ok" JsNull ExecuteSamples.manager
  = dispatchCommand [QuerySamples.sampleExtension] "sample" "sample:ok"
      JsNull ExecuteSamples.manager
  /\ fst (dispatchCommand
            [QuerySamples.sampleExtension; ExecuteSamples.extension]
            "sample" "sample:ok" JsNull ExecuteSamples.manager)
     = Return JsNull.
Proof.
  split; [| reflexivity].
  exact (later_extensions_are_shadowed [] [ExecuteSamples.extension]
           QuerySamples.sampleExtension "sample" "sample:ok" JsNull
           ExecuteSamples.manager eq_refl eq_refl).
Defined.

(** X17.  With arguments passed, or with a command string that has no
    query part, [executeCommandWithExtensionWindowState] returns and the
    canonical focus state is the one from before the call. *)
Theorem temporary_execution_is_safe_with_arguments :
  forall (JSON_parse : list N -> Completion JsValue)
         (tempState : FocusState.CommonExtensionWindowState)
         (command : string) (args : JsValue) (this : ExtensionManagerImpl),
    is_undefined args = false \/ snd (splitCommand command) = None ->
    exists result,
      fst (executeCommandWithExtensionWindowState JSON_parse tempState
             command args this) = Return result
      /\ _commonExtensionWindowState
           (snd (executeCommandWithExtensionWindowState JSON_parse tempState
                   command args this))
         = _commonExtensionWindowState this.
Proof.
  intros JSON_parse tempState command args this Hsafe.
  rewrite executeCommandWithExtensionWindowState_eq.
  destruct (executeCommand JSON_parse command args
              (withWindowState tempState this)) as [[r | ex] after] eqn:E.
  - exists r. split; reflexivity.
  - exfalso.
    assert (Hthrow : fst (executeCommand JSON_parse command args
                            (withWindowState tempState this)) = Throw ex)
      by (rewrite E; reflexivity).
    apply executeCommand_throws in Hthrow. destruct Hthrow as [Hargs _].
    unfold resolveArgs in Hargs.
    destruct Hsafe as [H | H]; rewrite H in Hargs.
    + discriminate.
    + destruct (is_undefined args); discriminate.
Qed.

Lemma temporary_execution_is_safe_with_arguments_witness :
  exists result,
    fst (executeCommandWithExtensionWindowState
           ExecuteSamples.parseEmptyObject FocusState.emptyState
           "sample:boom?%" (JsNumber 1) ExecuteSamples.manager)
    = Return result
    /\ _commonExtensionWindowState
         (snd (executeCommandWithExtensionWindowState
                 ExecuteSamples.parseEmptyObject FocusState.emptyState
                 "sample:boom?%" (JsNumber 1) ExecuteSamples.manager))
       = _commonExtensionWindowState ExecuteSamples.manager.
Proof.
  apply temporary_execution_is_safe_with_arguments. left. reflexivity.
Defined.

End ExecuteExtras.

(** ** Lookups over the extensions *)

Module LookupFacts.
Import Js Manager Lookups.
Local Open Scope string_scope.

Lemma getExtensionContextByName_found (active : list ActiveExtension)
    (name : string) :
  fst (getExtensionContextByName_loop active name)
  = option_map contextImpl (findExtension active name).
Proof.
  unfold findExtension.
  induction active as [| ext rest IH]; simpl.
  - reflexivity.
  - destruct (Metadata.name (metadata ext) =? name); simpl.
    + reflexivity.
    + destruct (getExtensionContextByName_loop rest name). exact IH.
Qed.

Lemma findExtension_some (active : list ActiveExtension) (name : string) :
  match findExtension active name with
  | Some _ => true
  | None => false
  end
  = existsb (fun md => Metadata.name md =? name) (map metadata active).
Proof.
  unfold findExtension.
  induction active as [| ext rest IH]; simpl.
  - reflexivity.
  - destruct (Metadata.name (metadata ext) =? name); [reflexivity | exact IH].
Qed.

Lemma existsb_filter (A : Type) (p q : A -> bool) (l : list A) :
  existsb q (filter p l) = existsb (fun x => p x && q x) l.
Proof.
  induction l as [| x l IH]; simpl.
  - reflexivity.
  - destruct (p x); simpl; [now rewrite IH | exact IH].
Qed.

Lemma firstNonNull_none (A B : Type) (call : A -> option B) (xs : list A) :
  firstNonNull call xs = None <-> forall x, In x xs -> call x = None.
Proof.
  induction xs as [| x rest IH]; simpl.
  - split; [intros _ y [] | reflexivity].
  - destruct (call x) as [tag |] eqn:E.
    + split; [discriminate |]. intros H.
      rewrite <- E. apply H. left. reflexivity.
    + rewrite IH. split.
      * intros H y [<- | Hy]; [exact E | now apply H].
      * intros H y Hy. apply H. right. exact Hy.
Qed.

Lemma firstNonNull_some (A B : Type) (call : A -> option B) (xs : list A)
    (tag : B) :
  firstNonNull call xs = Some tag <->
  exists before x after,
    xs = (before ++ x :: after)%list
    /\ (forall y, In y before -> call y = None)
    /\ call x = Some tag.
Proof.
  induction xs as [| x rest IH]; simpl.
  - split; [discriminate |].
    intros (before & y & after & H & _). destruct before; discriminate.
  - destruct (call x) as [t |] eqn:E.
    + split.
      * intros [= ->]. exists [], x, rest. repeat split; auto.
        intros y [].
      * intros (before & y & after & Hxs & Hnone & Hy).
        destruct before as [| b before]; simpl in Hxs;
          injection Hxs as Hb Hrest.
        -- subst y. congruence.
        -- subst b. rewrite (Hnone x (or_introl eq_refl)) in E.
           discriminate.
    + rewrite IH. split.
      * intros (before & y & after & -> & Hnone & Hy).
        exists (x :: before), y, after. repeat split; auto.
        intros z [<- | Hz]; [exact E | now apply Hnone].
      * intros (before & y & after & Hxs & Hnone & Hy).
        destruct before as [| b before]; simpl in Hxs;
          injection Hxs as Hb Hrest.
        -- subst y. congruence.
        -- subst b. exists before, y, after. repeat split; auto.
           intros z Hz. apply Hnone. right. exact Hz.
Qed.

Lemma flat_map_through_map (A B C : Type) (h : A -> B) (g : B -> list C)
    (l : list A) :
  flat_map (fun x => g (h x)) l = flat_map g (map h l).
Proof.
  induction l as [| x l IH]; simpl; [reflexivity | now rewrite IH].
Qed.

(** [startUp] in one piece. *)
Lemma startUp_eq
    (isMainProcessExtension isSupportedOnThisPlatform :
       Metadata.ExtensionMetadata -> bool)
    (request : list Metadata.ExtensionMetadata)
    (path_join : string -> string -> string)
    (require : string -> Completion (option ExtensionModule))
    (new_CommandsRegistry :
       string -> list Metadata.ExtensionCommandContribution ->
       CommandsRegistry)
    (this : ExtensionManagerImpl) :
  startUp isMainProcessExtension isSupportedOnThisPlatform request path_join
    require new_CommandsRegistry this
  = (Return tt,
     mkManager
       (_log this
        ++ flat_map (startLog path_join require new_CommandsRegistry)
             (filter
                (startsInRenderProcess isMainProcessExtension
                   isSupportedOnThisPlatform)
                request))%list
       request
       (_activeExtensions this
        ++ added isMainProcessExtension isSupportedOnThisPlatform path_join
             require new_CommandsRegistry request)%list
       (_commonExtensionWindowState this)).
Proof.
  unfold startUp, bind at 1, set_extensionMetadata.
  cbn [_extensionMetadata].
  rewrite (LifecycleFacts.startLoop_eq isMainProcessExtension
             isSupportedOnThisPlatform).
  reflexivity.
Qed.

End LookupFacts.

Module LookupExtras.
Import Js Manager Lookups LookupFacts.
Local Open Scope string_scope.

(** X18.  After [startUp] on a manager with no active extension,
    [getExtensionContextByName] finds a context for a name exactly when
    some discovered extension of that name is meant for the render process
    and activated. *)
Theorem started_extensions_are_found :
  forall (isMainProcessExtension isSupportedOnThisPlatform :
            Metadata.ExtensionMetadata -> bool)
         (request : list Metadata.ExtensionMetadata)
         (path_join : string -> string -> string)
         (require : string -> Completion (option ExtensionModule))
         (new_CommandsRegistry :
            string -> list Metadata.ExtensionCommandContribution ->
            CommandsRegistry)
         (this : ExtensionManagerImpl) (name : string),
    _activeExtensions this = [] ->
    match
      fst (getExtensionContextByName name
             (snd (startUp isMainProcessExtension isSupportedOnThisPlatform
                     request path_join require new_CommandsRegistry this)))
    with
    | Some _ => true
    | None => false
    end
    = existsb
        (fun md =>
           startsInRenderProcess isMainProcessExtension
             isSupportedOnThisPlatform md
           && (isActivated path_join require new_CommandsRegistry md
               && (Metadata.name md =? name)))
        request.
Proof.
  intros isMain isSupported request path_join require new_registry this name
    Hfresh.
  rewrite startUp_eq. cbn [snd]. unfold getExtensionContextByName.
  cbn [_activeExtensions]. rewrite Hfresh. cbn [app].
  rewrite getExtensionContextByName_found.
  destruct (findExtension
              (added isMain isSupported path_join require new_registry
                 request) name) eqn:E;
    cbn [option_map];
    pose proof (findExtension_some
                  (added isMain isSupported path_join require new_registry
                     request) name) as H;
    rewrite E in H; rewrite H; unfold added;
    rewrite LifecycleFacts.added_metadata, !existsb_filter; reflexivity.
Qed.

Lemma started_extensions_are_found_witness :
  _activeExtensions newManager = []
  /\ (match fst (getExtensionContextByName "good"
                   LookupSamples.startedManager) with
      | Some _ => true
      | None => false
      end = true)
  /\ (match fst (getExtensionContextByName "throwing"
                   LookupSamples.startedManager) with
      | Some _ => true
      | None => false
      end = false).
Proof.
  split; [reflexivity |]. unfold LookupSamples.startedManager. split.
  - rewrite (started_extensions_are_found
               LifecycleSamples.isMainProcessExtension
               LifecycleSamples.isSupportedOnThisPlatform
               LifecycleSamples.discovered LifecycleSamples.path_join
               LifecycleSamples.require LifecycleSamples.new_CommandsRegistry
               newManager "good" eq_refl).
    reflexivity.
  - rewrite (started_extensions_are_found
               LifecycleSamples.isMainProcessExtension
               LifecycleSamples.isSupportedOnThisPlatform
               LifecycleSamples.discovered LifecycleSamples.path_join
               LifecycleSamples.require LifecycleSamples.new_CommandsRegistry
               newManager "throwing" eq_refl).
    reflexivity.
Defined.

(** X19.  After [startUp] on a manager with no active extension, the
    terminal and syntax theme formats are those of every discovered
    extension, also of one that is for the main process, failed to load or
    threw in its activation; the session types are those of the extensions
    that activated, in the order of discovery. *)
Theorem listings_after_startUp :
  forall (isMainProcessExtension isSupportedOnThisPlatform :
            Metadata.ExtensionMetadata -> bool)
         (request : list Metadata.ExtensionMetadata)
         (path_join : string -> string -> string)
         (require : string -> Completion (option ExtensionModule))
         (new_CommandsRegistry :
            string -> list Metadata.ExtensionCommandContribution ->
            CommandsRegistry)
         (sessionEditors :
            Metadata.ExtensionMetadata ->
            option (list SessionEditorContribution))
         (terminalThemeProviders syntaxThemeProviders :
            Metadata.ExtensionMetadata -> list ThemeProviderContribution)
         (this : ExtensionManagerImpl),
    _activeExtensions this = [] ->
    let after :=
      snd (startUp isMainProcessExtension isSupportedOnThisPlatform request
             path_join require new_CommandsRegistry this) in
    getAllTerminalThemeFormats terminalThemeProviders after
    = themeFormats terminalThemeProviders request
    /\ getAllSyntaxThemeFormats syntaxThemeProviders after
       = themeFormats syntaxThemeProviders request
    /\ getAllSessionTypes sessionEditors after
       = flat_map
           (fun md =>
              match sessionEditors md with
              | Some editors => map (fun se => (se_name se, se_type se)) editors
              | None => []
              end)
           (filter (isActivated path_join require new_CommandsRegistry)
              (filter
                 (startsInRenderProcess isMainProcessExtension
                    isSupportedOnThisPlatform)
                 request)).
Proof.
  intros isMain isSupported request path_join require new_registry
    sessionEditors terminalThemeProviders syntaxThemeProviders this Hfresh
    after.
  subst after. rewrite startUp_eq. cbn [snd].
  split; [reflexivity |]. split; [reflexivity |].
  unfold getAllSessionTypes. cbn [_activeExtensions].
  rewrite Hfresh. cbn [app].
  rewrite <- flat_map_concat_map.
  rewrite (flat_map_through_map _ _ _ metadata
             (fun md =>
                match sessionEditors md with
                | Some editors =>
                    map (fun se => (se_name se, se_type se)) editors
                | None => []
                end)).
  unfold added. rewrite LifecycleFacts.added_metadata. reflexivity.
Qed.

Lemma listings_after_startUp_witness :
  _activeExtensions newManager = []
  /\ getAllTerminalThemeFormats LookupSamples.terminalThemeProviders
       LookupSamples.startedManager
     = [("broken-themes", "Konsole"); ("good-themes", "iTerm");
        ("good-themes", "Xresources")]
  /\ getAllSessionTypes LookupSamples.sessionEditors
       LookupSamples.startedManager
     = [("Unix shell", "unix")].
Proof.
  pose proof (listings_after_startUp LifecycleSamples.isMainProcessExtension
                LifecycleSamples.isSupportedOnThisPlatform
                LifecycleSamples.discovered LifecycleSamples.path_join
                LifecycleSamples.require LifecycleSamples.new_CommandsRegistry
                LookupSamples.sessionEditors
                LookupSamples.terminalThemeProviders
                LookupSamples.terminalThemeProviders newManager eq_refl) as H.
  cbv zeta in H. destruct H as (Hterminal & _ & Hsession).
  split; [reflexivity |]. unfold LookupSamples.startedManager. split.
  - rewrite Hterminal. reflexivity.
  - rewrite Hsession. reflexivity.
Defined.

(** X20.  [findViewerElementTagByMimeType] returns the tag of the first
    active extension whose window knows the MIME type: it is null exactly
    when every active extension answers null, and a tag exactly when some
    extension answers it and every extension before that one answers
    null. *)
Theorem first_viewer_tag_wins :
  forall (window_findViewerElementTagByMimeType :
            InternalExtensionContext -> string -> option string)
         (mimeType : string) (this : ExtensionManagerImpl),
    (findViewerElementTagByMimeType window_findViewerElementTagByMimeType
       mimeType this = None
     <-> forall ext,
           In ext (_activeExtensions this) ->
           window_findViewerElementTagByMimeType (contextImpl ext) mimeType
           = None)
    /\ (forall tag,
          findViewerElementTagByMimeType
            window_findViewerElementTagByMimeType mimeType this = Some tag
          <-> exists before ext after,
                _activeExtensions this = (before ++ ext :: after)%list
                /\ (forall x,
                      In x before ->
                      window_findViewerElementTagByMimeType (contextImpl x)
                        mimeType = None)
                /\ window_findViewerElementTagByMimeType (contextImpl ext)
                     mimeType = Some tag).
Proof.
  intros w mimeType this. unfold findViewerElementTagByMimeType. split.
  - apply (firstNonNull_none _ _ (fun extension => w (contextImpl extension)
                                                 mimeType)).
  - intros tag.
    apply (firstNonNull_some _ _ (fun extension => w (contextImpl extension)
                                                 mimeType)).
Qed.

(** X21.  [getSessionEditorTagForType] asks only the active extensions
    that contribute session editors: it is null exactly when each of those
    answers null, whatever the windows of the other extensions would
    answer; and a tag it returns is the answer of an active extension that
    contributes session editors. *)
Theorem session_editor_tag_needs_contribution :
  forall (window_getSessionEditorTagForType :
            InternalExtensionContext -> string -> option string)
         (sessionEditors :
            Metadata.ExtensionMetadata ->
            option (list SessionEditorContribution))
         (sessionType : string) (this : ExtensionManagerImpl),
    (getSessionEditorTagForType window_getSessionEditorTagForType
       sessionEditors sessionType this = None
     <-> forall ext,
           In ext (_activeExtensions this) ->
           sessionEditors (metadata ext) <> None ->
           window_getSessionEditorTagForType (contextImpl ext) sessionType
           = None)
    /\ (forall tag,
          getSessionEditorTagForType window_getSessionEditorTagForType
            sessionEditors sessionType this = Some tag ->
          exists ext,
            In ext (_activeExtensions this)
            /\ sessionEditors (metadata ext) <> None
            /\ window_getSessionEditorTagForType (contextImpl ext)
                 sessionType = Some tag).
Proof.
  intros w sessionEditors sessionType this.
  unfold getSessionEditorTagForType. split.
  - rewrite firstNonNull_none. split.
    + intros H ext Hin Hse. apply H. apply filter_In. split; [exact Hin |].
      destruct (sessionEditors (metadata ext)); [reflexivity | congruence].
    + intros H ext Hin. apply filter_In in Hin. destruct Hin as [Hin Hse].
      apply H; [exact Hin |].
      destruct (sessionEditors (metadata ext)); [discriminate | discriminate].
  - intros tag Hsome.
    apply firstNonNull_some in Hsome.
    destruct Hsome as (before & ext & after & Hxs & _ & Htag).
    assert (Hin : In ext
              (filter
                 (fun ae =>
                    match sessionEditors (metadata ae) with
                    | Some _ => true
                    | None => false
                    end)
                 (_activeExtensions this))).
    { rewrite Hxs. apply in_or_app. right. left. reflexivity. }
    apply filter_In in Hin. destruct Hin as [Hin Hse].
    exists ext. repeat split; [exact Hin | | exact Htag].
    destruct (sessionEditors (metadata ext)); [discriminate | discriminate].
Qed.

(** On a manager whose one extension contributes no session editor the
    tag is null although the extension's window would name one. *)
Example session_editor_tag_without_contribution :
  LookupSamples.window_getSessionEditorTagForType
    (contextImpl QuerySamples.sampleExtension) "unix"
  = Some "sample-session-editor"
  /\ getSessionEditorTagForType
       LookupSamples.window_getSessionEditorTagForType
       LookupSamples.sessionEditors "unix" QuerySamples.sampleManager
     = None.
Proof. split; reflexivity. Qed.

End LookupExtras.

Module ParseExtras.
Import Js Manager Lookups ExecuteFacts ParseFacts.
Local Open Scope string_scope.

(** X22.  The form check of [executeCommand] accepts exactly the name
    parts of the shape [e:c] with no colon in [e] and none in [c]; the two
    parts are then [e] and [c]. *)
Theorem form_check_accepts_one_colon :
  forall name : string,
    (List.length (split ":" name) =? 2)%nat = true
    <-> exists e c,
          name = e ++ ":" ++ c
          /\ count_char ":" e = 0
          /\ count_char ":" c = 0
          /\ split ":" name = [e; c].
Proof.
  intros name. split.
  - intros H. apply two_parts_iff_one_colon in H.
    destruct (one_colon_shape name H) as (e & c & -> & He & Hc).
    exists e, c. repeat split; try assumption.
    change (e ++ ":" ++ c) with (e ++ String ":" c).
    rewrite (split_app ":" e c He), (split_none ":" c Hc). reflexivity.
  - intros (e & c & _ & _ & _ & ->). reflexivity.
Qed.

(** X23.  With the arguments left out and a query part that holds no
    percent sign, the arguments are what [JSON.parse] makes of the query
    part as it stands; with no query part they are the empty object; and
    arguments that are passed are used as they are, whatever the query
    part. *)
Theorem resolved_arguments :
  forall (JSON_parse : list N -> Completion JsValue) (args : JsValue)
         (query : string),
    (count_char "%" query = 0 ->
     resolveArgs JSON_parse JsUndefined (Some query)
     = JSON_parse (codeUnits query))
    /\ resolveArgs JSON_parse JsUndefined None = Return (JsObject [])
    /\ (is_undefined args = false ->
        forall argsString,
          resolveArgs JSON_parse args argsString = Return args).
Proof.
  intros JSON_parse args query. repeat split.
  - intros H. unfold resolveArgs, decodeURIComponent. simpl.
    rewrite (decodeFrom_plain query H). reflexivity.
  - intros H argsString. unfold resolveArgs. rewrite H. reflexivity.
Qed.

Lemma resolved_arguments_witness :
  count_char "%" "{}" = 0
  /\ resolveArgs ExecuteSamples.parseEmptyObject JsUndefined (Some "{}")
     = Return (JsObject [])
  /\ resolveArgs ExecuteSamples.parseEmptyObject (JsNumber 1) (Some "%")
     = Return (JsNumber 1).
Proof.
  pose proof (resolved_arguments ExecuteSamples.parseEmptyObject (JsNumber 1)
                "{}") as H.
  destruct H as (Hplain & _ & Hpassed).
  split; [reflexivity |]. split.
  - rewrite (Hplain eq_refl). reflexivity.
  - exact (Hpassed eq_refl (Some "%")).
Defined.

End ParseExtras.

(** ** Registering and disposing of a contribution *)

Module ContributionFacts.
Import Js Contributions.

Lemma firstn_length_app (A : Type) (l1 l2 : list A) :
  firstn (List.length l1) (l1 ++ l2) = l1.
Proof.
  induction l1 as [| x l1 IH]; simpl.
  - destruct l2; reflexivity.
  - now rewrite IH.
Qed.

Lemma skipn_length_app (A : Type) (l1 l2 : list A) (x : A) :
  skipn (List.length l1 + 1) (l1 ++ x :: l2) = l2.
Proof.
  induction l1 as [| y l1 IH]; simpl; [reflexivity | exact IH].
Qed.

Lemma splice_at (A : Type) (l1 l2 : list A) (x : A) :
  Array_splice1 (l1 ++ x :: l2) (Z.of_nat (List.length l1)) = l1 ++ l2.
Proof.
  unfold Array_splice1.
  assert (Hneg : (Z.of_nat (List.length l1) <? 0)%Z = false)
    by (apply Z.ltb_ge; lia).
  rewrite Hneg.
  assert (Hmin : Z.min (Z.of_nat (List.length l1))
                   (Z.of_nat (List.length (l1 ++ x :: l2)))
                 = Z.of_nat (List.length l1)).
  { rewrite length_app. simpl. lia. }
  rewrite Hmin, Nat2Z.id, firstn_length_app, skipn_length_app.
  reflexivity.
Qed.

Lemma splice_minus_one (A : Type) (l : list A) :
  Array_splice1 l (-1) = removelast l.
Proof.
  unfold Array_splice1. cbn [Z.ltb Z.compare].
  destruct l as [| x l].
  - reflexivity.
  - assert (H : Z.max (Z.of_nat (List.length (x :: l)) + -1) 0
                = Z.of_nat (List.length l))
      by (cbn [List.length]; lia).
    rewrite H, Nat2Z.id.
    assert (Hskip : skipn (List.length l + 1) (x :: l) = []).
    { rewrite Nat.add_1_r. apply skipn_all. }
    rewrite Hskip, app_nil_r.
    rewrite removelast_firstn_len. reflexivity.
Qed.

Section Objects.

Variable Ref : Type.
Variable same_object : Ref -> Ref -> bool.
Hypothesis same_object_spec :
  forall a b, same_object a b = true <-> a = b.

Lemma indexOf_absent (x : Ref) (l : list Ref) :
  forall i, ~ In x l -> Array_indexOf_from same_object x l i = (-1)%Z.
Proof.
  induction l as [| y l IH]; intros i Hnot; simpl.
  - reflexivity.
  - destruct (same_object y x) eqn:E.
    + apply same_object_spec in E. subst y. exfalso. apply Hnot. now left.
    + apply IH. intros H. apply Hnot. now right.
Qed.

Lemma indexOf_first (x : Ref) (l1 l2 : list Ref) :
  forall i,
    ~ In x l1 ->
    Array_indexOf_from same_object x (l1 ++ x :: l2) i
    = (i + Z.of_nat (List.length l1))%Z.
Proof.
  induction l1 as [| y l1 IH]; intros i Hnot; simpl.
  - assert (E : same_object x x = true) by now apply same_object_spec.
    rewrite E. lia.
  - destruct (same_object y x) eqn:E.
    + apply same_object_spec in E. subst y. exfalso. apply Hnot. now left.
    + rewrite IH; [lia |]. intros H. apply Hnot. now right.
Qed.

End Objects.

End ContributionFacts.

Module ContributionExtras.
Import Js Contributions ContributionFacts.

(** X24.  Disposing of the handle of a contribution that was registered
    as a new object takes exactly that contribution out of the array of
    commands, also when further contributions were registered after it:
    the array is as if it had never been registered. *)
Theorem dispose_undoes_registration :
  forall (Ref : Type) (same_object : Ref -> Ref -> bool)
         (commands later : list Ref) (contribution : Ref),
    (forall a b, same_object a b = true <-> a = b) ->
    ~ In contribution commands ->
    dispose same_object contribution
      (registerCommandContribution contribution commands ++ later)
    = commands ++ later.
Proof.
  intros Ref same_object commands later contribution Hspec Hnew.
  unfold dispose, registerCommandContribution, Array_indexOf.
  rewrite <- app_assoc. cbn [app].
  rewrite (indexOf_first Ref same_object Hspec contribution commands later 0
             Hnew).
  cbn [Z.add]. apply splice_at.
Qed.

Lemma dispose_undoes_registration_witness :
  (forall a b : nat, Nat.eqb a b = true <-> a = b)
  /\ ~ In 7 [1; 2]
  /\ dispose Nat.eqb 7 (registerCommandContribution 7 [1; 2] ++ [9])
     = [1; 2; 9].
Proof.
  assert (Hnew : ~ In 7 [1; 2]).
  { intros [H | [H | []]]; discriminate. }
  split; [exact Nat.eqb_eq |]. split; [exact Hnew |].
  exact (dispose_undoes_registration nat Nat.eqb [1; 2] [9] 7 Nat.eqb_eq
           Hnew).
Defined.

(** X25.  Disposing of a contribution that is not in the array, as a
    second [dispose] of one handle does, takes the last element out of the
    array, whichever contribution that is: [indexOf] yields -1 and
    [splice(-1, 1)] removes the last element. *)
Theorem dispose_of_absent_removes_last :
  forall (Ref : Type) (same_object : Ref -> Ref -> bool)
         (commands : list Ref) (contribution : Ref),
    (forall a b, same_object a b = true <-> a = b) ->
    ~ In contribution commands ->
    dispose same_object contribution commands = removelast commands.
Proof.
  intros Ref same_object commands contribution Hspec Habsent.
  unfold dispose, Array_indexOf.
  rewrite (indexOf_absent Ref same_object Hspec contribution commands 0
             Habsent).
  apply splice_minus_one.
Qed.

Lemma dispose_of_absent_removes_last_witness :
  (forall a b : nat, Nat.eqb a b = true <-> a = b)
  /\ ~ In 7 [1; 2; 9]
  /\ dispose Nat.eqb 7
       (dispose Nat.eqb 7 (registerCommandContribution 7 [1; 2] ++ [9]))
     = [1; 2].
Proof.
  assert (Habsent : ~ In 7 [1; 2; 9]).
  { intros [H | [H | [H | []]]]; discriminate. }
  split; [exact Nat.eqb_eq |]. split; [exact Habsent |].
  exact (dispose_of_absent_removes_last nat Nat.eqb [1; 2; 9] 7 Nat.eqb_eq
           Habsent).
Defined.

End ContributionExtras.
